(** * BumpChartReporting: candidate resolution, verified against the Python source

    A shallow embedding of the resolution engine of the bump-chart price
    reconciliation tool:

    - [src/bump_charts/plex_api.py]: credentials ([get_auth_for_pcn]),
      identity resolution ([_build_cache_key], [_query_part_key_api],
      [_select_part_key_from_rows], [retrieve_part_key]) and price
      resolution ([_fuzzy_match_customer], [_pick_best_price_row],
      [_select_price_from_rows], [query_price_api]);
    - [src/bump_charts/readers.py]: table and block discovery
      ([_find_main_table_header], [_find_price_blocks], [_find_price_column],
      [_find_date_above]), price-column and price-block selection
      ([_select_price_column], [_find_most_recent_price],
      [_extract_parts_from_rows]) and the loop over the sheets
      ([get_excel_part_info]);
    - [src/bump_charts/customers.py]: the two maps of [load_customer_metadata];
    - [src/bump_charts/utils.py]: [compute_effective_month_start];
    - [compare_prices.py]: [_process_part] and the per-file loop of [main].

    Conventions of the embedding.

    - Python [str] is [string] (text over 8-bit characters; case folding and
      white space are those of ASCII).
    - Python [float] is an exact rational ([Qc], canonical so that Python's
      [==] is Leibniz equality); the infinities used by the code as sort
      sentinels are the extra points of [xfloat].  Rounding and NaN are not
      modelled.
    - The interpreter's own conversions ([str] of a number, [float] and [int]
      of a string, [pandas.to_datetime], [round]) are the methods of the
      class [PyBuiltins]; every theorem holds for all instances.
    - A raised exception is the [Raise] outcome; [dict]s are [gmap]s; the
      network is a function handed to the code that calls it. *)

From Stdlib Require Import ZArith QArith Qround Qcanon Qcabs Ascii String.
From stdpp Require Import base decidable option list numbers strings pretty gmap.

Local Open Scope string_scope.
Local Open Scope list_scope.

(** ** Python strings *)

Module PyStr.

Definition lower_char (c : ascii) : ascii :=
  let n := nat_of_ascii c in
  if (65 <=? n)%nat && (n <=? 90)%nat then ascii_of_nat (n + 32) else c.

(** [s.lower()] *)
Fixpoint lower (s : string) : string :=
  match s with
  | EmptyString => EmptyString
  | String c t => String (lower_char c) (lower t)
  end.

(** The characters removed by [s.strip()]: TAB, LF, VT, FF, CR, the four
    separators FS..US and the space. *)
Definition is_space (c : ascii) : bool :=
  let n := nat_of_ascii c in
  ((9 <=? n)%nat && (n <=? 13)%nat) || ((28 <=? n)%nat && (n <=? 32)%nat).

Fixpoint lstrip (s : string) : string :=
  match s with
  | EmptyString => EmptyString
  | String c t => if is_space c then lstrip t else s
  end.

Fixpoint rstrip (s : string) : string :=
  match s with
  | EmptyString => EmptyString
  | String c t =>
      match rstrip t with
      | EmptyString => if is_space c then EmptyString else String c EmptyString
      | t' => String c t'
      end
  end.

(** [s.strip()] *)
Definition strip (s : string) : string := rstrip (lstrip s).

(** [needle in hay] *)
Fixpoint contains (needle hay : string) : bool :=
  String.prefix needle hay ||
  match hay with
  | EmptyString => false
  | String _ t => contains needle t
  end.

(** [s.replace(c, "")] for a one-character [c] *)
Fixpoint remove_char (c : ascii) (s : string) : string :=
  match s with
  | EmptyString => EmptyString
  | String d t => if Ascii.eqb c d then remove_char c t else String d (remove_char c t)
  end.

(** [s.split(sep)] for a one-character [sep] *)
Fixpoint split (sep : ascii) (s : string) : list string :=
  match s with
  | EmptyString => [EmptyString]
  | String c t =>
      if Ascii.eqb c sep then EmptyString :: split sep t
      else match split sep t with
           | h :: r => String c h :: r
           | [] => [String c EmptyString]
           end
  end.

Definition digit (n : Z) : ascii := ascii_of_nat (48 + Z.to_nat (n mod 10)).

(** [%02d] and [%04d] as [strftime] prints calendar fields *)
Definition pad2 (n : Z) : string :=
  String (digit (n / 10)) (String (digit n) EmptyString).
Definition pad4 (n : Z) : string :=
  String (digit (n / 1000)) (String (digit (n / 100)) (pad2 n)).

End PyStr.

(** ** Dates *)

Record date := mkDate { year : Z; month : Z; day : Z }.

Record datetime := mkDatetime {
  dt_date : date;
  hour : Z; minute : Z; second : Z; microsecond : Z
}.

Global Instance date_eq_dec : EqDecision date.
Proof. solve_decision. Defined.
Global Instance datetime_eq_dec : EqDecision datetime.
Proof. solve_decision. Defined.

(** Comparison of dates is the lexicographic comparison of their fields. *)
Fixpoint lex_ltb (a b : list Z) : bool :=
  match a, b with
  | x :: a', y :: b' => (x <? y)%Z || ((x =? y)%Z && lex_ltb a' b')
  | [], _ :: _ => true
  | _, [] => false
  end.

Definition date_fields (d : date) : list Z := [year d; month d; day d].
Definition datetime_fields (t : datetime) : list Z :=
  date_fields (dt_date t) ++ [hour t; minute t; second t; microsecond t].

Definition date_ltb (a b : date) : bool := lex_ltb (date_fields a) (date_fields b).
Definition datetime_ltb (a b : datetime) : bool :=
  lex_ltb (datetime_fields a) (datetime_fields b).

(** [datetime.combine(d, time.min)]: what [pandas.to_datetime] makes of a
    [date]. *)
Definition midnight (d : date) : datetime := mkDatetime d 0 0 0 0.

(** [t.replace(day=1, hour=0, minute=0, second=0, microsecond=0)] *)
Definition month_start (t : datetime) : datetime :=
  mkDatetime (mkDate (year (dt_date t)) (month (dt_date t)) 1) 0 0 0 0.

(** [f"{t:%Y-%m-%d}"] *)
Definition strftime_ymd (t : datetime) : string :=
  PyStr.pad4 (year (dt_date t)) +:+ "-" +:+ PyStr.pad2 (month (dt_date t)) +:+ "-"
  +:+ PyStr.pad2 (day (dt_date t)).

(** [t.strftime("%Y-%m-%dT%H:%M:%SZ")] *)
Definition strftime_iso (t : datetime) : string :=
  strftime_ymd t +:+ "T" +:+ PyStr.pad2 (hour t) +:+ ":" +:+ PyStr.pad2 (minute t)
  +:+ ":" +:+ PyStr.pad2 (second t) +:+ "Z".

(** ** Values, floats with infinities, exceptions *)

(** A decoded JSON scalar, as the web service returns it in a row. *)
Inductive value :=
| VNone
| VStr (s : string)
| VNum (q : Qc).

Global Instance value_eq_dec : EqDecision value.
Proof. solve_decision. Defined.

Global Instance value_countable : Countable value.
Proof.
  refine (inj_countable'
    (fun v => match v with
              | VNone => inl ()
              | VStr s => inr (inl s)
              | VNum q => inr (inr q)
              end)
    (fun x => match x with
              | inl _ => VNone
              | inr (inl s) => VStr s
              | inr (inr q) => VNum q
              end) _).
  by intros [].
Defined.

(** Python truthiness. *)
Definition truthy (v : value) : bool :=
  match v with
  | VNone => false
  | VStr s => negb (String.eqb s "")
  | VNum q => negb (bool_decide (q = 0%Qc))
  end.

Inductive xfloat :=
| NegInf
| Fin (q : Qc)
| PosInf.

Definition xneg (x : xfloat) : xfloat :=
  match x with
  | NegInf => PosInf
  | Fin q => Fin (- q)%Qc
  | PosInf => NegInf
  end.

Definition xltb (a b : xfloat) : bool :=
  match a, b with
  | NegInf, NegInf => false
  | NegInf, _ => true
  | Fin p, Fin q => bool_decide (p < q)%Qc
  | Fin _, PosInf => true
  | _, _ => false
  end.

Inductive exn :=
| IndexError
| KeyError (key : nat)
| Timeout
| OtherError (msg : string).

(** [str(exc)] *)
Definition exn_message (e : exn) : string :=
  match e with
  | IndexError => "list index out of range"
  | KeyError key => pretty key
  | Timeout => ""
  | OtherError msg => msg
  end.

Inductive outcome (A : Type) :=
| Ret (a : A)
| Raise (e : exn).
Arguments Ret {A} a.
Arguments Raise {A} e.

Global Instance outcome_ret : MRet outcome := @Ret.
Global Instance outcome_bind : MBind outcome := fun A B f m =>
  match m with
  | Ret a => f a
  | Raise e => Raise e
  end.

(** [row[i]]: an [IndexError] when the row is too short. *)
Definition getitem {A} (row : list A) (i : nat) : outcome A :=
  match row !! i with
  | Some v => Ret v
  | None => Raise IndexError
  end.

(** [[f(x) for x in l]] where [f] may raise *)
Fixpoint traverse {A B} (f : A -> outcome B) (l : list A) : outcome (list B) :=
  match l with
  | [] => Ret []
  | x :: l' => y ← f x; ys ← traverse f l'; Ret (y :: ys)
  end.

(** The conversions of the interpreter and of pandas the code relies on. *)
Class PyBuiltins := {
  (** [str(x)] of a number *)
  str_of_num : Qc -> string;
  (** [float(s)] of a string; [None] is [ValueError] *)
  float_of_str : string -> option Qc;
  (** [int(s)] of a string; [None] is [ValueError] *)
  int_of_str : string -> option Z;
  (** [pandas.to_datetime(v, errors="coerce")], time zone dropped; [None] is
      [NaT] *)
  to_datetime : value -> option datetime;
  (** [pandas.to_datetime(d).to_pydatetime()] of a [date]; [None] when pandas
      raises *)
  timestamp_of_date : date -> option datetime;
  (** [datetime.fromisoformat(s.replace("Z", "+00:00")).replace(tzinfo=None)] *)
  fromisoformat : string -> option datetime;
  (** [round(x, 5)] *)
  round5 : Qc -> Qc
}.

(** ** [min], [max] and [sorted] with a key *)

Section PyOrder.
Context {A K : Type} (ltb : K -> K -> bool) (key : A -> K).

(** The loop of [min(l, key=key)]: a later element replaces the best one
    only when its key is strictly smaller. *)
Fixpoint min_from (best : A) (l : list A) : A :=
  match l with
  | [] => best
  | x :: l' => min_from (if ltb (key x) (key best) then x else best) l'
  end.

Definition py_min (l : list A) : option A :=
  match l with
  | [] => None
  | x :: l' => Some (min_from x l')
  end.

(** The loop of [max(l, key=key)]. *)
Fixpoint max_from (best : A) (l : list A) : A :=
  match l with
  | [] => best
  | x :: l' => max_from (if ltb (key best) (key x) then x else best) l'
  end.

Definition py_max (l : list A) : option A :=
  match l with
  | [] => None
  | x :: l' => Some (max_from x l')
  end.

(** [sorted(l, key=key)] is a stable sort; insertion from the right keeps
    equal keys in their input order. *)
Fixpoint insert_by (x : A) (l : list A) : list A :=
  match l with
  | [] => [x]
  | y :: l' => if ltb (key y) (key x) then y :: insert_by x l' else x :: y :: l'
  end.

Definition sorted (l : list A) : list A := foldr insert_by [] l.

(** [m] is, among the elements of [l] whose key is least, the one that
    comes first: every element before it has a strictly greater key, no
    element after it has a smaller one. *)
Definition first_least (l : list A) (m : A) : Prop :=
  exists l1 l2,
    l = l1 ++ m :: l2 /\
    Forall (fun y => ltb (key m) (key y) = true) l1 /\
    Forall (fun y => ltb (key y) (key m) = false) l2.
End PyOrder.

(** The comparisons the code sorts by are strict weak orders. *)
Class StrictWeak {K : Type} (ltb : K -> K -> bool) : Prop := {
  sw_irrefl a : ltb a a = false;
  sw_trans a b c : ltb a b = true -> ltb b c = true -> ltb a c = true;
  sw_ntrans a b c : ltb a b = false -> ltb b c = false -> ltb a c = false
}.

(** ** plex_api.py: identity resolution *)

Abbreviation row := (list value).

Section PlexApi.
Context `{PyBuiltins}.

(** [str(v)] *)
Definition py_str (v : value) : string :=
  match v with
  | VNone => "None"
  | VStr s => s
  | VNum q => str_of_num q
  end.

(** [float(v)]; [None] is [TypeError] or [ValueError] *)
Definition py_float (v : value) : option Qc :=
  match v with
  | VNone => None
  | VStr s => float_of_str s
  | VNum q => Some q
  end.

(** [l.index(x)]; [None] is [ValueError] *)
Definition index (x : string) (l : list string) : option nat :=
  fst <$> list_find (eq x) l.

Definition _build_cache_key (part_no customer_code : string) : string :=
  let customer_code := if String.eqb customer_code "" then "none" else customer_code in
  part_no +:+ "::" +:+ customer_code.

Definition status_order : list string :=
  ["Service"; "Production"; "Prototype"; "Development"; "Obsolete"].

(** Comparison of the tuples [(rank, -revision_val)]. *)
Definition sort_key_ltb (a b : nat * xfloat) : bool :=
  (a.1 <? b.1)%nat || ((a.1 =? b.1)%nat && xltb a.2 b.2).

(** [revision_val] of [sort_key]; every exception of the conversion,
    the [IndexError] of a short row included, is caught there. *)
Definition revision_val (revision_idx : nat) (r : row) : xfloat :=
  match r !! revision_idx with
  | None => NegInf
  | Some VNone => NegInf
  | Some (VStr EmptyString) => NegInf
  | Some v => match py_float v with
              | Some q => Fin q
              | None => NegInf
              end
  end.

Definition status_rank (status_val : string) : nat :=
  match index status_val status_order with
  | Some i => i
  | None => length status_order
  end.

Definition sort_key (status_idx revision_idx : nat) (r : row)
  : outcome (nat * xfloat) :=
  cell ← getitem r status_idx;
  let status_val := match cell with VNone => "" | _ => py_str cell end in
  Ret (status_rank status_val, xneg (revision_val revision_idx r)).

(** The customer filter: the rows whose code, trimmed and lower-cased,
    equals [customer_code]. *)
Fixpoint matching (cust_code_idx : nat) (customer_code : string)
    (rows : list row) : outcome (list row) :=
  match rows with
  | [] => Ret []
  | r :: rows' =>
      cell ← getitem r cust_code_idx;
      let row_code := PyStr.lower (PyStr.strip (py_str cell)) in
      rest ← matching cust_code_idx customer_code rows';
      Ret (if String.eqb row_code customer_code then r :: rest else rest)
  end.

(** [candidate_rows]: the rows left by the customer filter. *)
Definition candidate_rows (cust_code_idx : nat) (customer_code : string)
    (enforce_customer : bool) (rows : list row) : outcome (list row) :=
  matching_rows ←
    (if String.eqb customer_code "" then Ret []
     else matching cust_code_idx customer_code rows);
  Ret (if enforce_customer then matching_rows
       else match matching_rows with [] => rows | _ => matching_rows end).

(** [sorted(candidate_rows, key=sort_key)[0]] and what is read from it:
    the key, then the two cells the log line prints. *)
Definition select_best (part_key_idx status_idx revision_idx : nat)
    (candidate_rows : list row) : outcome (value * string) :=
  keyed ← traverse
    (fun r => k ← sort_key status_idx revision_idx r; Ret (k, r))
    candidate_rows;
  match sorted sort_key_ltb fst keyed with
  | [] => Raise IndexError
  | (_, best_row) :: _ =>
      selected_key ← getitem best_row part_key_idx;
      _ ← getitem best_row status_idx;
      _ ← getitem best_row revision_idx;
      Ret (selected_key, "")
  end.

Definition _select_part_key_from_rows (rows : list row) (headers : list string)
    (customer_code : string) (enforce_customer : bool)
  : outcome (value * string) :=
  match rows, headers with
  | [], _ | _, [] => Ret (VNone, "")
  | _, _ =>
    match index "Part_Key" headers, index "Part_Status" headers,
          index "Revision" headers, index "Customer_Code" headers with
    | Some part_key_idx, Some status_idx, Some revision_idx, Some cust_code_idx =>
        candidates ← candidate_rows cust_code_idx customer_code enforce_customer rows;
        match candidates with
        | [] => Ret (VNone, "")
        | _ => select_best part_key_idx status_idx revision_idx candidates
        end
    | _, _, _, _ => Ret (VNone, "")
    end
  end.




(** The customer code of a candidate as the filter compares it. *)
Definition customer_code_of (cust_code_idx : nat) (r : row) : option string :=
  cell ← r !! cust_code_idx; Some (PyStr.lower (PyStr.strip (py_str cell))).

(** [_query_part_key_api], the network call, as [retrieve_part_key] sees
    it: rows and column names, or an exception. *)
Definition part_key_api :=
  string -> string -> string -> string -> outcome (list row * list string).

(** The [try] block of [retrieve_part_key]. *)
Definition lookup_part_key (api : part_key_api)
    (part_no normalized_customer username password : string)
  : outcome (value * string) :=
  '(rows, headers) ← api username password part_no "Part_No";
  '(part_key, status) ←
    _select_part_key_from_rows rows headers normalized_customer true;
  if truthy part_key then Ret (part_key, status)
  else
    '(rows, headers) ← api username password part_no "Customer_Part_No";
    _select_part_key_from_rows rows headers normalized_customer true.

(** Returns [(part_key, status)] and the cache as the call leaves it. *)
Definition retrieve_part_key (api : part_key_api)
    (part_no customer_code_raw username password : string)
    (cache : gmap string value)
  : (value * string) * gmap string value :=
  let status := "" in
  let normalized_customer := PyStr.lower (PyStr.strip customer_code_raw) in
  let cache_key := _build_cache_key part_no normalized_customer in
  let part_key := default VNone (cache !! cache_key) in
  let part_key :=
    if negb (truthy part_key) && String.eqb normalized_customer ""
    then default VNone (cache !! part_no) else part_key in
  if truthy part_key then ((part_key, status), cache)
  else
    match lookup_part_key api part_no normalized_customer username password with
    | Ret (part_key, status) =>
        if truthy part_key then
          let cache := <[cache_key := part_key]> cache in
          let cache :=
            if String.eqb normalized_customer "" then <[part_no := part_key]> cache
            else cache in
          ((part_key, status), cache)
        else ((part_key, status), cache)
    | Raise Timeout => ((VNone, "Timed Out"), cache)
    | Raise _ => ((VNone, status), cache)
    end.

End PlexApi.

(** ** plex_api.py: price resolution *)

Section PlexPrice.
Context `{PyBuiltins}.

(** The test shared by [_fuzzy_match_customer] and the row filter of
    [_select_price_from_rows]: one string inside the other, and lengths
    that differ by at most 2. *)
Definition fuzzy_eq (a b : string) : bool :=
  (PyStr.contains a b || PyStr.contains b a) &&
  (Z.abs (Z.of_nat (String.length a) - Z.of_nat (String.length b)) <=? 2)%Z.

(** [candidates] is the set of known names in the order its iterator
    yields them. *)
Fixpoint fuzzy_loop (target : string) (candidates : list string) : option string :=
  match candidates with
  | [] => None
  | cand :: rest =>
      let cand_l := PyStr.strip (PyStr.lower cand) in
      if fuzzy_eq target cand_l then Some cand else fuzzy_loop target rest
  end.

Definition _fuzzy_match_customer (target : string) (candidates : list string)
  : option string :=
  fuzzy_loop (PyStr.strip (PyStr.lower target)) candidates.

(** [row_date] of the loop of [_pick_best_price_row]; the [try] around it
    turns every failure into [None]. *)
Definition row_date (date_idx : nat) (r : row) : option datetime :=
  v ← r !! date_idx; to_datetime v.

(** [d] is not a date after [today]. *)
Definition not_future (today : datetime) (d : option datetime) : Prop :=
  forall t, d = Some t -> datetime_ltb today t = false.

(** The partition loop: [(usable_recent, older_rows)]. *)
Fixpoint partition_rows (date_idx : nat) (start_threshold : option datetime)
    (today : datetime) (rows : list row)
  : list (row * option datetime) * list (row * option datetime) :=
  match rows with
  | [] => ([], [])
  | r :: rows' =>
      let '(usable_recent, older_rows) :=
        partition_rows date_idx start_threshold today rows' in
      let d := row_date date_idx r in
      if match d with Some t => datetime_ltb today t | None => false end
      then (usable_recent, older_rows)
      else
        match start_threshold, d with
        | Some th, Some t =>
            if datetime_ltb t th then (usable_recent, (r, d) :: older_rows)
            else ((r, d) :: usable_recent, older_rows)
        | _, _ => ((r, d) :: usable_recent, older_rows)
        end
  end.

(** [price_gap] *)
Definition price_gap (price_idx : nat) (chart_price : Qc) (r : row) : xfloat :=
  match r !! price_idx with
  | Some v => match py_float v with
              | Some p => Fin (Qcabs (p - chart_price))
              | None => PosInf
              end
  | None => PosInf
  end.

(** The choice among the rows that share the best date. *)
Definition closest (price_idx : nat) (chart_price : Qc) (candidates : list row)
  : option row :=
  if decide (1 < length candidates)
  then py_min xltb (price_gap price_idx chart_price) candidates
  else head candidates.

Definition dated (items : list (row * option datetime)) : list datetime :=
  omap snd items.

(** The rows of [items] that go on to the price comparison, given the
    extreme date [best]. *)
Definition on_date (best : option datetime) (items : list (row * option datetime))
  : list row :=
  match best with
  | Some b => fst <$> filter (fun it => it.2 = Some b) items
  | None => fst <$> items
  end.

Definition _pick_best_price_row (rows : list row) (price_idx date_idx : nat)
    (po_no_idx : option nat) (chart_price : Qc)
    (start_threshold : option datetime) (today : datetime)
  : option row * option datetime * bool :=
  match rows with
  | [] => (None, None, false)
  | _ =>
    let '(usable_recent, older_rows) :=
      partition_rows date_idx start_threshold today rows in
    match usable_recent, older_rows with
    | _ :: _, _ =>
        let best_date := py_max datetime_ltb id (dated usable_recent) in
        let candidates := on_date best_date usable_recent in
        (closest price_idx chart_price candidates, best_date, false)
    | [], _ :: _ =>
        let oldest_date := py_min datetime_ltb id (dated older_rows) in
        let candidates := on_date oldest_date older_rows in
        (closest price_idx chart_price candidates, oldest_date, true)
    | [], [] => (None, None, false)
    end
  end.

(** The customer filter of [_select_price_from_rows]. *)
Fixpoint rows_of_customer (cust_name_idx : nat) (matched_customer : string)
    (rows : list row) : outcome (list row) :=
  match rows with
  | [] => Ret []
  | r :: rows' =>
      cell ← getitem r cust_name_idx;
      let api_cust := PyStr.lower (PyStr.strip (py_str cell)) in
      rest ← rows_of_customer cust_name_idx matched_customer rows';
      Ret (if fuzzy_eq matched_customer api_cust then r :: rest else rest)
  end.

(** [matched_customer], with the empty string, which the code tests as
    false, read as no match. *)
Definition matched_customer (customer_name : string)
    (all_customer_names : list string) : option string :=
  if String.eqb customer_name "" then None
  else match _fuzzy_match_customer customer_name all_customer_names with
       | Some (String _ _ as m) => Some m
       | _ => None
       end.

(** [filtered_rows] *)
Definition filtered_rows (cust_name_idx : nat) (matched : option string)
    (rows : list row) : outcome (list row) :=
  match matched with
  | Some m => rows_of_customer cust_name_idx m rows
  | None => Ret rows
  end.

Definition _select_price_from_rows (rows : list row) (headers : list string)
    (customer_name : string) (all_customer_names : list string)
    (chart_price : Qc) (date_begin_str : string) (today : datetime)
  : outcome (value * string * value) :=
  match index "Customer_Name" headers, index "Unit_Price" headers,
        index "Require_Ship_Date" headers with
  | Some cust_name_idx, Some price_idx, Some date_idx =>
      let po_no_idx := index "PO_No" headers in
      let start_threshold :=
        if String.eqb date_begin_str "" then None else fromisoformat date_begin_str in
      let matched := matched_customer customer_name all_customer_names in
      filtered ← filtered_rows cust_name_idx matched rows;
      match filtered with
      | [] =>
          match matched with
          | Some _ =>
              Ret (VNum chart_price, "No PO's under " +:+ customer_name +:+ " found",
                   VStr "")
          | None => Ret (VNum chart_price, "No PO's exist yet", VStr "")
          end
      | _ =>
          match _pick_best_price_row filtered price_idx date_idx po_no_idx
                  chart_price start_threshold today with
          | (None, _, _) => Ret (VNum chart_price, "No suitable PO found", VStr "")
          | (Some selected_row, selected_date, used_old_price) =>
              api_price ← getitem selected_row price_idx;
              po_no ← match po_no_idx with
                      | Some i => getitem selected_row i
                      | None => Ret (VStr "")
                      end;
              let status :=
                match used_old_price, selected_date with
                | true, Some t => "Old Price from " +:+ strftime_ymd t
                | _, _ => "Success"
                end in
              Ret (api_price, status, po_no)
          end
      end
  | _, _, _ => Ret (VNum chart_price, "PO API missing required columns", VStr "")
  end.

End PlexPrice.

Section PlexPriceQuery.
Context `{PyBuiltins}.

(** What [requests.post] hands back once the body is decoded: the status
    code, the raw text, and the first table of the JSON document (rows and
    column names) when there is one. *)
Record response := Response {
  status_code : Z;
  text : string;
  table : option (list row * list string)
}.

Definition price_api := string -> string -> value -> string -> outcome response.

Definition query_price_api (api : price_api) (today : datetime)
    (part_key : value) (date_begin_str username password : string)
    (chart_price : Qc) (customer_name : string) (all_customer_names : list string)
  : value * string * value :=
  let failed (e : exn) :=
    match e with
    | Timeout => (VNum chart_price, "Timed Out", VStr "")
    | _ => (VNum chart_price, "PO API exception: " +:+ exn_message e, VStr "")
    end in
  match api username password part_key date_begin_str with
  | Raise e => failed e
  | Ret resp =>
      if (status_code resp =? 200)%Z then
        let '(rows, headers) := default ([], []) (table resp) in
        match rows, headers with
        | [], _ | _, [] => (VNum chart_price, "No PO's exist yet", VStr "")
        | _, _ =>
            match _select_price_from_rows rows headers customer_name
                    all_customer_names chart_price date_begin_str today with
            | Ret r => r
            | Raise e => failed e
            end
        end
      else (VNum chart_price,
            "PO API error: " +:+ pretty (status_code resp) +:+ " " +:+ text resp,
            VStr "")
  end.

End PlexPriceQuery.

(** ** config.py *)

Definition DEFAULT_PCN : string := "SCS".

Definition PRICE_COLUMN_PRIORITIES : list string := ["ddp price"; "fca price"].

(** A [dict] read in insertion order by [.items()]. *)
Definition CUSTOM_PRICE_COLUMN_MAP : list (string * string) :=
  [("lear", "factory zero"); ("adient", "lansing"); ("magna", "springhill")].

(** ** models.py *)

Record ExcelPart := mkExcelPart {
  part_number : Z;
  price : Qc;
  program : string;
  pcn : string;
  customer : string;
  oem_plant : string;
  description : string;
  part_date : option date
}.

Record PriceResult := mkPriceResult {
  r_part_number : string;
  r_chart_price : Qc;
  r_plex_price : value;
  r_delta : Qc;
  r_description : string;
  r_pcn : string;
  r_program : string;
  r_oem_plant : string;
  r_customer : string;
  r_po_no : value;
  r_effective_date : option date;
  r_status : string;
  r_part_key : value
}.

(** ** readers.py *)

(** A spreadsheet cell as pandas reads it. *)
Inductive cell :=
| CBlank
| CText (s : string)
| CNumber (q : Qc)
| CDate (t : datetime).

(** One entry of [price_blocks]. *)
Record block := mkBlock {
  header_row : nat;
  header_values : list string;
  part_col : nat;
  default_price_col : option nat;
  block_date : option date
}.

Section Readers.
Context `{PyBuiltins}.

(** [str(c)] *)
Definition cell_str (c : cell) : string :=
  match c with
  | CBlank => "nan"
  | CText s => s
  | CNumber q => str_of_num q
  | CDate t => strftime_ymd t +:+ " " +:+ PyStr.pad2 (hour t) +:+ ":"
               +:+ PyStr.pad2 (minute t) +:+ ":" +:+ PyStr.pad2 (second t)
  end.

(** [row[i]] on a row of the frame: a [KeyError] off the frame. *)
Definition series_get (r : list cell) (i : nat) : outcome cell :=
  match r !! i with
  | Some c => Ret c
  | None => Raise (KeyError i)
  end.

(** The first [j] in [range(start_idx, len(header_lower))] whose header
    passes [p]. *)
Definition first_from (p : string -> bool) (start_idx : nat)
    (header_lower : list string) : option nat :=
  (fun hit => start_idx + hit.1) <$>
    list_find (fun h => p h = true) (drop start_idx header_lower).

(** [for priority in priorities: for j in range(...): if p(priority, h[j]): return j] *)
Fixpoint first_priority (p : string -> string -> bool) (priorities : list string)
    (start_idx : nat) (header_lower : list string) : option nat :=
  match priorities with
  | [] => None
  | priority :: rest =>
      match first_from (p priority) start_idx header_lower with
      | Some j => Some j
      | None => first_priority p rest start_idx header_lower
      end
  end.

Definition _find_price_column (header_values : list string) (part_col_idx : nat)
  : option nat :=
  let header_lower := PyStr.lower <$> header_values in
  let start_idx := part_col_idx + 1 in
  match first_priority (fun pr h => String.eqb h pr) PRICE_COLUMN_PRIORITIES
          start_idx header_lower with
  | Some j => Some j
  | None => first_priority PyStr.contains PRICE_COLUMN_PRIORITIES
              start_idx header_lower
  end.

Fixpoint map_customer_loop (customer_lower : string) (items : list (string * string))
  : option string :=
  match items with
  | [] => None
  | (key, mapped_header) :: rest =>
      if PyStr.contains (PyStr.lower key) customer_lower then Some mapped_header
      else map_customer_loop customer_lower rest
  end.

Definition _map_customer_to_header (customer_name : string) : option string :=
  map_customer_loop (PyStr.lower customer_name) CUSTOM_PRICE_COLUMN_MAP.

Definition _select_price_column (header_values : list string) (part_col_idx : nat)
    (customer_name : option string) : option nat :=
  let header_lower := PyStr.lower <$> header_values in
  let start_idx := part_col_idx + 1 in
  let default :=
    match first_priority (fun pr h => String.eqb h pr) PRICE_COLUMN_PRIORITIES
            start_idx header_lower with
    | Some j => Some j
    | None => first_priority PyStr.contains PRICE_COLUMN_PRIORITIES
                start_idx header_lower
    end in
  match customer_name with
  | Some (String _ _ as name) =>
      match _map_customer_to_header name with
      | Some (String _ _ as mapped_header) =>
          let target := PyStr.lower mapped_header in
          match first_from (PyStr.contains target) start_idx header_lower with
          | Some j => Some j
          | None => default
          end
      | _ => default
      end
  | _ => default
  end.

(** The three variables the loop of [_find_most_recent_price] updates. *)
Record latest := mkLatest {
  latest_date : option date;
  latest_part_number : option Z;
  latest_price : option Qc
}.

(** One turn of the loop over [price_blocks]. *)
Definition most_recent_step (r : list cell) (row_idx : nat) (today : date)
    (customer_name : option string) (st : latest) (b : block) : outcome latest :=
  match block_date b with
  | None => Ret st
  | Some date_val =>
    if date_ltb today date_val then Ret st
    else if (row_idx <=? header_row b)%nat then Ret st
    else
      match _select_price_column (header_values b) (part_col b) customer_name with
      | None => Ret st
      | Some price_col =>
          part_number ← series_get r (part_col b);
          price ← series_get r price_col;
          match int_of_str (PyStr.strip (cell_str part_number)),
                float_of_str (PyStr.strip (PyStr.remove_char ","
                                (PyStr.remove_char "$" (cell_str price)))) with
          | Some part_number_int, Some price_val =>
              if match latest_date st with
                 | None => true
                 | Some d => date_ltb d date_val
                 end
              then Ret (mkLatest (Some date_val) (Some part_number_int) (Some price_val))
              else Ret st
          | _, _ => Ret st
          end
      end
  end.

Fixpoint most_recent_loop (r : list cell) (row_idx : nat) (today : date)
    (customer_name : option string) (st : latest) (price_blocks : list block)
  : outcome latest :=
  match price_blocks with
  | [] => Ret st
  | b :: rest =>
      st' ← most_recent_step r row_idx today customer_name st b;
      most_recent_loop r row_idx today customer_name st' rest
  end.

Definition _find_most_recent_price (r : list cell) (row_idx : nat)
    (price_blocks : list block) (today : date) (customer_name : option string)
  : outcome (option (Z * Qc * option date)) :=
  st ← most_recent_loop r row_idx today customer_name
         (mkLatest None None None) price_blocks;
  match latest_part_number st, latest_price st with
  | Some n, Some p => Ret (Some (n, p, latest_date st))
  | _, _ => Ret None
  end.

(** What a block offers for a data row: its date, and the part number and
    price read from the row, when the block qualifies (it is dated, not
    after [today], its header is above the row, a price column is found,
    and both cells parse). *)
Definition block_offer (r : list cell) (row_idx : nat) (today : date)
    (customer_name : option string) (b : block) : option (date * Z * Qc) :=
  date_val ← block_date b;
  if date_ltb today date_val then None
  else if (row_idx <=? header_row b)%nat then None
  else
    price_col ← _select_price_column (header_values b) (part_col b) customer_name;
    part_number ← r !! part_col b;
    price ← r !! price_col;
    part_number_int ← int_of_str (PyStr.strip (cell_str part_number));
    price_val ← float_of_str (PyStr.strip (PyStr.remove_char ","
                                (PyStr.remove_char "$" (cell_str price))));
    Some (date_val, part_number_int, price_val).

(** The three loop variables when the best offer so far is [cur]. *)
Definition state_of (cur : option (date * Z * Qc)) : latest :=
  match cur with
  | Some (d, n, p) => mkLatest (Some d) (Some n) (Some p)
  | None => mkLatest None None None
  end.

(** The update of one turn of the loop, on the offer of the block. *)
Definition newer (cur offer : option (date * Z * Qc)) : option (date * Z * Qc) :=
  match offer, cur with
  | None, _ => cur
  | Some o, None => Some o
  | Some o, Some c => if date_ltb c.1.1 o.1.1 then Some o else cur
  end.

(** The frame is rectangular: the row has a cell under every header of the
    block, the part-number header among them. *)
Definition under_header (r : list cell) (b : block) : Prop :=
  (part_col b < length (header_values b) <= length r)%nat.

(** The price [p] is read, in row [r], from the column that
    [_select_price_column] gives for [customer_name] in one of the blocks. *)
Definition priced_from (r : list cell) (price_blocks : list block)
    (customer_name : option string) (p : Qc) : Prop :=
  exists b j c,
    b ∈ price_blocks /\
    _select_price_column (header_values b) (part_col b) customer_name = Some j /\
    r !! j = Some c /\
    float_of_str (PyStr.strip (PyStr.remove_char ","
                    (PyStr.remove_char "$" (cell_str c)))) = Some p.
End Readers.

Section Extract.
Context `{PyBuiltins}.

(** [row[idx] if idx is not None else ""] *)
Definition meta (r : list cell) (idx : option nat) : outcome cell :=
  match idx with
  | Some i => series_get r i
  | None => Ret (CText "")
  end.

Definition or_default_pcn (s : string) : string :=
  if String.eqb s "" then "95506" else s.

(** [[c.strip() for c in customer_text.split(",") if c.strip()]] *)
Definition customer_tokens (customer_text : string) : list string :=
  filter (fun c => c <> "") (PyStr.strip <$> PyStr.split "," customer_text).

(** The body of the loop over the data rows: the parts of row [k]. *)
Definition extract_row (r : list cell) (k : nat) (col_indices : gmap string nat)
    (price_blocks : list block) (today : date) : outcome (list ExcelPart) :=
  let program_idx := col_indices !! "program" in
  let pcn_idx := col_indices !! "fisher pcn" in
  let customer_idx := col_indices !! "plex customer code" in
  let oem_plant_idx := col_indices !! "oem plant" in
  let desc_idx := col_indices !! "part description" in
  program ← meta r program_idx;
  pcn ← match pcn_idx with
        | Some i =>
            c ← series_get r i;
            Ret (if String.eqb (PyStr.strip (cell_str c)) "" then CText "95506" else c)
        | None => Ret (CText "95506")
        end;
  customer_raw ← meta r customer_idx;
  oem_plant ← meta r oem_plant_idx;
  description ← meta r desc_idx;
  let customer_text := PyStr.strip (cell_str customer_raw) in
  let has_custom_prices := PyStr.contains "," customer_text in
  let customer_names :=
    if has_custom_prices then customer_tokens customer_text else [customer_text] in
  found ← traverse
    (fun customer_name =>
       result ← _find_most_recent_price r k price_blocks today
                  (if has_custom_prices then Some customer_name else None);
       Ret (match result with
            | Some (part_number, price, date) =>
                [mkExcelPart part_number price
                   (PyStr.strip (cell_str program))
                   (or_default_pcn (PyStr.strip (cell_str pcn)))
                   (PyStr.strip customer_name)
                   (PyStr.strip (cell_str oem_plant))
                   (PyStr.strip (cell_str description))
                   date]
            | None => []
            end))
    customer_names;
  Ret (mjoin (found : list (list ExcelPart))).

Fixpoint extract_rows (k : nat) (rows : list (list cell))
    (col_indices : gmap string nat) (price_blocks : list block) (today : date)
  : outcome (list ExcelPart) :=
  match rows with
  | [] => Ret []
  | r :: rest =>
      parts ← extract_row r k col_indices price_blocks today;
      more ← extract_rows (S k) rest col_indices price_blocks today;
      Ret (parts ++ more)
  end.

(** [for k in range(start_table_row + 1, len(df))] *)
Definition _extract_parts_from_rows (df : list (list cell)) (start_table_row : nat)
    (col_indices : gmap string nat) (price_blocks : list block) (today : date)
  : outcome (list ExcelPart) :=
  extract_rows (start_table_row + 1) (drop (start_table_row + 1) df)
    col_indices price_blocks today.

End Extract.

(** ** utils.py *)

Definition datetime_min : datetime := mkDatetime (mkDate 1 1 1) 0 0 0 0.

Section Utils.
Context `{PyBuiltins}.

(** [today] is the value of [datetime.today()]; [datetime.min] is the
    function's own mark of a date it could not read. *)
Definition compute_effective_month_start (part_date : option date) (today : datetime)
  : datetime * string :=
  let effective_date :=
    match part_date ≫= timestamp_of_date with
    | Some t => t
    | None => datetime_min
    end in
  let effective_date :=
    if decide (effective_date = datetime_min) then today else effective_date in
  let month_start := month_start effective_date in
  (month_start, strftime_iso month_start).

(** The date can be read: pandas makes it the timestamp of its midnight,
    and that is not [datetime.min], which the function takes for a date it
    could not read. *)
Definition parseable (d : date) : Prop :=
  timestamp_of_date d = Some (midnight d) /\ midnight d <> datetime_min.

(** The first instant of the month of [d], and how it is printed. *)
Definition first_of_month (d : date) : datetime :=
  mkDatetime (mkDate (year d) (month d) 1) 0 0 0 0.
Definition first_of_month_iso (d : date) : string :=
  PyStr.pad4 (year d) +:+ "-" +:+ PyStr.pad2 (month d) +:+ "-01T00:00:00Z".
End Utils.

(** ** compare_prices.py *)

Definition price_key : Type := value * string * string * string.

(** The collaborators of a run: credentials, the two web services, the clock. *)
Record world := mkWorld {
  get_auth_for_pcn : string -> outcome (string * string);
  part_keys : part_key_api;
  prices : price_api;
  clock : datetime
}.

(** The two caches [_process_part] reads and updates. *)
Record caches := mkCaches {
  part_key_cache : gmap string value;
  price_lookup_cache : gmap price_key (value * string * value)
}.

Section ComparePrices.
Context `{PyBuiltins} (w : world).

Definition no_part_key : string := "No part found (no Part_Key)".

(** What [_process_part] derives from the part before any lookup: the
    credentials code, the customer code and name, the part number as text. *)
Definition pcn_of (part : ExcelPart) : string :=
  if String.eqb (pcn part) "" then DEFAULT_PCN else pcn part.
Definition customer_code_raw_of (part : ExcelPart) : string :=
  PyStr.lower (PyStr.strip (customer part)).
Definition customer_name_of (customer_code_to_name : gmap string string)
    (part : ExcelPart) : string :=
  default "" (customer_code_to_name !! customer_code_raw_of part).

Definition _process_part (part : ExcelPart)
    (customer_code_to_name : gmap string string) (customer_names : list string)
    (c : caches) : option PriceResult * caches :=
  let part_no := pretty (part_number part) in
  let excel_price := price part in
  let pcn := pcn_of part in
  match get_auth_for_pcn w pcn with
  | Raise _ => (None, c)
  | Ret (username, password) =>
      let shipper_begin_str :=
        (compute_effective_month_start (part_date part) (clock w)).2 in
      let customer_code_raw := customer_code_raw_of part in
      let customer_name := customer_name_of customer_code_to_name part in
      let '((part_key, lookup_status), pk_cache) :=
        retrieve_part_key (part_keys w) part_no customer_code_raw username password
          (part_key_cache c) in
      let '((api_price, status, po_no), price_cache) :=
        if negb (truthy part_key) then
          ((VNum excel_price,
            if String.eqb lookup_status "" then no_part_key else lookup_status,
            VStr ""),
           price_lookup_cache c)
        else
          let cache_key := (part_key, customer_code_raw, pcn, shipper_begin_str) in
          match price_lookup_cache c !! cache_key with
          | Some hit => (hit, price_lookup_cache c)
          | None =>
              let fresh :=
                query_price_api (prices w) (clock w) part_key shipper_begin_str
                  username password excel_price customer_name customer_names in
              (fresh, <[cache_key := fresh]> (price_lookup_cache c))
          end in
      let delta_rounded :=
        match py_float api_price with
        | Some p => round5 (p - excel_price)
        | None => 0%Qc
        end in
      (Some (mkPriceResult part_no excel_price api_price delta_rounded
               (description part) pcn (program part) (oem_plant part)
               customer_name po_no (part_date part) status part_key),
       mkCaches pk_cache price_cache)
  end.

(** The loop of [main] over the parts of one input file: the list handed
    to [write_results], and the caches afterwards. *)
Fixpoint main_results (excel_parts : list ExcelPart)
    (customer_code_to_name : gmap string string) (customer_names : list string)
    (c : caches) : list PriceResult * caches :=
  match excel_parts with
  | [] => ([], c)
  | part :: rest =>
      let '(result, c) := _process_part part customer_code_to_name customer_names c in
      let '(results, c) := main_results rest customer_code_to_name customer_names c in
      match result with
      | Some r =>
          if String.eqb (r_status r) no_part_key then (results, c)
          else (r :: results, c)
      | None => (results, c)
      end
  end.

End ComparePrices.

(** ** readers.py: the table and its price blocks *)

Abbreviation frame := (list (list cell)).

Section Discovery.
Context `{PyBuiltins}.

(** [row.astype(str).str.strip().tolist()] *)
Definition row_strings (r : list cell) : list string :=
  (fun c => PyStr.strip (cell_str c)) <$> r.

(** The test of [_find_main_table_header] on one row. *)
Definition is_main_header (r : list cell) : bool :=
  let header_lower := PyStr.lower <$> row_strings r in
  bool_decide ("part number" ∈ header_lower) &&
  bool_decide ("part description" ∈ header_lower).

(** [for i, row in df.iterrows()], from row [i] on. *)
Fixpoint find_header_from (i : nat) (rows : frame) : option nat :=
  match rows with
  | [] => None
  | r :: rest => if is_main_header r then Some i else find_header_from (S i) rest
  end.

Definition _find_main_table_header (df : frame) : option nat :=
  find_header_from 0 df.

(** [df.iloc[drow, col_idx]] *)
Definition iloc (df : frame) (drow col_idx : nat) : outcome cell :=
  r ← getitem df drow; getitem r col_idx.

(** [pd.to_datetime(cell, errors="coerce").date()], [None] when the result
    is [NaT] or the conversion raises; a blank cell is [NaN]. *)
Definition cell_date (c : cell) : option date :=
  match c with
  | CBlank => None
  | CText s => dt_date <$> to_datetime (VStr s)
  | CNumber q => dt_date <$> to_datetime (VNum q)
  | CDate t => Some (dt_date t)
  end.

(** [for drow in range(header_row - 1, -1, -1)] with [header_row] rows left
    to visit. *)
Fixpoint date_above (df : frame) (col_idx : nat) (header_row : nat)
  : outcome (option date) :=
  match header_row with
  | 0 => Ret None
  | S drow =>
      c ← iloc df drow col_idx;
      match cell_date c with
      | Some date_val => Ret (Some date_val)
      | None => date_above df col_idx drow
      end
  end.

Definition _find_date_above (df : frame) (header_row col_idx : nat)
  : outcome (option date) :=
  date_above df col_idx header_row.

(** The blocks declared by row [i]: one for every cell that reads
    "part number". *)
Definition row_blocks (df : frame) (i : nat) (r : list cell) : outcome (list block) :=
  let header_values := row_strings r in
  let header_lower := PyStr.lower <$> header_values in
  found ← traverse
    (fun '(idx, col) =>
       if String.eqb col "part number" then
         let default_price_col := _find_price_column header_values idx in
         date_val ← _find_date_above df i idx;
         Ret [mkBlock i header_values idx default_price_col date_val]
       else Ret [])
    (imap pair header_lower);
  Ret (mjoin (found : list (list block))).

(** [start_table_row] is not used by the function. *)
Definition _find_price_blocks (df : frame) (start_table_row : nat)
  : outcome (list block) :=
  found ← traverse (fun '(i, r) => row_blocks df i r) (imap pair df);
  Ret (mjoin (found : list (list block))).

(** [{col.lower(): idx for idx, col in enumerate(header)}] *)
Definition header_indices (header : list string) : gmap string nat :=
  foldl (fun m '(idx, col) => <[PyStr.lower col := idx]> m) ∅ (imap pair header).

(** The body of the loop of [get_excel_part_info] over the sheets. *)
Definition sheet_parts (df : frame) (today : date) : outcome (list ExcelPart) :=
  match _find_main_table_header df with
  | None => Ret []
  | Some start_table_row =>
      r ← getitem df start_table_row;
      let header := row_strings r in
      let col_indices := header_indices header in
      price_blocks ← _find_price_blocks df start_table_row;
      _extract_parts_from_rows df start_table_row col_indices price_blocks today
  end.

(** [sheets] are the frames of the workbook in the order of
    [xls.sheet_names]; [today] is [datetime.today().date()]. *)
Fixpoint get_excel_part_info (sheets : list frame) (today : date)
  : outcome (list ExcelPart) :=
  match sheets with
  | [] => Ret []
  | df :: rest =>
      parts_in_sheet ← sheet_parts df today;
      all_parts ← get_excel_part_info rest today;
      Ret (parts_in_sheet ++ all_parts)
  end.

(** All rows of the frame have [n] cells. *)
Definition rectangular (n : nat) (df : frame) : Prop :=
  Forall (fun r => length r = n) df.
End Discovery.

(** ** plex_api.py: credentials *)

Module Auth.

(** What the process reads from outside: its environment variables, and
    [base64.b64decode(s).decode("utf-8")] ([None] when it raises). *)
Record environment := mkEnvironment {
  getenv : string -> option string;
  b64decode_utf8 : string -> option string
}.

(** [PCN_AUTH_MAP] of config.py *)
Definition PCN_AUTH_MAP (env : environment) : gmap string (option string) :=
  {[ "BRO" := getenv env "BRO_AUTH"; "EVV" := getenv env "EVV_AUTH";
     "TROY" := getenv env "TROY_AUTH"; "SCS" := getenv env "SCS_AUTH";
     "MX" := getenv env "MX_AUTH" ]}.

(** [s.split(sep, 1)] when [sep] occurs in [s]: the text before the first
    [sep] and the text after it. *)
Fixpoint split_once (sep : ascii) (s : string) : string * string :=
  match s with
  | EmptyString => (EmptyString, EmptyString)
  | String c t =>
      if Ascii.eqb c sep then (EmptyString, t)
      else let '(u, p) := split_once sep t in (String c u, p)
  end.

Definition get_auth_for_pcn (env : environment) (pcn : string)
  : outcome (string * string) :=
  let b64 := default (default None (PCN_AUTH_MAP env !! DEFAULT_PCN))
               (PCN_AUTH_MAP env !! pcn) in
  match b64 ≫= b64decode_utf8 env with
  | None => Raise (OtherError "b64decode")
  | Some decoded =>
      let decoded := PyStr.strip decoded in
      if PyStr.contains ":" decoded then Ret (split_once ":" decoded)
      else Raise (OtherError ("Invalid base64 for PCN " +:+ pcn))
  end.

End Auth.

(** ** customers.py *)

Section Customers.

(** [rows] are the [Customer_Code] and [Customer_Name] cells of the
    customer list, line by line; a later line replaces an earlier one with
    the same code. *)
Definition code_to_name (rows : list (string * string)) : gmap string string :=
  foldl (fun m '(code, name) =>
           <[PyStr.lower (PyStr.strip code) := PyStr.strip name]> m) ∅ rows.

Definition name_set (rows : list (string * string)) : gset string :=
  list_to_set ((fun '(_, name) => PyStr.lower (PyStr.strip name)) <$> rows).

(** [order] is a sequence in which iterating over the set of names may
    yield them. *)
Definition iterates (names : gset string) (order : list string) : Prop :=
  forall x, x ∈ order <-> x ∈ names.
End Customers.

(** ** plex_api.py: the rows of the partition loop *)

Section PriceRows.
Context `{PyBuiltins}.

(** The three branches of the loop of [_pick_best_price_row] on a row: it is
    skipped (its date is after [today]), put with the older rows (dated
    before the threshold) or with the usable recent ones (all the others,
    those without a readable date included). *)
Definition is_future (date_idx : nat) (today : datetime) (r : row) : bool :=
  match row_date date_idx r with
  | Some t => datetime_ltb today t
  | None => false
  end.

Definition before_threshold (date_idx : nat) (start_threshold : option datetime)
    (r : row) : bool :=
  match start_threshold, row_date date_idx r with
  | Some th, Some t => datetime_ltb t th
  | _, _ => false
  end.

Definition is_older (date_idx : nat) (start_threshold : option datetime)
    (today : datetime) (r : row) : bool :=
  negb (is_future date_idx today r) && before_threshold date_idx start_threshold r.

Definition is_recent (date_idx : nat) (start_threshold : option datetime)
    (today : datetime) (r : row) : bool :=
  negb (is_future date_idx today r) &&
  negb (before_threshold date_idx start_threshold r).

(** The customer name of a row of the price service as the filter of
    [_select_price_from_rows] compares it, and the test of the filter. *)
Definition row_customer (cust_name_idx : nat) (r : row) : option string :=
  cell ← r !! cust_name_idx; Some (PyStr.lower (PyStr.strip (py_str cell))).

Definition of_customer (matched : string) (cust_name_idx : nat) (r : row) : bool :=
  match row_customer cust_name_idx r with
  | Some api_cust => fuzzy_eq matched api_cust
  | None => false
  end.


(** The statuses under which [query_price_api] reports a price of the
    service. *)
Definition priced_status (status : string) : Prop :=
  status = "Success" \/ exists t, status = "Old Price from " +:+ strftime_ymd t.

(** The statuses [query_price_api] and [_select_price_from_rows] write. *)
Definition price_lookup_status (customer_name status : string) : Prop :=
  priced_status status \/
  status = "No PO's exist yet" \/
  status = "No PO's under " +:+ customer_name +:+ " found" \/
  status = "No suitable PO found" \/
  status = "PO API missing required columns" \/
  status = "Timed Out" \/
  (exists msg, status = "PO API exception: " +:+ msg) \/
  (exists code text, status = "PO API error: " +:+ code +:+ " " +:+ text).

(** [_query_part_key_api], over the function that posts the request: the
    rows and column names of the first table of a 200 response, and two
    empty lists for any other status code. *)
Definition _query_part_key_api
    (post : string -> string -> string -> string -> outcome response)
  : part_key_api :=
  fun username password part_no lookup_field =>
    resp ← post username password part_no lookup_field;
    if (status_code resp =? 200)%Z then Ret (default ([], []) (table resp))
    else Ret ([], []).

(** No entry of the price cache holds the status of a part without key;
    so it is for the empty cache each input file starts with. *)
Definition cached_statuses_ok (cache : gmap price_key (value * string * value))
  : Prop :=
  forall k v, cache !! k = Some v -> v.1.2 <> "No part found (no Part_Key)".
End PriceRows.

(** ** Running the code: decimal literals and ISO dates

    An instance of the conversions, enough to evaluate the functions above
    on concrete rows: [int] and [float] read plain decimal literals, dates
    are read from [YYYY-MM-DD] prefixes. *)

Module Decimal.

Definition digit_val (c : ascii) : option Z :=
  let n := nat_of_ascii c in
  if (48 <=? n)%nat && (n <=? 57)%nat then Some (Z.of_nat (n - 48)) else None.

Fixpoint digits (acc : Z) (s : string) : option Z :=
  match s with
  | EmptyString => Some acc
  | String c t => d ← digit_val c; digits (10 * acc + d) t
  end.

Definition natural (s : string) : option Z :=
  match s with
  | EmptyString => None
  | _ => digits 0 s
  end.

Definition int (s : string) : option Z :=
  match s with
  | String "-" t => Z.opp <$> natural t
  | _ => natural s
  end.

Definition float (s : string) : option Qc :=
  match PyStr.split "." s with
  | [i] => (fun n => Q2Qc (inject_Z n)) <$> int i
  | [i; f] =>
      n ← natural i; m ← natural f;
      Some (Q2Qc (inject_Z n + (m # Pos.pow 10 (Pos.of_nat (String.length f))))%Q)
  | _ => None
  end.

Definition field (s : string) (start len : nat) : option Z :=
  natural (String.substring start len s).

Definition day_of (s : string) : option date :=
  y ← field s 0 4; m ← field s 5 2; d ← field s 8 2; Some (mkDate y m d).

Definition timestamp (s : string) : option datetime :=
  d ← day_of s;
  if (String.length s <=? 10)%nat then Some (midnight d)
  else h ← field s 11 2; mi ← field s 14 2; se ← field s 17 2;
       Some (mkDatetime d h mi se 0).

Definition show (q : Qc) : string :=
  if (Qden q =? 1)%positive then pretty (Qnum q)
  else pretty (Qnum q) +:+ "/" +:+ pretty (Zpos (Qden q)).

Definition round_5_places (q : Qc) : Qc :=
  Q2Qc (Qfloor (q * 100000 + (1 # 2))%Q # 100000).

Definition builtins : PyBuiltins := {|
  str_of_num := show;
  float_of_str := float;
  int_of_str := int;
  to_datetime := fun v => match v with VStr s => timestamp s | _ => None end;
  timestamp_of_date := fun d => Some (midnight d);
  fromisoformat := timestamp;
  round5 := round_5_places
|}.

End Decimal.

#[global] Existing Instance Decimal.builtins.

Definition qc (n : Z) : Qc := Q2Qc (inject_Z n).

(** Three candidates of one customer: statuses Obsolete, Production and
    Service, revisions 1, 5 and 2. *)
Module Candidates.
Definition headers : list string :=
  ["Part_Key"; "Part_Status"; "Revision"; "Customer_Code"].
Definition obsolete : row := [VStr "K1"; VStr "Obsolete"; VNum (qc 1); VStr "ACME"].
Definition production : row := [VStr "K2"; VStr "Production"; VNum (qc 5); VStr "acme "].
Definition service : row := [VStr "K3"; VStr "Service"; VNum (qc 2); VStr "Acme"].
Definition all : list row := [obsolete; production; service].
(** A service that answers every query with the three candidates. *)
Definition api : part_key_api := fun _ _ _ _ => Ret (all, headers).
End Candidates.

(** Purchase orders of one part, as the price service lists them. *)
Module Orders.
Definition headers : list string :=
  ["Customer_Name"; "Unit_Price"; "Require_Ship_Date"; "PO_No"].
Definition november : row := [VStr "Lear"; VNum (qc 12); VStr "2025-11-03"; VStr "PO-1"].
Definition october_far : row := [VStr "Lear"; VNum (qc 9); VStr "2025-10-01"; VStr "PO-2"].
Definition october_near : row := [VStr "Lear"; VNum (qc 11); VStr "2025-10-01"; VStr "PO-3"].
Definition next_march : row := [VStr "Lear"; VNum (qc 11); VStr "2026-03-01"; VStr "PO-4"].
Definition undated : row := [VStr "Lear"; VNum (qc 15); VNone; VStr "PO-5"].
Definition old : list row := [november; october_far; october_near].
Definition today : datetime := mkDatetime (mkDate 2026 1 20) 9 30 0 0.
Definition january : datetime := mkDatetime (mkDate 2026 1 1) 0 0 0 0.
End Orders.

(** A sheet with one price block dated 5 January 2026: a row of one
    customer, and a row shared by two customers with a price column each. *)
Module Sheet.
Definition header : list string :=
  ["Part Number"; "Plex Customer Code"; "Part Description"; "DDP Price";
   "Factory Zero Price"; "Lansing Price"].
Definition single : list cell :=
  [CText "12345"; CText "Lear"; CText "Seat frame"; CText "$10,000.50";
   CText "20"; CText "30"].
Definition shared : list cell :=
  [CText "12346"; CText "Lear, Adient"; CText "Seat track"; CText "10";
   CText "20"; CText "30"].
Definition frame : list (list cell) :=
  [[CDate (mkDatetime (mkDate 2026 1 5) 0 0 0 0); CBlank; CBlank; CBlank; CBlank; CBlank];
   CText <$> header; single; shared].
Definition col_indices : gmap string nat :=
  {[ "part number" := 0%nat; "plex customer code" := 1%nat;
     "part description" := 2%nat ]}.
Definition price_block : block :=
  mkBlock 1 header 0 (Some 3%nat) (Some (mkDate 2026 1 5)).
Definition earlier_block : block :=
  mkBlock 1 header 0 (Some 3%nat) (Some (mkDate 2025 10 1)).
Definition today : date := mkDate 2026 1 20.
(** A sheet with a PCN column, left blank in its only data row. *)
Definition with_pcn : list (list cell) :=
  [[CDate (mkDatetime (mkDate 2026 1 5) 0 0 0 0); CBlank; CBlank; CBlank];
   CText <$> ["Part Number"; "Part Description"; "DDP Price"; "Fisher PCN"];
   [CText "12345"; CText "Seat frame"; CText "10"; CBlank]].
End Sheet.

(** A run: credentials for every code, the identity service of
    [Candidates] or one that times out, the price service answering with
    the orders of [Orders]. *)
Module Run.
Definition price_service : price_api :=
  fun _ _ _ _ => Ret (Response 200 "" (Some (Orders.old, Orders.headers))).
Definition online : world :=
  mkWorld (fun _ => Ret ("user", "secret")) Candidates.api price_service Orders.today.
Definition timing_out : world :=
  mkWorld (fun _ => Ret ("user", "secret")) (fun _ _ _ _ => Raise Timeout)
    price_service Orders.today.
Definition names : gmap string string := {[ "acme" := "Lear" ]}.
Definition part (customer : string) (d : date) : ExcelPart :=
  mkExcelPart 12345 (qc 11) "T1" "" customer "Lansing" "Seat frame" (Some d).
Definition fresh : caches := mkCaches ∅ ∅.
End Run.

(** * Properties *)

Example run_float : float_of_str "10000.50" = Some (Q2Qc (20001 # 2)).
Proof. vm_compute. f_equal. apply Qc_is_canon. reflexivity. Qed.
Example run_iso : fromisoformat "2026-01-01T00:00:00Z"
                  = Some (mkDatetime (mkDate 2026 1 1) 0 0 0 0).
Proof. reflexivity. Qed.
Example run_strftime :
  strftime_iso (month_start (mkDatetime (mkDate 2026 1 26) 13 5 9 77))
  = "2026-01-01T00:00:00Z".
Proof. reflexivity. Qed.

(** The sheet of [Sheet]: "$10,000.50" is read as 10000.50 from the default
    column of the single-customer row, and the shared row gives one part per
    customer, each with the price of its own column. *)
Example run_extract :
  _extract_parts_from_rows Sheet.frame 1 Sheet.col_indices [Sheet.price_block]
    Sheet.today
  = Ret [mkExcelPart 12345 (Q2Qc (1000050 # 100)) "" "95506" "Lear" "" "Seat frame"
           (Some (mkDate 2026 1 5));
         mkExcelPart 12346 (qc 20) "" "95506" "Lear" "" "Seat track"
           (Some (mkDate 2026 1 5));
         mkExcelPart 12346 (qc 30) "" "95506" "Adient" "" "Seat track"
           (Some (mkDate 2026 1 5))].
Proof. vm_compute. reflexivity. Qed.

(** A run over two parts: the part of a customer with no candidate is left
    out of the report; when the identity service times out both parts are
    reported, under that status. *)
Example run_report :
  r_status <$> (main_results Run.online
                  [Run.part "acme" (mkDate 2026 1 5); Run.part "magna" (mkDate 2026 1 5)]
                  Run.names ["lear"] Run.fresh).1
  = ["Old Price from 2025-10-01"] /\
  r_status <$> (main_results Run.timing_out
                  [Run.part "acme" (mkDate 2026 1 5); Run.part "magna" (mkDate 2026 1 5)]
                  Run.names ["lear"] Run.fresh).1
  = ["Timed Out"; "Timed Out"].
Proof. split; reflexivity. Qed.

(** ** [min], [max], [sorted] *)

Section FirstLeast.
Context {A K : Type} (ltb : K -> K -> bool) (key : A -> K) `{!StrictWeak ltb}.

Lemma sw_lt_ntrans a b c : ltb a b = true -> ltb c b = false -> ltb a c = true.
Proof.
  intros Hab Hcb. destruct (ltb a c) eqn:Hac; [done|].
  by rewrite (sw_ntrans a c b Hac Hcb) in Hab.
Qed.

Lemma sw_asym a b : ltb a b = true -> ltb b a = false.
Proof.
  intros Hab. destruct (ltb b a) eqn:Hba; [|done].
  by rewrite <-(sw_trans a b a Hab Hba), sw_irrefl.
Qed.

Lemma min_from_invariant l p1 p2 best :
  Forall (fun y => ltb (key best) (key y) = true) p1 ->
  Forall (fun y => ltb (key y) (key best) = false) p2 ->
  first_least ltb key (p1 ++ best :: p2 ++ l) (min_from ltb key best l).
Proof.
  revert p1 p2 best. induction l as [|x l IH]; intros p1 p2 best H1 H2; simpl.
  - exists p1, p2. by rewrite app_nil_r.
  - destruct (ltb (key x) (key best)) eqn:Hx.
    + replace (p1 ++ best :: p2 ++ x :: l)
        with ((p1 ++ best :: p2) ++ x :: [] ++ l) by by rewrite <-app_assoc.
      apply IH; [|done].
      rewrite Forall_app, Forall_cons. split_and!; [|done|].
      * eapply Forall_impl; [exact H1|]. intros y Hy; simpl in *.
        by eapply sw_trans.
      * eapply Forall_impl; [exact H2|]. intros y Hy; simpl in *.
        by eapply sw_lt_ntrans.
    + replace (p1 ++ best :: p2 ++ x :: l)
        with (p1 ++ best :: (p2 ++ [x]) ++ l) by by rewrite <-app_assoc.
      apply IH; [done|]. rewrite Forall_app, Forall_singleton. done.
Qed.

Lemma py_min_first_least l m :
  py_min ltb key l = Some m -> first_least ltb key l m.
Proof.
  destruct l as [|x l]; [done|]. intros [= <-].
  apply (min_from_invariant l [] [] x); constructor.
Qed.

Lemma py_min_is_Some l : l <> [] -> is_Some (py_min ltb key l).
Proof. destruct l; [done|]. by eexists. Qed.

Lemma sorted_head_first_least l :
  l <> [] -> exists m rest, sorted ltb key l = m :: rest /\ first_least ltb key l m.
Proof.
  induction l as [|x l IH]; [done|]. intros _.
  destruct l as [|y l'].
  { exists x, []. split; [done|]. exists [], []. by repeat constructor. }
  destruct IH as (m & rest & Hs & l1 & l2 & Hl & H1 & H2); [done|].
  change (sorted ltb key (x :: y :: l'))
    with (insert_by ltb key x (sorted ltb key (y :: l'))).
  rewrite Hs. simpl. destruct (ltb (key m) (key x)) eqn:Hm.
  - eexists _, _. split; [done|]. exists (x :: l1), l2.
    split_and!; [by rewrite Hl|by constructor|done].
  - eexists _, _. split; [done|]. exists [], (y :: l').
    split_and!; [done|constructor|]. rewrite Hl.
    rewrite Forall_app, Forall_cons. split_and!; [|done|].
    + eapply Forall_impl; [exact H1|]. intros z Hz; simpl in *.
      destruct (ltb (key z) (key x)) eqn:Hzx; [|done].
      by rewrite (sw_trans _ _ _ Hz Hzx) in Hm.
    + eapply Forall_impl; [exact H2|]. intros z Hz; simpl in *.
      by eapply sw_ntrans.
Qed.

Lemma first_least_elem l m : first_least ltb key l m -> m ∈ l.
Proof. intros (l1 & l2 & -> & _). set_solver. Qed.


(** Two first-least elements of one list are at the same place. *)
Lemma first_least_unique l m m' :
  first_least ltb key l m -> first_least ltb key l m' -> m = m'.
Proof.
  intros (l1 & l2 & Hl & H1 & H2) (l1' & l2' & Hl' & H1' & H2').
  rewrite Hl in Hl'. clear Hl.
  revert l1' Hl' H1'. induction l1 as [|a l1 IH]; intros l1' Hl' H1'; simpl in *.
  - destruct l1' as [|b l1']; simpl in *; [by inversion Hl'|].
    inversion Hl'; subst. apply Forall_cons in H1' as [Hb _].
    assert (m' ∈ l1' ++ m' :: l2') as Hin by set_solver.
    rewrite Forall_forall in H2. by rewrite (H2 _ Hin) in Hb.
  - apply Forall_cons in H1 as [Ha H1].
    destruct l1' as [|b l1']; simpl in *.
    + inversion Hl'; subst. rewrite Forall_forall in H2'.
      assert (m ∈ l1 ++ m :: l2) as Hin by set_solver.
      by rewrite (H2' _ Hin) in Ha.
    + inversion Hl'; subst. apply Forall_cons in H1' as [_ H1'].
      by apply (IH H1 l1').
Qed.
End FirstLeast.

Lemma min_from_elem {A K} (ltb : K -> K -> bool) (key : A -> K) best l :
  min_from ltb key best l ∈ best :: l.
Proof.
  revert best. induction l as [|y l IH]; intros best; simpl; [by left|].
  destruct (ltb (key y) (key best)).
  - right. apply IH.
  - specialize (IH best). apply elem_of_cons in IH as [->|?]; [by left|by right; right].
Qed.

Lemma py_min_elem {A K} (ltb : K -> K -> bool) (key : A -> K) l m :
  py_min ltb key l = Some m -> m ∈ l.
Proof. destruct l; [done|]. intros [= <-]. apply min_from_elem. Qed.

Lemma max_from_min_from {A K} (ltb : K -> K -> bool) (key : A -> K) best l :
  max_from ltb key best l = min_from (flip ltb) key best l.
Proof. revert best. induction l as [|x l IH]; intros best; simpl; [done|apply IH]. Qed.

Lemma py_max_py_min {A K} (ltb : K -> K -> bool) (key : A -> K) l :
  py_max ltb key l = py_min (flip ltb) key l.
Proof. destruct l; simpl; [done|]. by rewrite max_from_min_from. Qed.

Global Instance flip_strict_weak {K} (ltb : K -> K -> bool) :
  StrictWeak ltb -> StrictWeak (flip ltb).
Proof.
  intros Hsw. split; unfold flip.
  - apply sw_irrefl.
  - intros a b c Hab Hbc. by eapply sw_trans.
  - intros a b c Hab Hbc. by eapply sw_ntrans.
Qed.

Global Instance key_strict_weak {A K} (ltb : K -> K -> bool) (f : A -> K) :
  StrictWeak ltb -> StrictWeak (fun a b => ltb (f a) (f b)).
Proof.
  intros Hsw. split.
  - intros a. apply sw_irrefl.
  - intros a b c. apply sw_trans.
  - intros a b c. apply sw_ntrans.
Qed.

(** ** The orders of the code *)

Lemma lex_ltb_irrefl a : lex_ltb a a = false.
Proof.
  induction a as [|x a IH]; simpl; [done|].
  rewrite Z.ltb_irrefl, Z.eqb_refl, IH. done.
Qed.

Lemma lex_ltb_cons x a y b :
  lex_ltb (x :: a) (y :: b) = true <-> (x < y)%Z \/ (x = y /\ lex_ltb a b = true).
Proof.
  simpl. rewrite orb_true_iff, andb_true_iff, Z.ltb_lt, Z.eqb_eq. done.
Qed.

Lemma lex_ltb_cons_false x a y b :
  lex_ltb (x :: a) (y :: b) = false <-> (y <= x)%Z /\ (x = y -> lex_ltb a b = false).
Proof.
  simpl. rewrite orb_false_iff, andb_false_iff, Z.ltb_ge, Z.eqb_neq.
  split; [intros [? [?|?]]|intros [? Hab]]; split; try done.
  destruct (decide (x = y)); [right; auto|left; done].
Qed.

Lemma lex_ltb_trans a b c :
  lex_ltb a b = true -> lex_ltb b c = true -> lex_ltb a c = true.
Proof.
  revert b c. induction a as [|x a IH]; intros [|y b] [|z c]; try done.
  rewrite !lex_ltb_cons. intros [?|[-> ?]] [?|[-> ?]]; [left; lia..|].
  right. split; [done|]. by eapply IH.
Qed.

Lemma lex_ltb_ntrans a b c :
  lex_ltb a b = false -> lex_ltb b c = false -> lex_ltb a c = false.
Proof.
  revert b c. induction a as [|x a IH]; intros [|y b] [|z c]; try done.
  rewrite !lex_ltb_cons_false. intros [? Hab] [? Hbc]. split; [lia|].
  intros Hxz. eapply IH; [apply Hab|apply Hbc]; lia.
Qed.

Global Instance lex_ltb_strict_weak : StrictWeak lex_ltb.
Proof. split; [apply lex_ltb_irrefl|apply lex_ltb_trans|apply lex_ltb_ntrans]. Qed.

Global Instance datetime_ltb_strict_weak : StrictWeak datetime_ltb.
Proof. unfold datetime_ltb. apply _. Qed.

Global Instance date_ltb_strict_weak : StrictWeak date_ltb.
Proof. unfold date_ltb. apply _. Qed.

Global Instance xltb_strict_weak : StrictWeak xltb.
Proof.
  split.
  - intros [|p|]; simpl; [done| |done].
    apply bool_decide_eq_false. apply (irreflexivity Qclt).
  - intros [|p|] [|q|] [|r|]; simpl; try done.
    rewrite !bool_decide_eq_true. apply Qclt_trans.
  - intros [|p|] [|q|] [|r|]; simpl; try done.
    rewrite !bool_decide_eq_false, <-!Qcle_ngt. intros ??. by etrans.
Qed.


Section SortKey.
Context `{PyBuiltins}.

Lemma sort_key_ltb_spec a b :
  sort_key_ltb a b = true <->
  (a.1 < b.1)%nat \/ (a.1 = b.1 /\ xltb a.2 b.2 = true).
Proof.
  unfold sort_key_ltb.
  rewrite orb_true_iff, andb_true_iff, Nat.ltb_lt, Nat.eqb_eq. done.
Qed.

Lemma sort_key_ltb_false a b :
  sort_key_ltb a b = false <->
  (b.1 <= a.1)%nat /\ (a.1 = b.1 -> xltb a.2 b.2 = false).
Proof.
  unfold sort_key_ltb.
  rewrite orb_false_iff, andb_false_iff, Nat.ltb_ge, Nat.eqb_neq.
  split; [intros [? [?|?]]|intros [? Hab]]; split; try done.
  destruct (decide (a.1 = b.1)); [right; auto|left; done].
Qed.

Global Instance sort_key_ltb_strict_weak : StrictWeak sort_key_ltb.
Proof.
  split.
  - intros a. apply sort_key_ltb_false. split; [done|]. intros _. apply sw_irrefl.
  - intros a b c. rewrite !sort_key_ltb_spec.
    intros [?|[Hab ?]] [?|[Hbc ?]]; [left; lia..|].
    right. split; [congruence|]. by eapply sw_trans.
  - intros a b c. rewrite !sort_key_ltb_false. intros [? Hab] [? Hbc].
    split; [lia|]. intros Hac.
    eapply sw_ntrans; [apply Hab|apply Hbc]; lia.
Qed.
End SortKey.

(** ** Identity resolution *)


Lemma bind_Ret {A B} (f : A -> outcome B) (a : A) : Ret a ≫= f = f a.
Proof. reflexivity. Qed.

Lemma bind_Raise {A B} (f : A -> outcome B) (e : exn) : Raise e ≫= f = Raise e.
Proof. reflexivity. Qed.

Section Identity.
Context `{PyBuiltins}.


Lemma getitem_Ret {A} (r : list A) i v : r !! i = Some v -> getitem r i = Ret v.
Proof. unfold getitem. by intros ->. Qed.


(** The filter keeps exactly the rows with the asked code, in order. *)
Lemma matching_filter cc code rows :
  Forall (fun r => is_Some (r !! cc)) rows ->
  matching cc code rows
  = Ret (filter (fun r => customer_code_of cc r = Some code) rows).
Proof.
  induction 1 as [|r rows [cell Hcell] _ IH]; [done|].
  simpl. rewrite (getitem_Ret _ _ _ Hcell). simpl. rewrite IH. simpl.
  assert (customer_code_of cc r = Some (PyStr.lower (PyStr.strip (py_str cell))))
    as Hc by (unfold customer_code_of; by rewrite Hcell).
  rewrite filter_cons, Hc.
  destruct (String.eqb_spec (PyStr.lower (PyStr.strip (py_str cell))) code) as [->|Hne].
  - by rewrite decide_True.
  - rewrite decide_False; [done|]. by intros [= ?].
Qed.







End Identity.

Section IdentityFilter.
Context `{PyBuiltins}.

Lemma candidate_rows_no_match cc code rows :
  code <> "" ->
  Forall (fun r => exists c, customer_code_of cc r = Some c /\ c <> code) rows ->
  candidate_rows cc code true rows = Ret [].
Proof.
  intros Hcode Hrows. unfold candidate_rows.
  destruct (String.eqb_spec code ""); [done|].
  rewrite matching_filter, bind_Ret; cycle 1.
  { eapply Forall_impl; [exact Hrows|]. intros r (c & Hc & _); simpl.
    unfold customer_code_of in Hc. by destruct (r !! cc). }
  f_equal. induction Hrows as [|r rows (c & Hc & Hne) _ IH]; [done|].
  rewrite filter_cons, decide_False; [done|congruence].
Qed.

Lemma select_no_match rows headers code cc :
  code <> "" ->
  index "Customer_Code" headers = Some cc ->
  Forall (fun r => exists c, customer_code_of cc r = Some c /\ c <> code) rows ->
  _select_part_key_from_rows rows headers code true = Ret (VNone, "").
Proof.
  intros Hcode Hcc Hrows. unfold _select_part_key_from_rows.
  destruct rows as [|r rows], headers as [|h headers]; try done.
  rewrite Hcc.
  destruct (index "Part_Key" (h :: headers)), (index "Part_Status" (h :: headers)),
    (index "Revision" (h :: headers)); try done.
  by rewrite candidate_rows_no_match.
Qed.
End IdentityFilter.

Section IdentityResults.
Context `{PyBuiltins}.



Lemma retrieve_part_key_no_match (api : part_key_api) part_no raw user password
    (cache : gmap string value) :
  let code := PyStr.lower (PyStr.strip raw) in
  code <> "" ->
  cache !! _build_cache_key part_no code = None ->
  (forall field, exists rows headers cc,
      api user password part_no field = Ret (rows, headers) /\
      index "Customer_Code" headers = Some cc /\
      Forall (fun r => exists c, customer_code_of cc r = Some c /\ c <> code) rows) ->
  retrieve_part_key api part_no raw user password cache = ((VNone, ""), cache).
Proof.
  intros code Hcode Hmiss Hapi. unfold retrieve_part_key. fold code.
  rewrite Hmiss. simpl.
  destruct (String.eqb_spec code ""); [done|]. simpl.
  unfold lookup_part_key.
  destruct (Hapi "Part_No") as (rows & headers & cc & -> & Hcc & Hrows).
  rewrite bind_Ret. simpl. rewrite (select_no_match _ _ _ _ Hcode Hcc Hrows).
  rewrite bind_Ret. simpl.
  destruct (Hapi "Customer_Part_No") as (rows' & headers' & cc' & -> & Hcc' & Hrows').
  rewrite bind_Ret. simpl. by rewrite (select_no_match _ _ _ _ Hcode Hcc' Hrows').
Qed.

(** C1.  With an empty customer code the candidates are not used as they
    are: called the way [retrieve_part_key] calls it, with the customer
    enforced, the resolver returns no identifier whatever the rows and the
    columns.  On the three candidates of [Candidates] the whole lookup finds
    nothing, while the same call without enforcement ranks them and picks
    the Service candidate. *)
Theorem empty_customer_code_finds_no_identifier :
  (forall rows headers,
      _select_part_key_from_rows rows headers "" true = Ret (VNone, "")) /\
  (retrieve_part_key Candidates.api "123" "" "user" "secret" ∅).1 = (VNone, "") /\
  _select_part_key_from_rows Candidates.all Candidates.headers "" false
  = Ret (VStr "K3", "").
Proof.
  split; [|split; reflexivity].
  intros rows headers. unfold _select_part_key_from_rows.
  destruct rows as [|r rows], headers as [|h headers]; try done.
  destruct (index "Part_Key" (h :: headers)), (index "Part_Status" (h :: headers)),
    (index "Revision" (h :: headers)), (index "Customer_Code" (h :: headers));
    done.
Qed.

(** C8.  With a non-empty customer code that no candidate carries (codes
    compared trimmed and lower-cased), the resolver returns no identifier,
    however many other candidates there are: the filtered set is never
    widened.  The lookup as a whole then finds nothing either, neither by
    part number nor by customer part number, and caches nothing. *)
Theorem customer_filter_is_strict :
  (forall rows headers code cc,
      code <> "" ->
      index "Customer_Code" headers = Some cc ->
      Forall (fun r => exists c, customer_code_of cc r = Some c /\ c <> code) rows ->
      _select_part_key_from_rows rows headers code true = Ret (VNone, "")) /\
  (forall (api : part_key_api) part_no raw user password (cache : gmap string value),
      let code := PyStr.lower (PyStr.strip raw) in
      code <> "" ->
      cache !! _build_cache_key part_no code = None ->
      (forall field, exists rows headers cc,
          api user password part_no field = Ret (rows, headers) /\
          index "Customer_Code" headers = Some cc /\
          Forall (fun r => exists c, customer_code_of cc r = Some c /\ c <> code) rows) ->
      retrieve_part_key api part_no raw user password cache = ((VNone, ""), cache)).
Proof. split; [apply select_no_match|apply retrieve_part_key_no_match]. Qed.

End IdentityResults.

Lemma customer_filter_is_strict_witness :
  "lear" <> "" /\
  index "Customer_Code" Candidates.headers = Some 3%nat /\
  _select_part_key_from_rows Candidates.all Candidates.headers "lear" true
  = Ret (VNone, "") /\
  retrieve_part_key Candidates.api "123" " Lear" "user" "secret" ∅
  = ((VNone, ""), ∅).
Proof.
  assert (Forall (fun r => exists c, customer_code_of 3 r = Some c /\ c <> "lear")
            Candidates.all) as Hnone
    by (repeat constructor; eexists; (split; [reflexivity|done])).
  split; [done|]. split; [reflexivity|]. split.
  - apply (proj1 customer_filter_is_strict Candidates.all Candidates.headers "lear" 3%nat).
    + done.
    + reflexivity.
    + exact Hnone.
  - apply (proj2 customer_filter_is_strict Candidates.api "123" " Lear" "user" "secret" ∅).
    + done.
    + reflexivity.
    + intros field. exists Candidates.all, Candidates.headers, 3%nat.
      split; [reflexivity|]. split; [reflexivity|exact Hnone].
Defined.


(** ** Price resolution *)

Section Price.
Context `{PyBuiltins}.

Lemma partition_rows_recent di th today rows r d :
  (r, d) ∈ (partition_rows di th today rows).1 ->
  r ∈ rows /\ d = row_date di r /\ not_future today d.
Proof.
  induction rows as [|r' rows IH]; simpl; [by intros ?%not_elem_of_nil|].
  destruct (partition_rows di th today rows) as [recent older]; simpl in *.
  assert (forall x, x = (r', row_date di r') ->
            (r, d) = x \/ (r, d) ∈ recent ->
            not_future today (row_date di r') ->
            r ∈ r' :: rows /\ d = row_date di r /\ not_future today d) as Hhere.
  { intros x -> [[= -> ->]|Hin] Hnf; [by split; [left|]|].
    destruct (IH Hin) as (? & ? & ?). by split; [right|]. }
  destruct (row_date di r') as [t|] eqn:Hd.
  - destruct (datetime_ltb today t) eqn:Hfut; simpl.
    { intros Hin. destruct (IH Hin) as (? & ? & ?). by split; [right|]. }
    destruct th as [thv|]; [destruct (datetime_ltb t thv)|]; simpl.
    + intros Hin. destruct (IH Hin) as (? & ? & ?). by split; [right|].
    + rewrite elem_of_cons. intros Hin. apply (Hhere _ eq_refl Hin).
      by intros ? [= <-].
    + rewrite elem_of_cons. intros Hin. apply (Hhere _ eq_refl Hin).
      by intros ? [= <-].
  - destruct th; simpl; rewrite elem_of_cons; intros Hin;
      by apply (Hhere _ eq_refl Hin).
Qed.

Lemma partition_rows_older di th today rows r d :
  (r, d) ∈ (partition_rows di th today rows).2 ->
  r ∈ rows /\ d = row_date di r /\ not_future today d /\
  exists t thv, d = Some t /\ th = Some thv /\ datetime_ltb t thv = true.
Proof.
  induction rows as [|r' rows IH]; simpl; [by intros ?%not_elem_of_nil|].
  destruct (partition_rows di th today rows) as [recent older]; simpl in *.
  assert ((r, d) ∈ older ->
          r ∈ r' :: rows /\ d = row_date di r /\ not_future today d /\
          exists t thv, d = Some t /\ th = Some thv /\ datetime_ltb t thv = true)
    as Hrest.
  { intros Hin. destruct (IH Hin) as (? & ? & ? & ?). by split; [right|]. }
  destruct (row_date di r') as [t|] eqn:Hd.
  - destruct (datetime_ltb today t) eqn:Hfut; simpl; [done|].
    destruct th as [thv|]; [destruct (datetime_ltb t thv) eqn:Hlt|]; simpl; try done.
    rewrite elem_of_cons. intros [[= -> ->]|Hin]; [|by apply Hrest].
    split_and!; [by left|done|by intros ? [= <-]|by eauto].
  - by destruct th.
Qed.

(** A row whose date cannot be read is kept, among the recent ones. *)
Lemma partition_rows_undated di th today rows r :
  r ∈ rows -> row_date di r = None ->
  (r, None) ∈ (partition_rows di th today rows).1.
Proof.
  intros Hin Hd. induction rows as [|r' rows IH]; [by apply not_elem_of_nil in Hin|].
  simpl. destruct (partition_rows di th today rows) as [recent older]; simpl in *.
  apply elem_of_cons in Hin as [<-|Hin].
  - rewrite Hd. destruct th; simpl; by left.
  - specialize (IH Hin).
    destruct (row_date di r') as [t|]; [|destruct th; simpl; by right].
    destruct (datetime_ltb today t); simpl; [done|].
    destruct th as [thv|]; [destruct (datetime_ltb t thv)|]; simpl; [done|by right..].
Qed.


Lemma closest_first_least pi chart cands :
  cands <> [] ->
  exists sel, closest pi chart cands = Some sel /\
              first_least xltb (price_gap pi chart) cands sel.
Proof.
  intros Hne. unfold closest. destruct (decide (1 < length cands)) as [Hlen|Hlen].
  - destruct (py_min_is_Some xltb (price_gap pi chart) cands Hne) as [sel Hsel].
    exists sel. split; [done|]. exact (py_min_first_least xltb _ _ _ Hsel).
  - destruct cands as [|x [|y cands]]; [done| |simpl in *; lia].
    exists x. split; [done|]. exists [], []. by repeat constructor.
Qed.

Lemma on_date_Some b items :
  on_date (Some b) items = fst <$> filter (fun it => it.2 = Some b) items.
Proof. done. Qed.

Lemma on_date_elem best items r :
  r ∈ on_date best items -> exists d, (r, d) ∈ items.
Proof.
  destruct best as [b|]; simpl; intros Hin.
  - apply list_elem_of_fmap in Hin as ([r' d] & -> & Hin).
    apply list_elem_of_filter in Hin as [_ Hin]. by exists d.
  - apply list_elem_of_fmap in Hin as ([r' d] & -> & Hin). by exists d.
Qed.

Lemma dated_elem items t : t ∈ dated items <-> exists r, (r, Some t) ∈ items.
Proof.
  unfold dated. rewrite list_elem_of_omap. split.
  - intros ([r d] & Hin & Hd). simpl in *. subst. by exists r.
  - intros (r & Hin). by exists (r, Some t).
Qed.

Lemma on_date_nonempty b items : b ∈ dated items -> on_date (Some b) items <> [].
Proof.
  intros (r & Hin)%dated_elem Hnil.
  assert (r ∈ on_date (Some b) items) as Hr.
  { rewrite on_date_Some. apply list_elem_of_fmap. exists (r, Some b).
    split; [done|]. by apply list_elem_of_filter. }
  rewrite Hnil in Hr. by apply not_elem_of_nil in Hr.
Qed.

(** The candidates of the comparison are never empty. *)
Lemma on_date_extreme_nonempty (ltb : datetime -> datetime -> bool) items :
  items <> [] -> on_date (py_min ltb id (dated items)) items <> [].
Proof.
  intros Hne. destruct (py_min ltb id (dated items)) as [b|] eqn:Hb.
  - by apply on_date_nonempty, (py_min_elem ltb id).
  - simpl. by destruct items.
Qed.

Lemma closest_elem pi chart cands sel :
  closest pi chart cands = Some sel -> sel ∈ cands.
Proof.
  unfold closest. destruct (decide _).
  - apply py_min_elem.
  - destruct cands; [done|]. intros [= <-]. by left.
Qed.

Lemma pick_recent rows pi di po chart th today :
  (partition_rows di th today rows).1 <> [] ->
  exists sel d, _pick_best_price_row rows pi di po chart th today = (Some sel, d, false).
Proof.
  intros Hne. unfold _pick_best_price_row.
  destruct rows as [|r0 rows]; [done|].
  destruct (partition_rows di th today (r0 :: rows)) as [recent older]; simpl in *.
  destruct recent as [|it recent]; [done|].
  rewrite py_max_py_min.
  destruct (closest_first_least pi chart
              (on_date (py_min (flip datetime_ltb) id (dated (it :: recent)))
                 (it :: recent))) as (sel & -> & _); [|by eauto].
  by apply on_date_extreme_nonempty.
Qed.

Lemma filter_on_date di b rows :
  on_date (Some b) ((fun r => (r, row_date di r)) <$> rows)
  = filter (fun r => row_date di r = Some b) rows.
Proof.
  rewrite on_date_Some. induction rows as [|r rows IH]; [done|].
  rewrite fmap_cons, (filter_cons (fun it : row * option datetime => it.2 = Some b)),
    (filter_cons (fun r => row_date di r = Some b)).
  destruct (decide (row_date di r = Some b)) as [Hd|Hd].
  - rewrite decide_True by done. by rewrite fmap_cons, IH.
  - by rewrite decide_False by done.
Qed.

End Price.

Section PriceResults.
Context `{PyBuiltins}.

Lemma matched_customer_None name names :
  _fuzzy_match_customer name names = None -> matched_customer name names = None.
Proof. unfold matched_customer. intros ->. by destruct (String.eqb name ""). Qed.

(** C2, as the code has it.  A non-empty customer name that matches no
    known name leaves the rows unfiltered: the result is that of the same
    call with an empty customer name, so a price is selected from the
    returned rows whenever one qualifies, and the status is never
    "No PO's under <name> found". *)
Theorem unmatched_customer_is_not_filtered rows headers name names chart
    date_begin_str today :
  name <> "" ->
  _fuzzy_match_customer name names = None ->
  _select_price_from_rows rows headers name names chart date_begin_str today
  = _select_price_from_rows rows headers "" names chart date_begin_str today /\
  forall p po,
    _select_price_from_rows rows headers name names chart date_begin_str today
    <> Ret (p, "No PO's under " +:+ name +:+ " found", po).
Proof.
  intros Hname Hnone. apply matched_customer_None in Hnone.
  unfold _select_price_from_rows. rewrite Hnone.
  change (matched_customer "" names) with (@None string).
  split; [done|]. intros p po.
  destruct (index "Customer_Name" headers) as [ci|],
    (index "Unit_Price" headers) as [pi|],
    (index "Require_Ship_Date" headers) as [di|];
    try by intros [=].
  unfold filtered_rows. rewrite bind_Ret. destruct rows as [|r rows].
  { by intros [=]. }
  destruct (_pick_best_price_row _ _ _ _ _ _ _) as [[[sel|] d] used].
  - destruct (getitem sel pi); [|done]. rewrite bind_Ret.
    destruct (match index "PO_No" headers with
              | Some i => getitem sel i
              | None => Ret (VStr "")
              end); [|done].
    rewrite bind_Ret. by destruct used, d; intros [=].
  - by intros [=].
Qed.

Lemma pick_not_future rows price_idx date_idx po_no_idx chart_price
    start_threshold today sel d used :
  _pick_best_price_row rows price_idx date_idx po_no_idx chart_price
    start_threshold today = (Some sel, d, used) ->
  sel ∈ rows /\ not_future today (row_date date_idx sel).
Proof.
  unfold _pick_best_price_row.
  destruct rows as [|r0 rows']; [done|].
  pose proof (partition_rows_recent date_idx start_threshold today (r0 :: rows'))
    as Hrecent.
  pose proof (partition_rows_older date_idx start_threshold today (r0 :: rows'))
    as Holder.
  destruct (partition_rows date_idx start_threshold today (r0 :: rows'))
    as [recent older]; simpl in Hrecent, Holder.
  destruct recent as [|it recent]; [destruct older as [|it older]; [done|]|].
  - intros [= Hsel _ _]. apply closest_elem, on_date_elem in Hsel as [d' Hin].
    destruct (Holder _ _ Hin) as (? & -> & ? & _). done.
  - intros [= Hsel _ _]. apply closest_elem, on_date_elem in Hsel as [d' Hin].
    destruct (Hrecent _ _ Hin) as (? & -> & ?). done.
Qed.

(** C6.  Take the rows in any order: the row picked is one of them and its
    ship date, when it can be read, is not after [today].  A row whose ship
    date cannot be read is kept among the recent rows, so that with such a
    row present the pick is made among the recent rows and is not flagged
    as an old price. *)
Theorem future_rows_are_never_selected rows price_idx date_idx po_no_idx chart_price
    start_threshold today :
  (forall reordered sel d used,
      reordered ≡ₚ rows ->
      _pick_best_price_row reordered price_idx date_idx po_no_idx chart_price
        start_threshold today = (Some sel, d, used) ->
      sel ∈ rows /\ not_future today (row_date date_idx sel)) /\
  (forall r, r ∈ rows -> row_date date_idx r = None ->
      (r, None) ∈ (partition_rows date_idx start_threshold today rows).1 /\
      exists sel d,
        _pick_best_price_row rows price_idx date_idx po_no_idx chart_price
          start_threshold today = (Some sel, d, false)).
Proof.
  split.
  - intros reordered sel d used Hperm Hpick.
    apply pick_not_future in Hpick as [Hin Hnf]. split; [|done].
    by rewrite <-Hperm.
  - intros r Hin Hd.
    pose proof (partition_rows_undated date_idx start_threshold today rows r Hin Hd)
      as Hkept.
    split; [done|]. apply pick_recent. intros Hnil. rewrite Hnil in Hkept.
    by apply not_elem_of_nil in Hkept.
Qed.

End PriceResults.

(** C2 as specified does not hold: "magna" matches no known name, and the
    resolver still answers with the old October price of another customer's
    order instead of "No PO's under magna found". *)
Lemma unmatched_customer_still_gets_a_price :
  ~ (forall rows headers name names chart date_begin_str today,
        name <> "" ->
        _fuzzy_match_customer name names = None ->
        _select_price_from_rows rows headers name names chart date_begin_str today
        = Ret (VNum chart, "No PO's under " +:+ name +:+ " found", VStr "")).
Proof.
  intros Hspec.
  specialize (Hspec Orders.old Orders.headers "magna" ["lear"] (qc 11)
                "2026-01-01T00:00:00Z" Orders.today).
  assert (_select_price_from_rows Orders.old Orders.headers "magna" ["lear"] (qc 11)
            "2026-01-01T00:00:00Z" Orders.today
          = Ret (VNum (qc 11), "Old Price from 2025-10-01", VStr "PO-3")) as Hrun
    by reflexivity.
  rewrite Hrun in Hspec. by specialize (Hspec ltac:(done) eq_refl).
Qed.

Lemma unmatched_customer_is_not_filtered_witness :
  "magna" <> "" /\
  _fuzzy_match_customer "magna" ["lear"] = None /\
  _select_price_from_rows Orders.old Orders.headers "magna" ["lear"] (qc 11)
    "2026-01-01T00:00:00Z" Orders.today
  = _select_price_from_rows Orders.old Orders.headers "" ["lear"] (qc 11)
      "2026-01-01T00:00:00Z" Orders.today.
Proof.
  split; [done|]. split; [reflexivity|].
  apply (unmatched_customer_is_not_filtered Orders.old Orders.headers "magna" ["lear"]
           (qc 11) "2026-01-01T00:00:00Z" Orders.today); [done|reflexivity].
Defined.

Lemma future_rows_are_never_selected_witness :
  _pick_best_price_row (Orders.next_march :: Orders.undated :: Orders.old)
    1 2 (Some 3%nat) (qc 11) (Some Orders.january) Orders.today
  = (Some Orders.undated, None, false) /\
  Orders.undated ∈ Orders.next_march :: Orders.undated :: Orders.old /\
  not_future Orders.today (row_date 2 Orders.undated).
Proof.
  split; [reflexivity|].
  apply (proj1 (future_rows_are_never_selected
                  (Orders.next_march :: Orders.undated :: Orders.old)
                  1 2 (Some 3%nat) (qc 11) (Some Orders.january) Orders.today)
           (Orders.next_march :: Orders.undated :: Orders.old)
           Orders.undated None false).
  - reflexivity.
  - reflexivity.
Defined.


(** ** Price blocks *)

Section Blocks.
Context `{PyBuiltins}.

Lemma most_recent_step_Ret r k today cust cur b st' :
  most_recent_step r k today cust (state_of cur) b = Ret st' ->
  st' = state_of (newer cur (block_offer r k today cust b)).
Proof.
  unfold most_recent_step, block_offer.
  destruct (block_date b) as [dv|]; simpl; [|by intros [= <-]].
  destruct (date_ltb today dv); [by intros [= <-]|].
  destruct (k <=? header_row b)%nat; [by intros [= <-]|].
  destruct (_select_price_column _ _ _) as [j|]; simpl; [|by intros [= <-]].
  unfold series_get.
  destruct (r !! part_col b) as [pn|]; simpl; [|done].
  destruct (r !! j) as [pc|]; simpl; [|done].
  destruct (int_of_str _) as [n|]; simpl; [|by intros [= <-]].
  destruct (float_of_str _) as [p|]; simpl; [|by intros [= <-]].
  destruct cur as [[[d0 n0] p0]|]; simpl; [|by intros [= <-]].
  destruct (date_ltb d0 dv); by intros [= <-].
Qed.

Lemma select_price_column_lt hv pc cust j :
  _select_price_column hv pc cust = Some j -> (j < length hv)%nat.
Proof.
  assert (forall p start l i, first_from p start l = Some i -> (i < length l)%nat)
    as Hfrom.
  { intros p start l i. unfold first_from. intros Hi.
    apply fmap_Some in Hi as ([h x] & Hf & ->).
    apply list_find_Some in Hf as (Hl & _). apply lookup_lt_Some in Hl.
    rewrite length_drop in Hl. simpl. lia. }
  assert (forall p prios start l i,
            first_priority p prios start l = Some i -> (i < length l)%nat) as Hprio.
  { intros p prios start l i. induction prios as [|pr prios IH]; simpl; [done|].
    destruct (first_from (p pr) start l) eqn:Hf; [|done].
    intros [= <-]. by eapply Hfrom. }
  assert (forall i,
            match first_priority (fun pr h => String.eqb h pr) PRICE_COLUMN_PRIORITIES
                    (pc + 1) (PyStr.lower <$> hv) with
            | Some j => Some j
            | None => first_priority PyStr.contains PRICE_COLUMN_PRIORITIES
                        (pc + 1) (PyStr.lower <$> hv)
            end = Some i -> (i < length hv)%nat) as Hdefault.
  { intros i. destruct (first_priority (fun pr h => String.eqb h pr) _ _ _) eqn:He.
    - intros [= <-]. apply Hprio in He. by rewrite length_fmap in He.
    - intros Hc. apply Hprio in Hc. by rewrite length_fmap in Hc. }
  unfold _select_price_column.
  destruct cust as [[|c name]|]; [by apply Hdefault| |by apply Hdefault].
  destruct (_map_customer_to_header _) as [[|c' label]|];
    [by apply Hdefault| |by apply Hdefault].
  destruct (first_from _ _ _) eqn:Hf; [|by apply Hdefault].
  intros [= <-]. apply Hfrom in Hf. by rewrite length_fmap in Hf.
Qed.

Lemma most_recent_step_total r k today cust st b :
  under_header r b -> exists st', most_recent_step r k today cust st b = Ret st'.
Proof.
  intros [Hpart Hwide]. unfold most_recent_step.
  destruct (block_date b) as [dv|]; [|by eauto].
  destruct (date_ltb today dv); [by eauto|].
  destruct (k <=? header_row b)%nat; [by eauto|].
  destruct (_select_price_column _ _ _) as [j|] eqn:Hj; [|by eauto].
  apply select_price_column_lt in Hj. unfold series_get.
  destruct (lookup_lt_is_Some_2 r (part_col b)) as [pn ->]; [lia|].
  destruct (lookup_lt_is_Some_2 r j) as [pc ->]; [lia|].
  rewrite !bind_Ret. repeat case_match; by eauto.
Qed.

Lemma most_recent_loop_Ret r k today cust cur blocks st' :
  most_recent_loop r k today cust (state_of cur) blocks = Ret st' ->
  st' = state_of (foldl newer cur (block_offer r k today cust <$> blocks)).
Proof.
  revert cur. induction blocks as [|b blocks IH]; intros cur; simpl.
  - by intros [= <-].
  - destruct (most_recent_step r k today cust (state_of cur) b) as [st1|] eqn:Hstep;
      [|done].
    apply most_recent_step_Ret in Hstep as ->. rewrite bind_Ret. apply IH.
Qed.

Lemma most_recent_loop_total r k today cust st blocks :
  Forall (under_header r) blocks ->
  exists st', most_recent_loop r k today cust st blocks = Ret st'.
Proof.
  intros Hall. revert st. induction Hall as [|b blocks Hb _ IH]; intros st; simpl.
  - by eauto.
  - destruct (most_recent_step_total r k today cust st b Hb) as [st1 ->].
    rewrite bind_Ret. apply IH.
Qed.

(** The fold of the loop is [max] by date over the offers. *)
Lemma foldl_newer_Some c offers :
  foldl newer (Some c) offers
  = Some (max_from date_ltb (fun o => o.1.1) c (omap id offers)).
Proof.
  revert c. induction offers as [|[o|] offers IH]; intros c; simpl; [done| |apply IH].
  destruct (date_ltb c.1.1 o.1.1); apply IH.
Qed.

Lemma foldl_newer_None offers :
  foldl newer None offers = py_max date_ltb (fun o => o.1.1) (omap id offers).
Proof.
  induction offers as [|[o|] offers IH]; simpl; [done| |apply IH].
  apply foldl_newer_Some.
Qed.

Lemma omap_id_fmap {A B} (f : A -> option B) (l : list A) :
  omap id (f <$> l) = omap f l.
Proof.
  induction l as [|x l IH]; [done|].
  rewrite fmap_cons. cbn [omap list_omap]. unfold id at 1.
  destruct (f x); [f_equal|]; exact IH.
Qed.

Lemma find_most_recent_price_Ret r k blocks today cust res :
  _find_most_recent_price r k blocks today cust = Ret res ->
  res = (fun o => (o.1.2, o.2, Some o.1.1)) <$>
          py_max date_ltb (fun o => o.1.1) (omap (block_offer r k today cust) blocks).
Proof.
  unfold _find_most_recent_price.
  destruct (most_recent_loop _ _ _ _ _ _) as [st|] eqn:Hloop; [|done].
  apply (most_recent_loop_Ret r k today cust None) in Hloop as ->.
  rewrite bind_Ret, foldl_newer_None, omap_id_fmap.
  destruct (py_max _ _ _) as [[[d n] p]|]; by intros [= <-].
Qed.

Lemma find_most_recent_price_total r k blocks today cust :
  Forall (under_header r) blocks ->
  exists res, _find_most_recent_price r k blocks today cust = Ret res.
Proof.
  intros Hall. unfold _find_most_recent_price.
  destruct (most_recent_loop_total r k today cust (mkLatest None None None) blocks Hall)
    as [st ->].
  rewrite bind_Ret. repeat case_match; by eauto.
Qed.
End Blocks.

Section BlockResults.
Context `{PyBuiltins}.

Lemma find_most_recent_price_max r k blocks today cust :
  Forall (under_header r) blocks ->
  _find_most_recent_price r k blocks today cust
  = Ret ((fun o => (o.1.2, o.2, Some o.1.1)) <$>
           py_max date_ltb (fun o => o.1.1) (omap (block_offer r k today cust) blocks)).
Proof.
  intros Hall.
  destruct (find_most_recent_price_total r k blocks today cust Hall) as [res Hres].
  rewrite Hres. f_equal. by apply find_most_recent_price_Ret.
Qed.

(** C4.  Among the blocks that qualify for a row and a customer token
    (those with an offer), the one used is the first of those with the
    latest date: every offer before it is strictly older, no offer after it
    is newer; without a qualifying block there is no price.  Of two
    qualifying blocks dated D1 < D2 the one dated D2 is used in either
    order, and of two with the same date the first. *)
Theorem latest_dated_block_wins :
  (forall r k blocks today cust,
      Forall (under_header r) blocks ->
      let offers := omap (block_offer r k today cust) blocks in
      (offers = [] -> _find_most_recent_price r k blocks today cust = Ret None) /\
      (offers <> [] ->
       exists l1 d n p l2,
         offers = l1 ++ (d, n, p) :: l2 /\
         Forall (fun o => date_ltb o.1.1 d = true) l1 /\
         Forall (fun o => date_ltb d o.1.1 = false) l2 /\
         _find_most_recent_price r k blocks today cust = Ret (Some (n, p, Some d)))) /\
  (forall r k today cust b1 b2 d1 n1 p1 d2 n2 p2,
      under_header r b1 -> under_header r b2 ->
      block_offer r k today cust b1 = Some (d1, n1, p1) ->
      block_offer r k today cust b2 = Some (d2, n2, p2) ->
      (date_ltb d1 d2 = true ->
       _find_most_recent_price r k [b1; b2] today cust = Ret (Some (n2, p2, Some d2)) /\
       _find_most_recent_price r k [b2; b1] today cust = Ret (Some (n2, p2, Some d2))) /\
      (d1 = d2 ->
       _find_most_recent_price r k [b1; b2] today cust = Ret (Some (n1, p1, Some d1)))).
Proof.
  split.
  - intros r k blocks today cust Hall offers.
    rewrite (find_most_recent_price_max _ _ _ _ _ Hall). fold offers. split.
    + by intros ->.
    + intros Hne. rewrite py_max_py_min.
      destruct (py_min_is_Some (flip date_ltb) (fun o => o.1.1) offers Hne)
        as [[[d n] p] Hmax].
      pose proof (py_min_first_least (flip date_ltb) _ _ _ Hmax)
        as (l1 & l2 & Hl & H1 & H2).
      exists l1, d, n, p, l2. rewrite Hmax. by split_and!.
  - intros r k today cust b1 b2 d1 n1 p1 d2 n2 p2 Hb1 Hb2 Ho1 Ho2.
    rewrite !find_most_recent_price_max by auto using Forall_nil_2, Forall_cons_2.
    simpl. rewrite Ho1, Ho2. simpl. split.
    + intros Hlt. rewrite Hlt, (sw_asym date_ltb _ _ Hlt). done.
    + intros <-. by rewrite (sw_irrefl (ltb:=date_ltb)).
Qed.
End BlockResults.

(** ** Price columns *)

Section Columns.
Context `{PyBuiltins}.

Lemma traverse_Ret {A B} (f : A -> outcome B) l ys :
  traverse f l = Ret ys -> Forall2 (fun x y => f x = Ret y) l ys.
Proof.
  revert ys. induction l as [|x l IH]; intros ys; simpl.
  - intros [= <-]. constructor.
  - destruct (f x) as [y|] eqn:Hx; [|done]. rewrite bind_Ret.
    destruct (traverse f l) as [ys'|]; [|done]. rewrite bind_Ret.
    intros [= <-]. constructor; [done|]. by apply IH.
Qed.

Lemma block_offer_priced r k today cust b d n p :
  block_offer r k today cust b = Some (d, n, p) ->
  exists j c,
    _select_price_column (header_values b) (part_col b) cust = Some j /\
    r !! j = Some c /\
    float_of_str (PyStr.strip (PyStr.remove_char ","
                    (PyStr.remove_char "$" (cell_str c)))) = Some p.
Proof.
  unfold block_offer. intros Ho.
  destruct (block_date b) as [dv|]; simpl in Ho; [|done].
  destruct (date_ltb today dv); [done|].
  destruct (k <=? header_row b)%nat; [done|].
  destruct (_select_price_column _ _ _) as [j|] eqn:Hj; simpl in Ho; [|done].
  destruct (r !! part_col b) as [pn|]; simpl in Ho; [|done].
  destruct (r !! j) as [c|] eqn:Hc; simpl in Ho; [|done].
  destruct (int_of_str _) as [n'|]; simpl in Ho; [|done].
  destruct (float_of_str _) as [p'|] eqn:Hp; simpl in Ho; [|done].
  injection Ho as <- <- <-. by exists j, c.
Qed.

Lemma find_most_recent_price_priced r k blocks today cust n p d :
  _find_most_recent_price r k blocks today cust = Ret (Some (n, p, d)) ->
  priced_from r blocks cust p.
Proof.
  intros Hres. apply find_most_recent_price_Ret in Hres.
  destruct (py_max _ _ _) as [[[d' n'] p']|] eqn:Hmax; [|done].
  injection Hres as -> -> ->. rewrite py_max_py_min in Hmax.
  apply py_min_elem, list_elem_of_omap in Hmax as (b & Hb & Ho).
  destruct (block_offer_priced _ _ _ _ _ _ _ _ Ho) as (j & c & ? & ? & ?).
  by exists b, j, c.
Qed.

Lemma extract_row_priced r k col_indices blocks today customer_raw parts part :
  meta r (col_indices !! "plex customer code") = Ret customer_raw ->
  extract_row r k col_indices blocks today = Ret parts ->
  part ∈ parts ->
  let customer_text := PyStr.strip (cell_str customer_raw) in
  if PyStr.contains "," customer_text
  then exists token, token ∈ customer_tokens customer_text /\
                     customer part = PyStr.strip token /\
                     priced_from r blocks (Some token) (price part)
  else customer part = PyStr.strip customer_text /\
       priced_from r blocks None (price part).
Proof.
  intros Hraw. unfold extract_row.
  destruct (meta r (col_indices !! "program")) as [program|]; [|done].
  rewrite bind_Ret.
  destruct (match col_indices !! "fisher pcn" with
            | Some i => _
            | None => _
            end) as [pcn|]; [|done].
  rewrite bind_Ret, Hraw, bind_Ret.
  destruct (meta r (col_indices !! "oem plant")) as [oem|]; [|done].
  rewrite bind_Ret.
  destruct (meta r (col_indices !! "part description")) as [desc|]; [|done].
  rewrite bind_Ret. cbv zeta.
  destruct (traverse _ _) as [found|] eqn:Hfound; [|done].
  rewrite bind_Ret. intros [= <-] Hin.
  apply list_elem_of_join in Hin as (ps & Hpart & Hps).
  apply traverse_Ret in Hfound.
  apply list_elem_of_lookup in Hps as [i Hi].
  destruct (Forall2_lookup_r _ _ _ _ _ Hfound Hi) as (name & Hname & Hrun).
  destruct (_find_most_recent_price _ _ _ _ _) as [[[[n p] d]|]|] eqn:Hprice;
    rewrite ?bind_Ret in Hrun; [|by simplify_eq; apply not_elem_of_nil in Hpart|done].
  injection Hrun as <-. apply list_elem_of_singleton in Hpart as ->. simpl.
  apply find_most_recent_price_priced in Hprice.
  apply list_elem_of_lookup_2 in Hname.
  destruct (PyStr.contains "," _).
  - exists name. by split_and!.
  - apply list_elem_of_singleton in Hname as ->. by split.
Qed.
End Columns.

Section ColumnResults.
Context `{PyBuiltins}.

Lemma first_from_Some p start l j :
  first_from p start l = Some j <->
  (start <= j)%nat /\ (exists h, l !! j = Some h /\ p h = true) /\
  forall i h, (start <= i < j)%nat -> l !! i = Some h -> p h <> true.
Proof.
  unfold first_from. rewrite fmap_Some. split.
  - intros ([i h] & Hf & ->). apply list_find_Some in Hf as (Hl & Hp & Hfirst).
    rewrite lookup_drop in Hl. simpl. split_and!; [lia|by eauto|].
    intros i' h' Hi' Hl'. apply (Hfirst (i' - start)%nat); [|lia].
    rewrite lookup_drop. by replace (start + (i' - start))%nat with i' by lia.
  - intros (Hle & (h & Hl & Hp) & Hfirst). exists ((j - start)%nat, h).
    split; [|simpl; lia]. apply list_find_Some. split_and!; [|done|].
    + rewrite lookup_drop. by replace (start + (j - start))%nat with j by lia.
    + intros i' h'. rewrite lookup_drop. intros Hl' Hi'.
      apply (Hfirst (start + i')%nat); [lia|done].
Qed.

Lemma map_customer_loop_find customer_lower items :
  map_customer_loop customer_lower items
  = (fun hit => hit.2.2) <$>
      list_find (fun kv => PyStr.contains (PyStr.lower kv.1) customer_lower = true) items.
Proof.
  induction items as [|[key label] items IH]; [done|].
  simpl. destruct (PyStr.contains (PyStr.lower key) customer_lower) eqn:Hc.
  - by rewrite decide_True.
  - rewrite decide_False by done.
    rewrite IH. by destruct (list_find _ items) as [[]|].
Qed.

(** C3, as the code has it.  The mapping from customers to price-column
    labels is applied to the tokens of a row that lists several
    comma-separated customers: for such a token the first mapping key
    contained in it (case-insensitively) gives the label, the header is
    searched right of the part-number column for the first column
    containing the label, and the default column is the fallback when none
    is found or no key matches.  For a row without a comma no token reaches
    the selection, and the price comes from the default column. *)
Theorem mapping_applies_to_comma_separated_customers :
  (forall hv pc name label,
      name <> "" -> label <> "" ->
      _map_customer_to_header name = Some label ->
      _select_price_column hv pc (Some name)
      = match first_from (PyStr.contains (PyStr.lower label)) (pc + 1)
                (PyStr.lower <$> hv) with
        | Some j => Some j
        | None => _find_price_column hv pc
        end) /\
  (forall hv pc name,
      _map_customer_to_header name = None ->
      _select_price_column hv pc (Some name) = _find_price_column hv pc) /\
  (forall hv pc, _select_price_column hv pc None = _find_price_column hv pc) /\
  (forall name,
      _map_customer_to_header name
      = (fun hit => hit.2.2) <$>
          list_find (fun kv => PyStr.contains (PyStr.lower kv.1) (PyStr.lower name) = true)
            CUSTOM_PRICE_COLUMN_MAP) /\
  (forall p start l j,
      first_from p start l = Some j <->
      (start <= j)%nat /\ (exists h, l !! j = Some h /\ p h = true) /\
      forall i h, (start <= i < j)%nat -> l !! i = Some h -> p h <> true) /\
  (forall r k col_indices blocks today customer_raw parts part,
      meta r (col_indices !! "plex customer code") = Ret customer_raw ->
      extract_row r k col_indices blocks today = Ret parts ->
      part ∈ parts ->
      let customer_text := PyStr.strip (cell_str customer_raw) in
      if PyStr.contains "," customer_text
      then exists token, token ∈ customer_tokens customer_text /\
                         customer part = PyStr.strip token /\
                         priced_from r blocks (Some token) (price part)
      else customer part = PyStr.strip customer_text /\
           priced_from r blocks None (price part)).
Proof.
  split_and!.
  - intros hv pc [|c name] [|c' label] Hname Hlabel Hmap; try done.
    unfold _select_price_column. by rewrite Hmap.
  - intros hv pc name Hmap. unfold _select_price_column.
    destruct name; [done|]. by rewrite Hmap.
  - done.
  - intros name. apply map_customer_loop_find.
  - apply first_from_Some.
  - apply extract_row_priced.
Qed.
End ColumnResults.

(** C3 as specified does not hold on a row with the single customer Lear:
    the mapping sends Lear to the "Factory Zero Price" column, which holds
    20, yet the part is extracted with the price of the default "DDP Price"
    column. *)
Lemma single_customer_row_ignores_mapping :
  ~ (forall r k col_indices blocks today customer_raw parts part,
        meta r (col_indices !! "plex customer code") = Ret customer_raw ->
        extract_row r k col_indices blocks today = Ret parts ->
        part ∈ parts ->
        priced_from r blocks (Some (customer part)) (price part)).
Proof.
  intros Hspec.
  destruct (Hspec Sheet.single 2%nat Sheet.col_indices [Sheet.price_block] Sheet.today
              (CText "Lear")
              [mkExcelPart 12345 (Q2Qc (1000050 # 100)) "" "95506" "Lear" "" "Seat frame"
                 (Some (mkDate 2026 1 5))]
              (mkExcelPart 12345 (Q2Qc (1000050 # 100)) "" "95506" "Lear" "" "Seat frame"
                 (Some (mkDate 2026 1 5))))
    as (b & j & c & Hb & Hj & Hc & Hp).
  - reflexivity.
  - vm_compute. reflexivity.
  - by left.
  - apply list_elem_of_singleton in Hb as ->.
    assert (j = 4%nat) as -> by (vm_compute in Hj; by injection Hj).
    injection Hc as <-. vm_compute in Hp. by injection Hp.
Qed.

Lemma mapping_applies_to_comma_separated_customers_witness :
  _select_price_column Sheet.header 0 (Some "Lear")
  = match first_from (PyStr.contains (PyStr.lower "factory zero")) (0 + 1)
            (PyStr.lower <$> Sheet.header) with
    | Some j => Some j
    | None => _find_price_column Sheet.header 0
    end /\
  exists token,
    token ∈ customer_tokens "Lear, Adient" /\
    "Adient" = PyStr.strip token /\
    priced_from Sheet.shared [Sheet.price_block] (Some token) (qc 30).
Proof.
  split.
  - apply (proj1 mapping_applies_to_comma_separated_customers
             Sheet.header 0%nat "Lear" "factory zero"); [done|done|reflexivity].
  - apply (proj2 (proj2 (proj2 (proj2 (proj2
             mapping_applies_to_comma_separated_customers))))
             Sheet.shared 3%nat Sheet.col_indices [Sheet.price_block] Sheet.today
             (CText "Lear, Adient")
             [mkExcelPart 12346 (qc 20) "" "95506" "Lear" "" "Seat track"
                (Some (mkDate 2026 1 5));
              mkExcelPart 12346 (qc 30) "" "95506" "Adient" "" "Seat track"
                (Some (mkDate 2026 1 5))]
             (mkExcelPart 12346 (qc 30) "" "95506" "Adient" "" "Seat track"
                (Some (mkDate 2026 1 5)))).
    + reflexivity.
    + vm_compute. reflexivity.
    + right. left.
Defined.

Lemma latest_dated_block_wins_witness :
  Forall (under_header Sheet.single) [Sheet.earlier_block; Sheet.price_block] /\
  exists l1 d n p l2,
    omap (block_offer Sheet.single 2 Sheet.today None)
      [Sheet.earlier_block; Sheet.price_block] = l1 ++ (d, n, p) :: l2 /\
    Forall (fun o => date_ltb o.1.1 d = true) l1 /\
    Forall (fun o => date_ltb d o.1.1 = false) l2 /\
    _find_most_recent_price Sheet.single 2 [Sheet.earlier_block; Sheet.price_block]
      Sheet.today None = Ret (Some (n, p, Some d)).
Proof.
  assert (Forall (under_header Sheet.single) [Sheet.earlier_block; Sheet.price_block])
    as Hwide by (repeat constructor; simpl; lia).
  split; [exact Hwide|].
  apply (proj1 latest_dated_block_wins Sheet.single 2%nat
           [Sheet.earlier_block; Sheet.price_block] Sheet.today None Hwide).
  vm_compute. discriminate.
Defined.

(** ** Effective month and the report *)

Section Reconcile.
Context `{PyBuiltins} (w : world).

Lemma compute_effective_month_start_parseable d today :
  parseable d ->
  compute_effective_month_start (Some d) today
  = (first_of_month d, first_of_month_iso d).
Proof.
  intros [Hts Hmin]. unfold compute_effective_month_start. simpl.
  rewrite Hts. rewrite decide_False by done. reflexivity.
Qed.

Lemma select_status rows headers code enforce key status :
  _select_part_key_from_rows rows headers code enforce = Ret (key, status) ->
  status = "".
Proof.
  unfold _select_part_key_from_rows, select_best.
  destruct rows, headers; try by intros [= _ <-].
  repeat (case_match; try by intros [= _ <-]); try done.
  all: destruct (candidate_rows _ _ _ _); rewrite ?bind_Ret, ?bind_Raise; try done.
  all: repeat (case_match; try by intros [= _ <-]); try done.
  all: destruct (traverse _ _); rewrite ?bind_Ret, ?bind_Raise; try done.
  all: repeat (case_match; try by intros [= _ <-]); try done.
  all: subst; repeat (destruct (getitem _ _); rewrite ?bind_Ret, ?bind_Raise; try done).
  all: by intros [= _ <-].
Qed.

Lemma retrieve_part_key_status (api : part_key_api) part_no raw user password
    (cache : gmap string value) :
  (retrieve_part_key api part_no raw user password cache).1.2 = "" \/
  (retrieve_part_key api part_no raw user password cache).1.2 = "Timed Out".
Proof.
  unfold retrieve_part_key.
  destruct (truthy _); [by left|].
  destruct (lookup_part_key _ _ _ _ _) as [[key status]|e] eqn:Hlookup.
  - assert (status = "") as ->; [|destruct (truthy key); by left].
    revert Hlookup. unfold lookup_part_key.
    destruct (api user password part_no "Part_No") as [[rows headers]|]; [|done].
    rewrite bind_Ret.
    destruct (_select_part_key_from_rows rows headers _ true) as [[k1 s1]|] eqn:H1;
      [|done].
    rewrite bind_Ret. apply select_status in H1 as ->.
    destruct (truthy k1); [by intros [= _ <-]|].
    destruct (api user password part_no "Customer_Part_No") as [[rows' headers']|];
      [|done].
    rewrite bind_Ret. apply select_status.
  - destruct e; by auto.
Qed.
End Reconcile.

Section ReconcileResults.
Context `{PyBuiltins} (w : world).

(** A part whose identifier is found: the price comes from the cache entry
    of its key, filled by the price service when it was missing. *)
Lemma process_part_priced part names customer_names c user password pk status pkc :
  get_auth_for_pcn w (pcn_of part) = Ret (user, password) ->
  retrieve_part_key (part_keys w) (pretty (part_number part))
    (customer_code_raw_of part) user password (part_key_cache c)
  = ((pk, status), pkc) ->
  truthy pk = true ->
  let iso := (compute_effective_month_start (part_date part) (clock w)).2 in
  let key := (pk, customer_code_raw_of part, pcn_of part, iso) in
  let hit :=
    default (query_price_api (prices w) (clock w) pk iso user password (price part)
               (customer_name_of names part) customer_names)
      (price_lookup_cache c !! key) in
  exists r,
    _process_part w part names customer_names c
    = (Some r, mkCaches pkc (<[key := hit]> (price_lookup_cache c))) /\
    (r_plex_price r, r_status r, r_po_no r) = hit.
Proof.
  intros Hauth Hkey Hpk iso key hit. subst hit. unfold _process_part.
  rewrite Hauth. cbv beta iota zeta. rewrite Hkey, Hpk.
  cbn [negb]. cbv beta iota zeta. fold iso. fold key.
  destruct (price_lookup_cache c !! key) as [[[api_price st] po]|] eqn:Hc; simpl.
  - eexists. split.
    + rewrite insert_id by done. reflexivity.
    + reflexivity.
  - destruct (query_price_api _ _ _ _ _ _ _ _ _) as [[api_price st] po] eqn:Hq.
    eexists. split.
    + reflexivity.
    + reflexivity.
Qed.

(** A part whose identifier is not found: no price lookup, the chart price
    stands, the status is that of the lookup or the missing-key status. *)
Lemma process_part_unresolved part names customer_names c user password pk status pkc :
  get_auth_for_pcn w (pcn_of part) = Ret (user, password) ->
  retrieve_part_key (part_keys w) (pretty (part_number part))
    (customer_code_raw_of part) user password (part_key_cache c)
  = ((pk, status), pkc) ->
  truthy pk = false ->
  exists r,
    _process_part w part names customer_names c
    = (Some r, mkCaches pkc (price_lookup_cache c)) /\
    r_plex_price r = VNum (price part) /\
    r_part_key r = pk /\
    r_status r = if String.eqb status "" then no_part_key else status.
Proof.
  intros Hauth Hkey Hpk. unfold _process_part.
  rewrite Hauth, Hkey, Hpk. simpl. eexists. by split_and!.
Qed.

(** C9.  For a row date that can be read, the date sent to the price
    service and the date in the key of the price cache are both the first
    instant of that date's month (day 1, 00:00:00), printed as
    YYYY-MM-01T00:00:00Z; two dates of the same month and year give the same
    request date and the same cache key. *)
Theorem price_lookup_uses_month_start :
  (forall d today,
      parseable d ->
      compute_effective_month_start (Some d) today
      = (mkDatetime (mkDate (year d) (month d) 1) 0 0 0 0,
         PyStr.pad4 (year d) +:+ "-" +:+ PyStr.pad2 (month d) +:+ "-01T00:00:00Z") /\
      (compute_effective_month_start (Some d) today).2
      = strftime_iso (month_start (midnight d))) /\
  (forall d1 d2 today1 today2,
      parseable d1 -> parseable d2 ->
      year d1 = year d2 -> month d1 = month d2 ->
      compute_effective_month_start (Some d1) today1
      = compute_effective_month_start (Some d2) today2) /\
  (forall part d names customer_names c user password pk status pkc,
      part_date part = Some d ->
      parseable d ->
      get_auth_for_pcn w (pcn_of part) = Ret (user, password) ->
      retrieve_part_key (part_keys w) (pretty (part_number part))
        (customer_code_raw_of part) user password (part_key_cache c)
      = ((pk, status), pkc) ->
      truthy pk = true ->
      let key := (pk, customer_code_raw_of part, pcn_of part, first_of_month_iso d) in
      let hit :=
        default (query_price_api (prices w) (clock w) pk (first_of_month_iso d)
                   user password (price part) (customer_name_of names part)
                   customer_names)
          (price_lookup_cache c !! key) in
      exists r,
        _process_part w part names customer_names c
        = (Some r, mkCaches pkc (<[key := hit]> (price_lookup_cache c))) /\
        (r_plex_price r, r_status r, r_po_no r) = hit).
Proof.
  split_and!.
  - intros d today Hd. by rewrite (compute_effective_month_start_parseable d today Hd).
  - intros d1 d2 today1 today2 Hd1 Hd2 Hy Hm.
    rewrite !compute_effective_month_start_parseable by done.
    unfold first_of_month, first_of_month_iso. by rewrite Hy, Hm.
  - intros part d names customer_names c user password pk status pkc
      Hdate Hd Hauth Hkey Hpk.
    pose proof (process_part_priced part names customer_names c user password
                  pk status pkc Hauth Hkey Hpk) as Hrun.
    rewrite Hdate, (compute_effective_month_start_parseable d _ Hd) in Hrun.
    exact Hrun.
Qed.

(** C10.  A part for which the identity lookup returns no key is reported
    with the chart price as its resolved price and no price lookup.  When
    the lookup gave no status the part gets the status
    "No part found (no Part_Key)" and is left out of the list handed to the
    report writer; when the lookup gave a status, which can only be
    "Timed Out", the part is kept in that list under this status. *)
Theorem unresolved_parts_in_report part rest names customer_names c
    user password pk status pkc :
  get_auth_for_pcn w (pcn_of part) = Ret (user, password) ->
  retrieve_part_key (part_keys w) (pretty (part_number part))
    (customer_code_raw_of part) user password (part_key_cache c)
  = ((pk, status), pkc) ->
  truthy pk = false ->
  let c' := mkCaches pkc (price_lookup_cache c) in
  exists r,
    _process_part w part names customer_names c = (Some r, c') /\
    r_plex_price r = VNum (price part) /\
    (status = "" ->
       r_status r = "No part found (no Part_Key)" /\
       main_results w (part :: rest) names customer_names c
       = main_results w rest names customer_names c') /\
    (status <> "" ->
       status = "Timed Out" /\ r_status r = status /\
       main_results w (part :: rest) names customer_names c
       = (r :: (main_results w rest names customer_names c').1,
          (main_results w rest names customer_names c').2)).
Proof.
  intros Hauth Hkey Hpk c'.
  destruct (process_part_unresolved part names customer_names c user password
              pk status pkc Hauth Hkey Hpk) as (r & Hrun & Hprice & _ & Hstatus).
  exists r. split_and!; [done..| |].
  - intros ->. split; [done|]. simpl. rewrite Hrun. fold c'.
    destruct (main_results w rest names customer_names c') as [results c''].
    by rewrite Hstatus.
  - intros Hne.
    assert (status = "Timed Out") as ->.
    { pose proof (retrieve_part_key_status (part_keys w) (pretty (part_number part))
                    (customer_code_raw_of part) user password (part_key_cache c)) as Hs.
      rewrite Hkey in Hs. simpl in Hs. by destruct Hs. }
    split; [done|]. split; [done|]. simpl. rewrite Hrun. fold c'.
    destruct (main_results w rest names customer_names c') as [results c''].
    by rewrite Hstatus.
Qed.
End ReconcileResults.

Lemma price_lookup_uses_month_start_witness :
  parseable (mkDate 2026 1 5) /\ parseable (mkDate 2026 1 26) /\
  compute_effective_month_start (Some (mkDate 2026 1 5)) Orders.today
  = compute_effective_month_start (Some (mkDate 2026 1 26)) Orders.january /\
  (compute_effective_month_start (Some (mkDate 2026 1 26)) Orders.today).2
  = "2026-01-01T00:00:00Z".
Proof.
  assert (parseable (mkDate 2026 1 5)) as H5 by (split; [reflexivity|done]).
  assert (parseable (mkDate 2026 1 26)) as H26 by (split; [reflexivity|done]).
  split; [exact H5|]. split; [exact H26|]. split.
  - apply (proj1 (proj2 (price_lookup_uses_month_start Run.online))
             (mkDate 2026 1 5) (mkDate 2026 1 26) Orders.today Orders.january
             H5 H26); reflexivity.
  - destruct (proj1 (price_lookup_uses_month_start Run.online)
                (mkDate 2026 1 26) Orders.today H26) as [Hrun _].
    rewrite Hrun. reflexivity.
Defined.

Lemma unresolved_parts_in_report_witness :
  exists r,
    _process_part Run.online (Run.part "magna" (mkDate 2026 1 5)) Run.names ["lear"]
      Run.fresh = (Some r, Run.fresh) /\
    r_plex_price r = VNum (qc 11) /\
    ("" = "" ->
       r_status r = "No part found (no Part_Key)" /\
       main_results Run.online
         [Run.part "magna" (mkDate 2026 1 5); Run.part "acme" (mkDate 2026 1 5)]
         Run.names ["lear"] Run.fresh
       = main_results Run.online [Run.part "acme" (mkDate 2026 1 5)]
           Run.names ["lear"] Run.fresh) /\
    ("" <> "" ->
       "" = "Timed Out" /\ r_status r = "" /\
       main_results Run.online
         [Run.part "magna" (mkDate 2026 1 5); Run.part "acme" (mkDate 2026 1 5)]
         Run.names ["lear"] Run.fresh
       = (r :: (main_results Run.online [Run.part "acme" (mkDate 2026 1 5)]
                  Run.names ["lear"] Run.fresh).1,
          (main_results Run.online [Run.part "acme" (mkDate 2026 1 5)]
             Run.names ["lear"] Run.fresh).2)).
Proof.
  apply (unresolved_parts_in_report Run.online (Run.part "magna" (mkDate 2026 1 5))
           [Run.part "acme" (mkDate 2026 1 5)] Run.names ["lear"] Run.fresh
           "user" "secret" VNone "" ∅).
  - reflexivity.
  - reflexivity.
  - reflexivity.
Defined.

(** ** The main table and its price blocks *)

Section DiscoveryResults.
Context `{PyBuiltins}.

Lemma find_header_from_Some i rows j :
  find_header_from i rows = Some j <->
  exists k r, j = (i + k)%nat /\ rows !! k = Some r /\ is_main_header r = true /\
              forall k' r', (k' < k)%nat -> rows !! k' = Some r' ->
                            is_main_header r' = false.
Proof.
  revert i. induction rows as [|r0 rows IH]; intros i; simpl.
  - split; [done|]. by intros (k & r & _ & ? & _).
  - destruct (is_main_header r0) eqn:Hr0.
    + split.
      * intros [= <-]. exists 0%nat, r0. split_and!; [lia|done..|lia].
      * intros (k & r & -> & Hk & Hr & Hfirst). destruct k as [|k]; [f_equal; lia|].
        by rewrite (Hfirst 0%nat r0) in Hr0 by (done || lia).
    + rewrite IH. split.
      * intros (k & r & -> & Hk & Hr & Hfirst). exists (S k), r.
        split_and!; [lia|done..|]. intros [|k'] r' Hlt Hr'; simpl in Hr'.
        -- by injection Hr' as <-.
        -- apply (Hfirst k'); [lia|done].
      * intros (k & r & -> & Hk & Hr & Hfirst). destruct k as [|k]; simpl in Hk.
        { injection Hk as <-. congruence. }
        exists k, r. split_and!; [lia|done..|]. intros k' r' Hlt Hr'.
        apply (Hfirst (S k')); [lia|done].
Qed.

Lemma find_header_from_None i rows :
  find_header_from i rows = None <-> Forall (fun r => is_main_header r = false) rows.
Proof.
  revert i. induction rows as [|r0 rows IH]; intros i; simpl.
  - split; [constructor|done].
  - rewrite Forall_cons. destruct (is_main_header r0); [split; [done|by intros []]|].
    rewrite IH. tauto.
Qed.

Lemma find_header_from_shift i rows :
  find_header_from i rows = (fun j => i + j)%nat <$> find_header_from 0 rows.
Proof.
  destruct (find_header_from 0 rows) as [j|] eqn:H0; simpl.
  - apply find_header_from_Some. apply find_header_from_Some in H0.
    destruct H0 as (k & r & -> & ?). by exists k, r.
  - apply find_header_from_None. by apply find_header_from_None in H0.
Qed.

Lemma find_header_from_app i above df :
  Forall (fun r => is_main_header r = false) above ->
  find_header_from i (above ++ df) = find_header_from (i + length above) df.
Proof.
  intros Habove. revert i. induction Habove as [|r above Hr _ IH]; intros i; simpl.
  - by rewrite Nat.add_0_r.
  - rewrite Hr, IH. f_equal. lia.
Qed.

Lemma find_main_table_header_Some df i :
  _find_main_table_header df = Some i <->
  (exists r, df !! i = Some r /\ is_main_header r = true) /\
  forall j r', (j < i)%nat -> df !! j = Some r' -> is_main_header r' = false.
Proof.
  unfold _find_main_table_header. rewrite find_header_from_Some. split.
  - intros (k & r & -> & ? & ? & ?). split; [by exists r|done].
  - intros [(r & ? & ?) ?]. by exists i, r.
Qed.

(** X1.  The main header is the first row that has both a "part number"
    and a "part description" cell; there is none exactly when no row has
    both; rows without both cells put above a sheet move the header down by
    their number and change nothing else. *)
Theorem main_header_is_first_and_shifts :
  (forall df i,
      _find_main_table_header df = Some i <->
      (exists r, df !! i = Some r /\ is_main_header r = true) /\
      forall j r', (j < i)%nat -> df !! j = Some r' -> is_main_header r' = false) /\
  (forall df,
      _find_main_table_header df = None <->
      Forall (fun r => is_main_header r = false) df) /\
  (forall above df,
      Forall (fun r => is_main_header r = false) above ->
      _find_main_table_header (above ++ df)
      = (fun i => length above + i)%nat <$> _find_main_table_header df).
Proof.
  split_and!.
  - apply find_main_table_header_Some.
  - intros df. apply find_header_from_None.
  - intros above df Habove. unfold _find_main_table_header.
    rewrite find_header_from_app by done. apply find_header_from_shift.
Qed.
End DiscoveryResults.

Section BlockDiscovery.
Context `{PyBuiltins}.

Lemma traverse_total {A B} (f : A -> outcome B) l :
  Forall (fun x => exists y, f x = Ret y) l -> exists ys, traverse f l = Ret ys.
Proof.
  induction 1 as [|x l [y Hy] _ [ys IH]]; simpl; [by eauto|].
  rewrite Hy, bind_Ret, IH, bind_Ret. by eauto.
Qed.

Lemma traverse_imap_lookup {A B} (f : nat * A -> outcome B) (l : list A) ys :
  traverse f (imap pair l) = Ret ys ->
  (forall i x, l !! i = Some x -> exists y, ys !! i = Some y /\ f (i, x) = Ret y) /\
  (forall i y, ys !! i = Some y -> exists x, l !! i = Some x /\ f (i, x) = Ret y).
Proof.
  intros Hys%traverse_Ret. split.
  - intros i x Hx.
    destruct (Forall2_lookup_l _ _ _ i (i, x) Hys) as (y & ? & ?); [|by eauto].
    by rewrite list_lookup_imap, Hx.
  - intros i y Hy.
    destruct (Forall2_lookup_r _ _ _ i y Hys Hy) as ([i' x] & Hix & ?).
    rewrite list_lookup_imap in Hix.
    destruct (l !! i) as [x'|] eqn:Hx; simpl in Hix; [|done].
    injection Hix as <- <-. by eauto.
Qed.

Lemma date_above_Some df col hr d :
  date_above df col hr = Ret (Some d) <->
  exists drow c,
    (drow < hr)%nat /\ iloc df drow col = Ret c /\ cell_date c = Some d /\
    forall drow', (drow < drow' < hr)%nat ->
      exists c', iloc df drow' col = Ret c' /\ cell_date c' = None.
Proof.
  induction hr as [|hr IH]; simpl.
  { split; [done|]. intros (? & ? & ? & _). lia. }
  destruct (iloc df hr col) as [c|e] eqn:Hc; rewrite ?bind_Ret, ?bind_Raise.
  - destruct (cell_date c) as [d'|] eqn:Hd.
    + split.
      * intros [= <-]. exists hr, c. split_and!; [lia|done..|]. intros; lia.
      * intros (drow & c0 & Hlt & Hc0 & Hd0 & Hbetween).
        destruct (decide (drow = hr)) as [->|Hne]; [congruence|].
        destruct (Hbetween hr) as (c' & Hc' & Hd'); [lia|]. congruence.
    + rewrite IH. split.
      * intros (drow & c0 & Hlt & Hc0 & Hd0 & Hbetween). exists drow, c0.
        split_and!; [lia|done..|]. intros drow' Hlt'.
        destruct (decide (drow' = hr)) as [->|Hne]; [by eauto|].
        apply Hbetween. lia.
      * intros (drow & c0 & Hlt & Hc0 & Hd0 & Hbetween).
        destruct (decide (drow = hr)) as [->|Hne]; [congruence|].
        exists drow, c0. split_and!; [lia|done..|]. intros drow' Hlt'.
        apply Hbetween. lia.
  - split; [done|]. intros (drow & c0 & Hlt & Hc0 & Hd0 & Hbetween).
    destruct (decide (drow = hr)) as [->|Hne]; [congruence|].
    destruct (Hbetween hr) as (c' & Hc' & Hd'); [lia|]. congruence.
Qed.

Lemma date_above_None df col hr :
  date_above df col hr = Ret None <->
  forall drow, (drow < hr)%nat ->
    exists c, iloc df drow col = Ret c /\ cell_date c = None.
Proof.
  induction hr as [|hr IH]; simpl.
  { split; [intros _ ?; lia|done]. }
  destruct (iloc df hr col) as [c|e] eqn:Hc; rewrite ?bind_Ret, ?bind_Raise.
  - destruct (cell_date c) as [d'|] eqn:Hd.
    + split; [done|]. intros Hall. destruct (Hall hr) as (c' & ? & ?); [lia|].
      congruence.
    + rewrite IH. split.
      * intros Hall drow Hlt. destruct (decide (drow = hr)) as [->|Hne]; [by eauto|].
        apply Hall. lia.
      * intros Hall drow Hlt. apply Hall. lia.
  - split; [done|]. intros Hall. destruct (Hall hr) as (c' & ? & ?); [lia|].
    congruence.
Qed.

(** X2.  The date of a block is read from the nearest cell above its
    "part number" cell, in the same column, that holds a date: every cell
    between the two holds none; the block is undated exactly when no cell
    above holds a date. *)
Theorem date_above_is_nearest df header_row col_idx :
  (forall d,
      _find_date_above df header_row col_idx = Ret (Some d) <->
      exists drow c,
        (drow < header_row)%nat /\ iloc df drow col_idx = Ret c /\
        cell_date c = Some d /\
        forall drow', (drow < drow' < header_row)%nat ->
          exists c', iloc df drow' col_idx = Ret c' /\ cell_date c' = None) /\
  (_find_date_above df header_row col_idx = Ret None <->
   forall drow, (drow < header_row)%nat ->
     exists c, iloc df drow col_idx = Ret c /\ cell_date c = None).
Proof. split; [intros d; apply date_above_Some|apply date_above_None]. Qed.

Lemma row_blocks_elem df i r bs b :
  row_blocks df i r = Ret bs ->
  b ∈ bs <->
  exists idx date_val,
    (PyStr.lower <$> row_strings r) !! idx = Some "part number" /\
    _find_date_above df i idx = Ret date_val /\
    b = mkBlock i (row_strings r) idx (_find_price_column (row_strings r) idx) date_val.
Proof.
  unfold row_blocks. cbv zeta.
  destruct (traverse _ _) as [found|] eqn:Hfound; rewrite ?bind_Ret; [|done].
  intros [= <-]. apply traverse_imap_lookup in Hfound as [Hl Hr].
  rewrite list_elem_of_join. split.
  - intros (bs & Hb & Hbs). apply list_elem_of_lookup in Hbs as [idx Hbs].
    destruct (Hr idx bs Hbs) as (col & Hcol & Hrun).
    destruct (String.eqb_spec col "part number") as [->|Hne].
    + destruct (_find_date_above df i idx) as [dv|] eqn:Hdv;
        rewrite ?bind_Ret in Hrun; [|done].
      injection Hrun as <-. apply list_elem_of_singleton in Hb as ->.
      by exists idx, dv.
    + injection Hrun as <-. by apply not_elem_of_nil in Hb.
  - intros (idx & dv & Hcol & Hdv & ->).
    destruct (Hl idx _ Hcol) as (bs & Hbs & Hrun).
    simpl in Hrun. rewrite Hdv, bind_Ret in Hrun. injection Hrun as <-.
    eexists. split; [|by eapply list_elem_of_lookup_2]. by left.
Qed.

Lemma find_price_blocks_elem df start_table_row blocks :
  _find_price_blocks df start_table_row = Ret blocks ->
  forall b,
    b ∈ blocks <->
    exists r,
      df !! header_row b = Some r /\
      header_values b = row_strings r /\
      (PyStr.lower <$> row_strings r) !! part_col b = Some "part number" /\
      default_price_col b = _find_price_column (row_strings r) (part_col b) /\
      _find_date_above df (header_row b) (part_col b) = Ret (block_date b).
Proof.
  unfold _find_price_blocks.
  destruct (traverse _ _) as [found|] eqn:Hfound; rewrite ?bind_Ret; [|done].
  intros [= <-] b. apply traverse_imap_lookup in Hfound as [Hl Hr].
  rewrite list_elem_of_join. split.
  - intros (bs & Hb & Hbs). apply list_elem_of_lookup in Hbs as [i Hbs].
    destruct (Hr i bs Hbs) as (r & Hrow & Hrun).
    destruct (proj1 (row_blocks_elem df i r bs b Hrun) Hb)
      as (idx & dv & Hcol & Hdv & Heq).
    rewrite Heq. simpl. by exists r.
  - intros (r & Hrow & Hhv & Hcol & Hdef & Hdate).
    destruct (Hl _ _ Hrow) as (bs & Hbs & Hrun).
    exists bs. split; [|by eapply list_elem_of_lookup_2].
    apply (row_blocks_elem df _ r bs b Hrun).
    exists (part_col b), (block_date b). split_and!; [done..|].
    destruct b; simpl in *. by subst.
Qed.

(** X3.  The price blocks of a sheet are exactly its "part number" cells
    (trimmed, in any case), in any row: every block sits on such a cell, with
    the row's texts as its header, the default price column of that header
    and the date found above the cell; and every such cell gives a block. *)
Theorem blocks_are_the_part_number_cells df start_table_row blocks :
  _find_price_blocks df start_table_row = Ret blocks ->
  forall b,
    b ∈ blocks <->
    exists r,
      df !! header_row b = Some r /\
      header_values b = row_strings r /\
      (PyStr.lower <$> row_strings r) !! part_col b = Some "part number" /\
      default_price_col b = _find_price_column (row_strings r) (part_col b) /\
      _find_date_above df (header_row b) (part_col b) = Ret (block_date b).
Proof. apply find_price_blocks_elem. Qed.
End BlockDiscovery.

Section SheetResults.
Context `{PyBuiltins}.

Lemma foldl_header_indices (l : list (nat * string)) (m : gmap string nat) key idx :
  foldl (fun m '(idx, col) => <[PyStr.lower col := idx]> m) m l !! key = Some idx <->
  (exists l1 col l2, l = l1 ++ (idx, col) :: l2 /\ PyStr.lower col = key /\
                     Forall (fun p => PyStr.lower p.2 <> key) l2) \/
  (m !! key = Some idx /\ Forall (fun p => PyStr.lower p.2 <> key) l).
Proof.
  revert m. induction l as [|[i c] l IH]; intros m; simpl.
  - split; [by right|]. intros [(l1 & ? & ? & Hl & _)|[? _]]; [|done].
    by destruct l1.
  - rewrite IH. split.
    + intros [(l1 & col & l2 & -> & Hk & Hl2)|[Hm Hl]].
      * left. by exists ((i, c) :: l1), col, l2.
      * destruct (decide (PyStr.lower c = key)) as [Heq|Hne].
        -- rewrite Heq, lookup_insert_eq in Hm. injection Hm as ->.
           left. by exists [], c, l.
        -- rewrite lookup_insert_ne in Hm by done. right. split; [done|].
           by constructor.
    + intros [(l1 & col & l2 & Hl & Hk & Hl2)|[Hm Hl]].
      * destruct l1 as [|p l1]; simpl in Hl.
        -- injection Hl as -> -> ->. right. by rewrite Hk, lookup_insert_eq.
        -- injection Hl as <- ->. left. by exists l1, col, l2.
      * apply Forall_cons in Hl as [Hc Hl]. right. split; [|done].
        by rewrite lookup_insert_ne.
Qed.

Lemma header_indices_lookup header key idx :
  header_indices header !! key = Some idx <->
  (PyStr.lower <$> header) !! idx = Some key /\
  forall j, (idx < j)%nat -> (PyStr.lower <$> header) !! j <> Some key.
Proof.
  unfold header_indices. rewrite foldl_header_indices. split.
  - intros [(l1 & col & l2 & Hl & Hk & Hl2)|[Hm _]]; [|done].
    assert (length l1 = idx /\ header !! idx = Some col) as [Hlen Hcol].
    { assert (imap pair header !! length l1 = Some (idx, col)) as Hi
        by (by rewrite Hl, list_lookup_middle).
      rewrite list_lookup_imap in Hi.
      destruct (header !! length l1) eqn:Hh; simpl in Hi; [|done].
      injection Hi as Hlen ->. split; [done|]. by rewrite <-Hlen. }
    split; [by rewrite list_lookup_fmap, Hcol; simpl; rewrite Hk|].
    intros j Hj Hkey. rewrite list_lookup_fmap in Hkey.
    destruct (header !! j) as [c|] eqn:Hc; simpl in Hkey; [|done].
    injection Hkey as Hkey.
    assert (imap pair header !! j = Some (j, c)) as Hi
      by (by rewrite list_lookup_imap, Hc).
    rewrite Hl in Hi. rewrite lookup_app_r in Hi by lia.
    replace (j - length l1)%nat with (S (j - length l1 - 1)) in Hi by lia.
    simpl in Hi. apply list_elem_of_lookup_2 in Hi.
    rewrite Forall_forall in Hl2. by apply (Hl2 _ Hi).
  - intros [Hkey Hlast]. left. rewrite list_lookup_fmap in Hkey.
    destruct (header !! idx) as [col|] eqn:Hcol; simpl in Hkey; [|done].
    injection Hkey as Hkey.
    exists (take idx (imap pair header)), col, (drop (S idx) (imap pair header)).
    split_and!; [|done|].
    + rewrite <-(take_drop_middle (imap pair header) idx (idx, col)) at 1; [done|].
      by rewrite list_lookup_imap, Hcol.
    + apply Forall_forall. intros [j c] Hin. simpl.
      apply list_elem_of_lookup in Hin as [k Hk]. rewrite lookup_drop in Hk.
      rewrite list_lookup_imap in Hk.
      destruct (header !! (S idx + k)%nat) as [c'|] eqn:Hc'; simpl in Hk; [|done].
      injection Hk as <- <-. intros Heq.
      apply (Hlast (S idx + k)%nat); [lia|]. by rewrite list_lookup_fmap, Hc'; simpl; rewrite Heq.
Qed.

(** X4.  A column is looked up by the lower-cased text of its header cell,
    and when several header cells read the same the last of them is the one
    found. *)
Theorem header_indices_last_wins header key idx :
  header_indices header !! key = Some idx <->
  (PyStr.lower <$> header) !! idx = Some key /\
  forall j, (idx < j)%nat -> (PyStr.lower <$> header) !! j <> Some key.
Proof. apply header_indices_lookup. Qed.
End SheetResults.

Section Rectangular.
Context `{PyBuiltins}.

Lemma rectangular_lookup n (df : frame) i r :
  rectangular n df -> df !! i = Some r -> length r = n.
Proof.
  unfold rectangular. rewrite Forall_forall. intros Hrect Hr.
  eapply Hrect, list_elem_of_lookup_2, Hr.
Qed.

Lemma iloc_rectangular n df drow col :
  rectangular n df -> (drow < length df)%nat -> (col < n)%nat ->
  exists c, iloc df drow col = Ret c.
Proof.
  intros Hrect Hrow Hcol. unfold iloc.
  destruct (lookup_lt_is_Some_2 df drow Hrow) as [r Hr].
  rewrite (getitem_Ret _ _ _ Hr), bind_Ret.
  pose proof (rectangular_lookup _ _ _ _ Hrect Hr) as Hlen.
  destruct (lookup_lt_is_Some_2 r col) as [c Hc]; [lia|].
  exists c. by apply getitem_Ret.
Qed.

Lemma date_above_total n df col hr :
  rectangular n df -> (hr <= length df)%nat -> (col < n)%nat ->
  exists o, date_above df col hr = Ret o.
Proof.
  intros Hrect Hhr Hcol. induction hr as [|hr IH]; simpl; [by eauto|].
  destruct (iloc_rectangular n df hr col) as [c ->]; [done|lia|done|].
  rewrite bind_Ret. destruct (cell_date c); [by eauto|]. apply IH. lia.
Qed.

Lemma row_blocks_total n df i r :
  rectangular n df -> df !! i = Some r -> exists bs, row_blocks df i r = Ret bs.
Proof.
  intros Hrect Hr. unfold row_blocks. cbv zeta.
  pose proof (rectangular_lookup _ _ _ _ Hrect Hr) as Hlen.
  destruct (traverse_total
              (fun '(idx, col) =>
                 if String.eqb col "part number" then
                   date_val ← _find_date_above df i idx;
                   Ret [mkBlock i (row_strings r) idx
                          (_find_price_column (row_strings r) idx) date_val]
                 else Ret [])
              (imap pair (PyStr.lower <$> row_strings r))) as [found Hfound].
  { apply Forall_forall. intros [idx col] Hin.
    apply list_elem_of_lookup in Hin as [j Hj]. rewrite list_lookup_imap in Hj.
    destruct ((PyStr.lower <$> row_strings r) !! j) as [c|] eqn:Hc; simpl in Hj;
      [|done].
    injection Hj as <- <-. apply lookup_lt_Some in Hc.
    unfold row_strings in Hc. rewrite !length_fmap in Hc.
    destruct (String.eqb c "part number"); [|by eauto].
    destruct (date_above_total n df j i) as [o Ho]; [done| |lia|].
    { apply lookup_lt_Some in Hr. lia. }
    unfold _find_date_above. rewrite Ho, bind_Ret. by eauto. }
  rewrite Hfound, bind_Ret. by eauto.
Qed.

Lemma find_price_blocks_total n df start_table_row :
  rectangular n df -> exists blocks, _find_price_blocks df start_table_row = Ret blocks.
Proof.
  intros Hrect. unfold _find_price_blocks.
  destruct (traverse_total (fun '(i, r) => row_blocks df i r) (imap pair df))
    as [found Hfound].
  { apply Forall_forall. intros [i r] Hin.
    apply list_elem_of_lookup in Hin as [j Hj]. rewrite list_lookup_imap in Hj.
    destruct (df !! j) as [r'|] eqn:Hr; simpl in Hj; [|done].
    injection Hj as <- <-. by eapply row_blocks_total. }
  rewrite Hfound, bind_Ret. by eauto.
Qed.

Lemma found_blocks_under_header n df start_table_row blocks r :
  rectangular n df ->
  _find_price_blocks df start_table_row = Ret blocks ->
  r ∈ df -> Forall (under_header r) blocks.
Proof.
  intros Hrect Hblocks Hr. apply Forall_forall. intros b Hb.
  apply (find_price_blocks_elem _ _ _ Hblocks) in Hb
    as (r0 & Hr0 & Hhv & Hcol & _).
  apply list_elem_of_lookup in Hr as [i Hr].
  pose proof (rectangular_lookup _ _ _ _ Hrect Hr) as Hlen.
  pose proof (rectangular_lookup _ _ _ _ Hrect Hr0) as Hlen0.
  apply lookup_lt_Some in Hcol. unfold under_header. rewrite Hhv.
  unfold row_strings in *. rewrite !length_fmap in *. lia.
Qed.

Lemma extract_row_total r k (col_indices : gmap string nat) blocks today :
  (forall key idx, col_indices !! key = Some idx -> (idx < length r)%nat) ->
  Forall (under_header r) blocks ->
  exists parts, extract_row r k col_indices blocks today = Ret parts.
Proof.
  intros Hidx Hblocks.
  assert (forall key, exists c, meta r (col_indices !! key) = Ret c) as Hmeta.
  { intros key. unfold meta, series_get.
    destruct (col_indices !! key) as [i|] eqn:Hi; [|by eauto].
    destruct (lookup_lt_is_Some_2 r i (Hidx _ _ Hi)) as [c ->]. by eauto. }
  unfold extract_row. cbv zeta.
  destruct (Hmeta "program") as [program ->]. rewrite bind_Ret.
  assert (exists pcn, match col_indices !! "fisher pcn" with
                      | Some i =>
                          c ← series_get r i;
                          Ret (if String.eqb (PyStr.strip (cell_str c)) ""
                               then CText "95506" else c)
                      | None => Ret (CText "95506")
                      end = Ret pcn) as [pcn ->].
  { destruct (col_indices !! "fisher pcn") as [i|] eqn:Hi; [|by eauto].
    unfold series_get.
    destruct (lookup_lt_is_Some_2 r i (Hidx _ _ Hi)) as [c ->].
    rewrite bind_Ret. by eauto. }
  rewrite bind_Ret.
  destruct (Hmeta "plex customer code") as [customer_raw ->]. rewrite bind_Ret.
  destruct (Hmeta "oem plant") as [oem ->]. rewrite bind_Ret.
  destruct (Hmeta "part description") as [desc ->]. rewrite bind_Ret.
  match goal with |- context [traverse ?f ?l] =>
    destruct (traverse_total f l) as [found ->] end.
  { apply Forall_forall. intros name _.
    match goal with |- context [_find_most_recent_price r k blocks today ?c] =>
      destruct (find_most_recent_price_total r k blocks today c Hblocks) as [res ->]
    end.
    rewrite bind_Ret. by eauto. }
  rewrite bind_Ret. by eauto.
Qed.

Lemma extract_rows_total n k rows (col_indices : gmap string nat) blocks today :
  Forall (fun r => length r = n) rows ->
  (forall key idx, col_indices !! key = Some idx -> (idx < n)%nat) ->
  (forall r, r ∈ rows -> Forall (under_header r) blocks) ->
  exists parts, extract_rows k rows col_indices blocks today = Ret parts.
Proof.
  intros Hrect Hidx Hblocks. revert k.
  induction Hrect as [|r rows Hr _ IH]; intros k; simpl; [by eauto|].
  destruct (extract_row_total r k col_indices blocks today) as [parts ->].
  { intros key idx Hi. rewrite Hr. by eapply Hidx. }
  { apply Hblocks. by left. }
  rewrite bind_Ret. destruct (IH (fun r' Hr' => Hblocks r' (list_elem_of_further _ _ _ Hr')) (S k))
    as [more ->].
  rewrite bind_Ret. by eauto.
Qed.

Lemma sheet_parts_total n df today :
  rectangular n df -> exists parts, sheet_parts df today = Ret parts.
Proof.
  intros Hrect. unfold sheet_parts.
  destruct (_find_main_table_header df) as [start|] eqn:Hstart; [|by eauto].
  apply find_main_table_header_Some in Hstart as [(r & Hr & _) _].
  rewrite (getitem_Ret _ _ _ Hr), bind_Ret. cbv zeta.
  destruct (find_price_blocks_total n df start Hrect) as [blocks Hblocks].
  rewrite Hblocks, bind_Ret. unfold _extract_parts_from_rows.
  pose proof (rectangular_lookup _ _ _ _ Hrect Hr) as Hlen.
  apply (extract_rows_total n).
  - by apply Forall_drop.
  - intros key idx Hi. apply header_indices_lookup in Hi as [Hi _].
    apply lookup_lt_Some in Hi. unfold row_strings in Hi.
    rewrite !length_fmap in Hi. lia.
  - intros r' Hr'. eapply found_blocks_under_header; [done..|].
    apply list_elem_of_lookup in Hr' as [j Hj]. rewrite lookup_drop in Hj.
    by eapply list_elem_of_lookup_2.
Qed.

(** X5.  Reading a workbook whose sheets are rectangular raises nothing:
    every cell the reader asks for is there, for the header columns as for
    the part-number and price columns of every price block, and the parts of
    all sheets are returned. *)
Theorem reading_rectangular_sheets_never_raises sheets today :
  Forall (fun df => exists n, rectangular n df) sheets ->
  exists parts, get_excel_part_info sheets today = Ret parts.
Proof.
  induction 1 as [|df sheets [n Hrect] _ [rest IH]]; simpl; [by eauto|].
  destruct (sheet_parts_total n df today Hrect) as [parts ->].
  rewrite bind_Ret, IH, bind_Ret. by eauto.
Qed.
End Rectangular.

(** ** The sheet of [Sheet], and small frames *)

Lemma main_header_is_first_and_shifts_witness :
  Forall (fun r => is_main_header r = false) [[CBlank; CText "Part Number"]] /\
  _find_main_table_header ([[CBlank; CText "Part Number"]] ++ Sheet.frame)
  = Some 2%nat.
Proof.
  assert (Forall (fun r => is_main_header r = false) [[CBlank; CText "Part Number"]])
    as Habove by (repeat constructor).
  split; [exact Habove|].
  exact (proj2 (proj2 main_header_is_first_and_shifts)
           [[CBlank; CText "Part Number"]] Sheet.frame Habove).
Defined.

Lemma date_above_is_nearest_witness :
  _find_date_above
    [[CDate (mkDatetime (mkDate 2025 10 1) 0 0 0 0)];
     [CDate (mkDatetime (mkDate 2026 1 5) 0 0 0 0)];
     [CBlank];
     [CText "Part Number"]] 3 0
  = Ret (Some (mkDate 2026 1 5)).
Proof.
  apply (proj1 (date_above_is_nearest _ 3%nat 0%nat)).
  exists 1%nat, (CDate (mkDatetime (mkDate 2026 1 5) 0 0 0 0)).
  split; [lia|]. split; [reflexivity|]. split; [reflexivity|].
  intros drow' Hdrow. assert (drow' = 2%nat) as -> by lia.
  exists CBlank. split; reflexivity.
Defined.

Lemma blocks_are_the_part_number_cells_witness :
  _find_price_blocks Sheet.frame 1 = Ret [Sheet.price_block] /\
  exists r,
    Sheet.frame !! header_row Sheet.price_block = Some r /\
    header_values Sheet.price_block = row_strings r /\
    (PyStr.lower <$> row_strings r) !! part_col Sheet.price_block
    = Some "part number" /\
    default_price_col Sheet.price_block
    = _find_price_column (row_strings r) (part_col Sheet.price_block) /\
    _find_date_above Sheet.frame (header_row Sheet.price_block)
      (part_col Sheet.price_block) = Ret (block_date Sheet.price_block).
Proof.
  assert (_find_price_blocks Sheet.frame 1 = Ret [Sheet.price_block]) as Hrun
    by (vm_compute; reflexivity).
  split; [exact Hrun|].
  apply (proj1 (blocks_are_the_part_number_cells _ _ _ Hrun Sheet.price_block)).
  constructor.
Defined.

Lemma header_indices_last_wins_witness :
  header_indices ["Part Number"; "DDP"; "PART NUMBER"] !! "part number"
  = Some 2%nat.
Proof.
  apply (proj2 (header_indices_last_wins
                  ["Part Number"; "DDP"; "PART NUMBER"] "part number" 2%nat)).
  split; [reflexivity|]. intros j Hj.
  destruct j as [|[|[|j]]]; [lia..|]. discriminate.
Defined.

Lemma reading_rectangular_sheets_never_raises_witness :
  Forall (fun df => exists n, rectangular n df) [Sheet.frame; []] /\
  exists parts, get_excel_part_info [Sheet.frame; []] Sheet.today = Ret parts.
Proof.
  assert (Forall (fun df => exists n, rectangular n df) [Sheet.frame; []]) as Hrect.
  { repeat constructor.
    - exists 6%nat. repeat constructor.
    - exists 0%nat. constructor. }
  split; [exact Hrect|].
  exact (reading_rectangular_sheets_never_raises _ Sheet.today Hrect).
Defined.

(** ** Where an extracted part comes from *)

Section Provenance.
Context `{PyBuiltins}.

Lemma first_priority_range p prios start l j :
  first_priority p prios start l = Some j -> (start <= j < length l)%nat.
Proof.
  induction prios as [|pr prios IH]; simpl; [done|].
  destruct (first_from (p pr) start l) as [i|] eqn:Hf; [|done].
  intros [= <-]. apply first_from_Some in Hf as (Hle & (h & Hl & _) & _).
  apply lookup_lt_Some in Hl. lia.
Qed.

Lemma find_price_column_range hv pc j :
  _find_price_column hv pc = Some j -> (pc < j < length hv)%nat.
Proof.
  unfold _find_price_column. cbv zeta.
  destruct (first_priority (fun pr h => String.eqb h pr) _ _ _) as [i|] eqn:He.
  - intros [= <-]. apply first_priority_range in He.
    rewrite length_fmap in He. lia.
  - intros Hc. apply first_priority_range in Hc.
    rewrite length_fmap in Hc. lia.
Qed.

Lemma select_price_column_default hv pc :
  _select_price_column hv pc None = _find_price_column hv pc /\
  _select_price_column hv pc (Some "") = _find_price_column hv pc.
Proof. by split. Qed.

Lemma select_price_column_range hv pc cust j :
  _select_price_column hv pc cust = Some j -> (pc < j < length hv)%nat.
Proof.
  intros Hj. split; [|by eapply select_price_column_lt].
  revert Hj. unfold _select_price_column. cbv zeta.
  fold (_find_price_column hv pc).
  destruct cust as [[|c name]|];
    [by intros ?%find_price_column_range; lia|
    |by intros ?%find_price_column_range; lia].
  destruct (_map_customer_to_header _) as [[|c' label]|];
    [by intros ?%find_price_column_range; lia|
    |by intros ?%find_price_column_range; lia].
  destruct (first_from _ _ _) as [i|] eqn:Hf;
    [|by intros ?%find_price_column_range; lia].
  intros [= <-]. apply first_from_Some in Hf as (Hle & _). lia.
Qed.

Lemma block_offer_Some r k today cust b d n p :
  block_offer r k today cust b = Some (d, n, p) <->
  block_date b = Some d /\ date_ltb today d = false /\ (header_row b < k)%nat /\
  exists j pn pc,
    _select_price_column (header_values b) (part_col b) cust = Some j /\
    r !! part_col b = Some pn /\ r !! j = Some pc /\
    int_of_str (PyStr.strip (cell_str pn)) = Some n /\
    float_of_str (PyStr.strip (PyStr.remove_char ","
                    (PyStr.remove_char "$" (cell_str pc)))) = Some p.
Proof.
  unfold block_offer. split.
  - intros Ho.
    destruct (block_date b) as [dv|]; simpl in Ho; [|done].
    destruct (date_ltb today dv) eqn:Hd; [done|].
    destruct (k <=? header_row b)%nat eqn:Hk; [done|].
    apply Nat.leb_gt in Hk.
    destruct (_select_price_column _ _ _) as [j|] eqn:Hj; simpl in Ho; [|done].
    destruct (r !! part_col b) as [pn|] eqn:Hpn; simpl in Ho; [|done].
    destruct (r !! j) as [c|] eqn:Hc; simpl in Ho; [|done].
    destruct (int_of_str _) as [n'|] eqn:Hn; simpl in Ho; [|done].
    destruct (float_of_str _) as [p'|] eqn:Hp; simpl in Ho; [|done].
    injection Ho as <- <- <-. split_and!; [done..|]. by exists j, pn, c.
  - intros (-> & Hd & Hk & j & pn & pc & -> & Hpn & Hpc & Hn & Hp). simpl.
    rewrite Hd. apply Nat.leb_gt in Hk. rewrite Hk. simpl.
    rewrite Hpn. simpl. rewrite Hpc. simpl. rewrite Hn. simpl. by rewrite Hp.
Qed.

Lemma find_most_recent_price_offered r k blocks today cust n p d :
  _find_most_recent_price r k blocks today cust = Ret (Some (n, p, d)) ->
  exists b d', b ∈ blocks /\ d = Some d' /\
               block_offer r k today cust b = Some (d', n, p).
Proof.
  intros Hres. apply find_most_recent_price_Ret in Hres.
  destruct (py_max _ _ _) as [[[d' n'] p']|] eqn:Hmax; [|done].
  injection Hres as -> -> ->. rewrite py_max_py_min in Hmax.
  apply py_min_elem, list_elem_of_omap in Hmax as (b & Hb & Ho).
  by exists b, d'.
Qed.

(** The fields of a part of row [r]: what is read from the row's cells under
    the header columns, and the offer of a block for one customer token. *)
Lemma extract_row_elem r k col_indices blocks today parts part :
  extract_row r k col_indices blocks today = Ret parts ->
  part ∈ parts ->
  (exists cust b d,
      b ∈ blocks /\ part_date part = Some d /\
      block_offer r k today cust b = Some (d, part_number part, price part)) /\
  match col_indices !! "fisher pcn" with
  | None => pcn part = "95506"
  | Some i => exists c, r !! i = Some c /\
                        pcn part = or_default_pcn (PyStr.strip (cell_str c))
  end.
Proof.
  unfold extract_row.
  destruct (meta r (col_indices !! "program")) as [program|]; [|done].
  rewrite bind_Ret. cbv zeta.
  destruct (match col_indices !! "fisher pcn" with
            | Some i => _
            | None => _
            end) as [pcn_cell|] eqn:Hpcn; [|done].
  rewrite bind_Ret.
  destruct (meta r (col_indices !! "plex customer code")) as [customer_raw|]; [|done].
  rewrite bind_Ret.
  destruct (meta r (col_indices !! "oem plant")) as [oem|]; [|done].
  rewrite bind_Ret.
  destruct (meta r (col_indices !! "part description")) as [desc|]; [|done].
  rewrite bind_Ret. cbv zeta.
  destruct (traverse _ _) as [found|] eqn:Hfound; [|done].
  rewrite bind_Ret. intros [= <-] Hin.
  apply list_elem_of_join in Hin as (ps & Hpart & Hps).
  apply traverse_Ret in Hfound.
  apply list_elem_of_lookup in Hps as [i Hi].
  destruct (Forall2_lookup_r _ _ _ _ _ Hfound Hi) as (name & Hname & Hrun).
  destruct (_find_most_recent_price _ _ _ _ _) as [[[[n p] d]|]|] eqn:Hprice;
    rewrite ?bind_Ret in Hrun; [|by simplify_eq; apply not_elem_of_nil in Hpart|done].
  injection Hrun as <-. apply list_elem_of_singleton in Hpart as ->. simpl.
  apply find_most_recent_price_offered in Hprice as (b & d' & Hb & -> & Ho).
  split; [by eexists _, b, d'|].
  destruct (col_indices !! "fisher pcn") as [i'|]; [|by injection Hpcn as <-].
  unfold series_get in Hpcn. destruct (r !! i') as [c|]; [|done].
  rewrite bind_Ret in Hpcn. injection Hpcn as <-. exists c. split; [done|].
  unfold or_default_pcn.
  destruct (String.eqb (PyStr.strip (cell_str c)) "") eqn:He; [|by rewrite He].
  reflexivity.
Qed.

Lemma extract_rows_elem k rows col_indices blocks today parts part :
  extract_rows k rows col_indices blocks today = Ret parts ->
  part ∈ parts ->
  exists i r ps,
    rows !! i = Some r /\
    extract_row r (k + i) col_indices blocks today = Ret ps /\ part ∈ ps.
Proof.
  revert k parts. induction rows as [|r rows IH]; intros k parts; simpl.
  - intros [= <-] Hin. by apply not_elem_of_nil in Hin.
  - destruct (extract_row r k col_indices blocks today) as [ps|] eqn:Hrow; [|done].
    rewrite bind_Ret.
    destruct (extract_rows (S k) rows col_indices blocks today) as [more|] eqn:Hmore;
      [|done].
    rewrite bind_Ret. intros [= <-] Hin.
    apply elem_of_app in Hin as [Hin|Hin].
    + exists 0%nat, r, ps. by rewrite Nat.add_0_r.
    + destruct (IH _ _ Hmore Hin) as (i & r' & ps' & Hl & Hrun & Hp).
      exists (S i), r', ps'. by replace (k + S i)%nat with (S k + i)%nat by lia.
Qed.

Lemma sheet_parts_elem df today parts part :
  sheet_parts df today = Ret parts ->
  part ∈ parts ->
  exists start header blocks k r ps,
    _find_main_table_header df = Some start /\
    df !! start = Some header /\
    _find_price_blocks df start = Ret blocks /\
    (start < k)%nat /\ df !! k = Some r /\
    extract_row r k (header_indices (row_strings header)) blocks today = Ret ps /\
    part ∈ ps.
Proof.
  unfold sheet_parts.
  destruct (_find_main_table_header df) as [start|] eqn:Hstart.
  2: { intros [= <-] Hin. by apply not_elem_of_nil in Hin. }
  pose proof Hstart as Hhead.
  apply find_main_table_header_Some in Hhead as [(header & Hheader & _) _].
  rewrite (getitem_Ret _ _ _ Hheader), bind_Ret. cbv zeta.
  destruct (_find_price_blocks df start) as [blocks|] eqn:Hblocks; [|done].
  rewrite bind_Ret. unfold _extract_parts_from_rows. intros Hrun Hin.
  destruct (extract_rows_elem _ _ _ _ _ _ _ Hrun Hin) as (i & r & ps & Hl & Hrow & Hp).
  rewrite lookup_drop in Hl.
  exists start, header, blocks, (start + 1 + i)%nat, r, ps.
  split_and!; first [done|lia].
Qed.

(** X6.  Every part read from a sheet comes from a row below the main
    header and from a price block of the sheet whose header is above that
    row: its date is the date of the block, which is not after today; its
    number is read from the row's cell under the block's "part number"
    header, and its price from a cell of the row strictly to the right of
    that one, under a header of the block. *)
Theorem extracted_parts_come_from_dated_blocks df today parts part :
  sheet_parts df today = Ret parts ->
  part ∈ parts ->
  exists start blocks k r b d j pn pc,
    _find_main_table_header df = Some start /\
    _find_price_blocks df start = Ret blocks /\
    (start < k)%nat /\ df !! k = Some r /\
    b ∈ blocks /\ (header_row b < k)%nat /\
    block_date b = Some d /\ part_date part = Some d /\
    date_ltb today d = false /\
    (part_col b < j < length (header_values b))%nat /\
    r !! part_col b = Some pn /\
    int_of_str (PyStr.strip (cell_str pn)) = Some (part_number part) /\
    r !! j = Some pc /\
    float_of_str (PyStr.strip (PyStr.remove_char ","
                    (PyStr.remove_char "$" (cell_str pc)))) = Some (price part).
Proof.
  intros Hrun Hin.
  destruct (sheet_parts_elem _ _ _ _ Hrun Hin)
    as (start & header & blocks & k & r & ps & Hstart & _ & Hblocks & Hk & Hr & Hrow & Hp).
  destruct (extract_row_elem _ _ _ _ _ _ _ Hrow Hp) as [(cust & b & d & Hb & Hd & Ho) _].
  apply block_offer_Some in Ho
    as (Hbd & Htoday & Hhr & j & pn & pc & Hj & Hpn & Hpc & Hn & Hprice).
  apply select_price_column_range in Hj.
  exists start, blocks, k, r, b, d, j, pn, pc. split_and!; first [done|lia].
Qed.

(** X7.  The PCN of a part read from a sheet is never empty.  It is the
    trimmed text of the row's cell under the (last) "fisher pcn" header of
    the main table, and "95506" when the table has no such header or the
    text is empty; a cell left blank reads as the text "nan". *)
Theorem part_pcn_is_never_empty df today parts part :
  sheet_parts df today = Ret parts ->
  part ∈ parts ->
  pcn part <> "" /\
  exists start header k r,
    _find_main_table_header df = Some start /\ df !! start = Some header /\
    (start < k)%nat /\ df !! k = Some r /\
    match header_indices (row_strings header) !! "fisher pcn" with
    | None => pcn part = "95506"
    | Some i =>
        exists c, r !! i = Some c /\
          pcn part = (if String.eqb (PyStr.strip (cell_str c)) "" then "95506"
                      else PyStr.strip (cell_str c)) /\
          (c = CBlank -> pcn part = "nan")
    end.
Proof.
  intros Hrun Hin.
  destruct (sheet_parts_elem _ _ _ _ Hrun Hin)
    as (start & header & blocks & k & r & ps & Hstart & Hheader & _ & Hk & Hr & Hrow & Hp).
  destruct (extract_row_elem _ _ _ _ _ _ _ Hrow Hp) as [_ Hpcn].
  split.
  - destruct (header_indices _ !! "fisher pcn") as [i|].
    + destruct Hpcn as (c & _ & ->). unfold or_default_pcn.
      destruct (String.eqb _ "") eqn:He; [done|]. by apply String.eqb_neq in He.
    + by rewrite Hpcn.
  - exists start, header, k, r. split_and!; [done..|].
    destruct (header_indices _ !! "fisher pcn") as [i|]; [|done].
    destruct Hpcn as (c & Hc & ->). exists c. split_and!; [done..|].
    by intros ->.
Qed.

(** X8.  The default price column that is reported for a price block is the
    column a row with a single customer (or none) is priced from; it lies
    strictly to the right of the block's "part number" header, under a
    header that holds "ddp price" or "fca price" in any case, and a header
    that reads exactly so is preferred to one that only holds it. *)
Theorem default_price_column_is_the_one_used df start_table_row blocks b :
  _find_price_blocks df start_table_row = Ret blocks ->
  b ∈ blocks ->
  _select_price_column (header_values b) (part_col b) None = default_price_col b /\
  (forall j, default_price_col b = Some j ->
     (part_col b < j)%nat /\
     exists h, header_values b !! j = Some h /\
       (PyStr.contains "ddp price" (PyStr.lower h) = true \/
        PyStr.contains "fca price" (PyStr.lower h) = true)) /\
  (forall i h, (part_col b < i)%nat -> header_values b !! i = Some h ->
     PyStr.lower h = "ddp price" \/ PyStr.lower h = "fca price" ->
     exists j h', default_price_col b = Some j /\ header_values b !! j = Some h' /\
       (PyStr.lower h' = "ddp price" \/ PyStr.lower h' = "fca price")).
Proof.
  intros Hblocks Hb.
  apply (find_price_blocks_elem _ _ _ Hblocks) in Hb
    as (r & _ & Hhv & _ & Hdefault & _).
  rewrite Hdefault, <-Hhv. clear Hdefault Hhv.
  generalize (header_values b) (part_col b). clear. intros hv pc.
  assert (forall p prios start l j,
            first_priority p prios start l = Some j ->
            exists pr h, pr ∈ prios /\ l !! j = Some h /\ p pr h = true) as Hhit.
  { intros p prios start l j. induction prios as [|pr prios IH]; simpl; [done|].
    destruct (first_from (p pr) start l) as [i|] eqn:Hf.
    - intros [= <-]. apply first_from_Some in Hf as (_ & (h & Hl & Hp) & _).
      exists pr, h. split_and!; [by left|done..].
    - intros Hj. destruct (IH Hj) as (pr' & h & ? & ? & ?).
      exists pr', h. split_and!; [by right|done..]. }
  assert (forall p prios start l i h pr,
            (start <= i)%nat -> l !! i = Some h -> pr ∈ prios -> p pr h = true ->
            is_Some (first_priority p prios start l)) as Hsome.
  { intros p prios start l i h pr Hi Hl Hpr Hp.
    induction prios as [|pr' prios IH]; [by apply not_elem_of_nil in Hpr|]. simpl.
    destruct (first_from (p pr') start l) as [j|] eqn:Hf; [by eauto|].
    apply elem_of_cons in Hpr as [->|Hpr]; [|by apply IH].
    exfalso. unfold first_from in Hf. apply fmap_None in Hf.
    apply list_find_None in Hf. rewrite Forall_forall in Hf.
    apply (Hf h); [|done]. apply list_elem_of_lookup. exists (i - start)%nat.
    rewrite lookup_drop. by replace (start + (i - start))%nat with i by lia. }
  assert (forall pr, pr ∈ PRICE_COLUMN_PRIORITIES ->
                     pr = "ddp price" \/ pr = "fca price") as Hprios.
  { intros pr Hpr. unfold PRICE_COLUMN_PRIORITIES in Hpr.
    apply elem_of_cons in Hpr as [->|Hpr]; [by left|].
    apply list_elem_of_singleton in Hpr as ->. by right. }
  split_and!.
  - apply select_price_column_default.
  - intros j Hj. split; [apply find_price_column_range in Hj; lia|].
    revert Hj. unfold _find_price_column. cbv zeta.
    destruct (first_priority (fun pr h => String.eqb h pr) _ _ _) as [i|] eqn:He.
    + intros [= <-]. destruct (Hhit _ _ _ _ _ He) as (pr & h & Hpr & Hl & Heq).
      apply list_lookup_fmap_Some in Hl as (h0 & -> & Hh0).
      apply String.eqb_eq in Heq. exists h0. split; [done|].
      rewrite Heq. destruct (Hprios _ Hpr) as [-> | ->]; [by left|by right].
    + intros Hc. destruct (Hhit _ _ _ _ _ Hc) as (pr & h & Hpr & Hl & Hin).
      apply list_lookup_fmap_Some in Hl as (h0 & -> & Hh0).
      exists h0. split; [done|].
      destruct (Hprios _ Hpr) as [-> | ->]; [by left|by right].
  - intros i h Hi Hl Hexact. unfold _find_price_column. cbv zeta.
    destruct (Hsome (fun pr h => String.eqb h pr) PRICE_COLUMN_PRIORITIES
                (pc + 1)%nat (PyStr.lower <$> hv) i (PyStr.lower h) (PyStr.lower h))
      as [j Hj].
    + lia.
    + by rewrite list_lookup_fmap, Hl.
    + unfold PRICE_COLUMN_PRIORITIES.
      destruct Hexact as [-> | ->]; [by left|by right; left].
    + apply String.eqb_refl.
    + rewrite Hj. destruct (Hhit _ _ _ _ _ Hj) as (pr & h' & Hpr & Hl' & Heq).
      apply list_lookup_fmap_Some in Hl' as (h0 & -> & Hh0).
      apply String.eqb_eq in Heq. exists j, h0. split_and!; [done..|].
      rewrite Heq. by apply Hprios.
Qed.
End Provenance.

Lemma extracted_parts_come_from_dated_blocks_witness :
  exists parts part,
    sheet_parts Sheet.frame Sheet.today = Ret parts /\ part ∈ parts /\
    exists start blocks k r b d j pn pc,
      _find_main_table_header Sheet.frame = Some start /\
      _find_price_blocks Sheet.frame start = Ret blocks /\
      (start < k)%nat /\ Sheet.frame !! k = Some r /\
      b ∈ blocks /\ (header_row b < k)%nat /\
      block_date b = Some d /\ part_date part = Some d /\
      date_ltb Sheet.today d = false /\
      (part_col b < j < length (header_values b))%nat /\
      r !! part_col b = Some pn /\
      int_of_str (PyStr.strip (cell_str pn)) = Some (part_number part) /\
      r !! j = Some pc /\
      float_of_str (PyStr.strip (PyStr.remove_char ","
                      (PyStr.remove_char "$" (cell_str pc)))) = Some (price part).
Proof.
  destruct (sheet_parts Sheet.frame Sheet.today) as [[|part parts]|e] eqn:Hrun;
    [vm_compute in Hrun; discriminate Hrun| |vm_compute in Hrun; discriminate Hrun].
  assert (part ∈ part :: parts) as Hin by left.
  exists (part :: parts), part. split; [reflexivity|]. split; [exact Hin|].
  exact (extracted_parts_come_from_dated_blocks _ _ _ _ Hrun Hin).
Defined.

Lemma part_pcn_is_never_empty_witness :
  exists parts part,
    sheet_parts Sheet.with_pcn Sheet.today = Ret parts /\ part ∈ parts /\
    pcn part <> "" /\
    exists start header k r,
      _find_main_table_header Sheet.with_pcn = Some start /\
      Sheet.with_pcn !! start = Some header /\
      (start < k)%nat /\ Sheet.with_pcn !! k = Some r /\
      match header_indices (row_strings header) !! "fisher pcn" with
      | None => pcn part = "95506"
      | Some i =>
          exists c, r !! i = Some c /\
            pcn part = (if String.eqb (PyStr.strip (cell_str c)) "" then "95506"
                        else PyStr.strip (cell_str c)) /\
            (c = CBlank -> pcn part = "nan")
      end.
Proof.
  destruct (sheet_parts Sheet.with_pcn Sheet.today) as [[|part parts]|e] eqn:Hrun;
    [vm_compute in Hrun; discriminate Hrun| |vm_compute in Hrun; discriminate Hrun].
  assert (part ∈ part :: parts) as Hin by left.
  exists (part :: parts), part. split; [reflexivity|]. split; [exact Hin|].
  exact (part_pcn_is_never_empty _ _ _ _ Hrun Hin).
Defined.

Lemma default_price_column_is_the_one_used_witness :
  _find_price_blocks Sheet.frame 1 = Ret [Sheet.price_block] /\
  Sheet.price_block ∈ [Sheet.price_block] /\
  _select_price_column (header_values Sheet.price_block)
    (part_col Sheet.price_block) None
  = default_price_col Sheet.price_block.
Proof.
  assert (_find_price_blocks Sheet.frame 1 = Ret [Sheet.price_block]) as Hrun
    by (vm_compute; reflexivity).
  assert (Sheet.price_block ∈ [Sheet.price_block]) as Hin by left.
  split; [exact Hrun|]. split; [exact Hin|].
  exact (proj1 (default_price_column_is_the_one_used _ _ _ _ Hrun Hin)).
Defined.

(** ** The cache of part keys *)

Section PartKeyCache.
Context `{PyBuiltins}.

Lemma lookup_part_key_status (api : part_key_api) part_no code user password key status :
  lookup_part_key api part_no code user password = Ret (key, status) -> status = "".
Proof.
  unfold lookup_part_key.
  destruct (api user password part_no "Part_No") as [[rows headers]|]; [|done].
  rewrite bind_Ret.
  destruct (_select_part_key_from_rows rows headers _ true) as [[k1 s1]|] eqn:H1;
    [|done].
  rewrite bind_Ret. apply select_status in H1 as ->.
  destruct (truthy k1); [by intros [= _ <-]|].
  destruct (api user password part_no "Customer_Part_No") as [[rows' headers']|];
    [|done].
  rewrite bind_Ret. apply select_status.
Qed.

(** The cases of [retrieve_part_key]: a hit in the cache, a key found by the
    lookup and written to the cache, or nothing found and nothing written. *)
Lemma retrieve_part_key_cases (api : part_key_api) part_no raw user password
    (cache : gmap string value) key status cache' :
  retrieve_part_key api part_no raw user password cache = ((key, status), cache') ->
  let code := PyStr.lower (PyStr.strip raw) in
  let cache_key := _build_cache_key part_no code in
  let cached :=
    if negb (truthy (default VNone (cache !! cache_key))) && String.eqb code ""
    then default VNone (cache !! part_no)
    else default VNone (cache !! cache_key) in
  (truthy cached = true /\ key = cached /\ status = "" /\ cache' = cache) \/
  (truthy cached = false /\ truthy key = true /\ status = "" /\
   lookup_part_key api part_no code user password = Ret (key, "") /\
   cache' = if String.eqb code ""
            then <[part_no := key]> (<[cache_key := key]> cache)
            else <[cache_key := key]> cache) \/
  (truthy cached = false /\ truthy key = false /\ cache' = cache).
Proof.
  intros Hrun code cache_key cached. revert Hrun. unfold retrieve_part_key.
  cbv zeta. fold code. fold cache_key. fold cached.
  destruct (truthy cached) eqn:Hhit.
  { intros [= <- <- <-]. by left. }
  destruct (lookup_part_key api part_no code user password) as [[k s]|e] eqn:Hlookup.
  - pose proof (lookup_part_key_status _ _ _ _ _ _ _ Hlookup) as ->.
    destruct (truthy k) eqn:Hk.
    + intros Hrun. right. left.
      assert (key = k /\ status = "") as [-> ->] by (by destruct (String.eqb code "");
        injection Hrun as <- <- _).
      split_and!; [done..|].
      destruct (String.eqb code ""); by injection Hrun as <-.
    + intros [= <- <- <-]. by right; right.
  - destruct e; intros [= <- <- <-]; by right; right.
Qed.

Lemma retrieve_part_key_again (api api' : part_key_api) part_no raw
    user password user' password' (cache : gmap string value) key status cache' :
  retrieve_part_key api part_no raw user password cache = ((key, status), cache') ->
  truthy key = true ->
  status = "" /\
  retrieve_part_key api' part_no raw user' password' cache' = ((key, ""), cache').
Proof.
  intros Hrun Hkey.
  destruct (retrieve_part_key_cases _ _ _ _ _ _ _ _ _ Hrun)
    as [(Hhit & -> & -> & ->)|[(Hmiss & _ & -> & _ & ->)|(_ & Hnone & _)]];
    [| |congruence].
  - split; [done|]. unfold retrieve_part_key. cbv zeta. by rewrite Hhit.
  - split; [done|]. unfold retrieve_part_key. cbv zeta.
    set (code := PyStr.lower (PyStr.strip raw)).
    set (cache_key := _build_cache_key part_no code).
    assert ((if String.eqb code ""
             then <[part_no := key]> (<[cache_key := key]> cache)
             else <[cache_key := key]> cache) !! cache_key = Some key) as ->.
    { destruct (String.eqb code ""); [|by rewrite lookup_insert_eq].
      rewrite lookup_insert. destruct (decide (part_no = cache_key)); [done|].
      by rewrite lookup_insert_eq. }
    simpl. rewrite Hkey. simpl. by rewrite Hkey.
Qed.

(** X9.  A part key that was found is remembered: after a call that returns
    a key, a second call for the same part number and customer code returns
    the same key from the cache, whatever the service would answer, and
    leaves the cache as it is. *)
Theorem found_part_key_is_remembered (api api' : part_key_api) part_no raw
    user password user' password' (cache : gmap string value) key status cache' :
  retrieve_part_key api part_no raw user password cache = ((key, status), cache') ->
  truthy key = true ->
  status = "" /\
  retrieve_part_key api' part_no raw user' password' cache' = ((key, ""), cache').
Proof. apply retrieve_part_key_again. Qed.

(** X10.  The cache of part keys is only extended, and only by keys that
    were found: a call that returns no key leaves it as it was; no entry
    that holds a key is ever replaced; and every entry a call adds or
    changes holds the key it returns, under the cache key of the part number
    and customer code, or under the bare part number when the customer code
    is empty. *)
Theorem part_key_cache_is_only_extended (api : part_key_api) part_no raw
    user password (cache : gmap string value) key status cache' :
  retrieve_part_key api part_no raw user password cache = ((key, status), cache') ->
  (truthy key = false -> cache' = cache) /\
  (forall k v, cache !! k = Some v -> truthy v = true -> cache' !! k = Some v) /\
  (forall k v, cache' !! k = Some v ->
     cache !! k = Some v \/
     (v = key /\ truthy key = true /\
      (k = _build_cache_key part_no (PyStr.lower (PyStr.strip raw)) \/
       (PyStr.lower (PyStr.strip raw) = "" /\ k = part_no)))).
Proof.
  intros Hrun.
  destruct (retrieve_part_key_cases _ _ _ _ _ _ _ _ _ Hrun)
    as [(Hhit & -> & -> & ->)|[(Hmiss & Hkey & -> & _ & ->)|(_ & Hnone & ->)]];
    [by split_and!; auto| |by split_and!; auto].
  set (code := PyStr.lower (PyStr.strip raw)) in *.
  set (cache_key := _build_cache_key part_no code) in *.
  split_and!.
  - congruence.
  - intros k v Hk Hv.
    assert (k <> cache_key) as Hck.
    { intros ->. rewrite Hk in Hmiss. simpl in Hmiss. rewrite Hv in Hmiss.
      simpl in Hmiss. congruence. }
    destruct (String.eqb code "") eqn:Hcode; [|by rewrite lookup_insert_ne].
    assert (k <> part_no) as Hpn.
    { intros ->. destruct (truthy (default VNone (cache !! cache_key))) eqn:Hfirst;
        simpl in Hmiss; [congruence|]. rewrite Hk in Hmiss. simpl in Hmiss.
      congruence. }
    by rewrite !lookup_insert_ne.
  - intros k v Hk.
    destruct (String.eqb_spec code "") as [Hcode|Hcode].
    + destruct (decide (k = part_no)) as [->|Hpn].
      { rewrite lookup_insert_eq in Hk. injection Hk as <-.
        right. split_and!; [done..|]. by right. }
      rewrite lookup_insert_ne in Hk by done.
      destruct (decide (k = cache_key)) as [->|Hck].
      { rewrite lookup_insert_eq in Hk. injection Hk as <-.
        right. split_and!; [done..|]. by left. }
      rewrite lookup_insert_ne in Hk by done. by left.
    + destruct (decide (k = cache_key)) as [->|Hck].
      { rewrite lookup_insert_eq in Hk. injection Hk as <-.
        right. split_and!; [done..|]. by left. }
      rewrite lookup_insert_ne in Hk by done. by left.
Qed.

Lemma matching_elem cc code rows ms r :
  matching cc code rows = Ret ms -> r ∈ ms ->
  r ∈ rows /\ customer_code_of cc r = Some code.
Proof.
  revert ms. induction rows as [|r0 rows IH]; intros ms; simpl.
  - intros [= <-] Hr. by apply not_elem_of_nil in Hr.
  - unfold getitem. destruct (r0 !! cc) as [cell|] eqn:Hcell; [|done].
    rewrite bind_Ret.
    destruct (matching cc code rows) as [rest|]; [|done].
    rewrite bind_Ret. intros [= <-] Hr.
    destruct (String.eqb_spec (PyStr.lower (PyStr.strip (py_str cell))) code)
      as [Hcode|Hcode].
    + apply elem_of_cons in Hr as [->|Hr].
      * split; [by left|]. unfold customer_code_of. rewrite Hcell. simpl.
        by rewrite Hcode.
      * destruct (IH rest eq_refl Hr). split; [by right|done].
    + destruct (IH rest eq_refl Hr). split; [by right|done].
Qed.

Lemma select_best_elem pk st rv cands key status :
  select_best pk st rv cands = Ret (key, status) ->
  exists best, best ∈ cands /\ best !! pk = Some key.
Proof.
  unfold select_best.
  destruct (traverse _ cands) as [keyed|] eqn:Hkeyed; [|done].
  rewrite bind_Ret. apply traverse_Ret in Hkeyed.
  destruct keyed as [|kr keyed]; [done|].
  destruct (sorted_head_first_least sort_key_ltb fst (kr :: keyed))
    as ([k best] & rest & -> & Hfl); [done|].
  pose proof (first_least_elem sort_key_ltb _ _ _ Hfl) as Hin.
  apply list_elem_of_lookup in Hin as [i Hi].
  destruct (Forall2_lookup_r _ _ _ _ _ Hkeyed Hi) as (r & Hr & Hrun).
  destruct (sort_key st rv r) as [k'|]; [|done].
  rewrite bind_Ret in Hrun. injection Hrun as -> ->.
  destruct (best !! pk) as [v|] eqn:Hv.
  2: { unfold getitem. by rewrite Hv. }
  rewrite (getitem_Ret _ _ _ Hv), bind_Ret.
  destruct (getitem best st); [|done]. rewrite bind_Ret.
  destruct (getitem best rv); [|done]. rewrite bind_Ret.
  intros [= <- _]. exists best. split; [by eapply list_elem_of_lookup_2|done].
Qed.

Lemma select_part_key_elem rows headers code key status :
  _select_part_key_from_rows rows headers code true = Ret (key, status) ->
  truthy key = true ->
  code <> "" /\
  exists pk cc r,
    index "Part_Key" headers = Some pk /\ index "Customer_Code" headers = Some cc /\
    r ∈ rows /\ r !! pk = Some key /\ customer_code_of cc r = Some code.
Proof.
  unfold _select_part_key_from_rows. intros Hrun Hkey.
  assert (forall s, Ret (VNone, "") = Ret (key, s) -> False) as Hnone.
  { intros s [= <- _]. done. }
  destruct rows as [|r0 rows]; [by destruct (Hnone _ Hrun)|].
  destruct headers as [|h headers]; [by destruct (Hnone _ Hrun)|].
  destruct (index "Part_Key" (h :: headers)) as [pk|]; [|by destruct (Hnone _ Hrun)].
  destruct (index "Part_Status" (h :: headers)) as [st|];
    [|by destruct (Hnone _ Hrun)].
  destruct (index "Revision" (h :: headers)) as [rv|]; [|by destruct (Hnone _ Hrun)].
  destruct (index "Customer_Code" (h :: headers)) as [cc|];
    [|by destruct (Hnone _ Hrun)].
  unfold candidate_rows in Hrun.
  destruct (String.eqb_spec code "") as [Hcode|Hcode].
  { rewrite bind_Ret in Hrun. cbv beta iota in Hrun. rewrite bind_Ret in Hrun.
    by destruct (Hnone _ Hrun). }
  split; [done|].
  destruct (matching cc code (r0 :: rows)) as [ms|] eqn:Hms; [|done].
  rewrite !bind_Ret in Hrun.
  destruct ms as [|m ms]; [by destruct (Hnone _ Hrun)|].
  apply select_best_elem in Hrun as (best & Hbest & Hpk).
  destruct (matching_elem _ _ _ _ _ Hms Hbest) as [Hin Hcust].
  by exists pk, cc, best.
Qed.

(** X11.  A part key that is returned is one the cache held, or the
    [Part_Key] cell of a row that the service listed for the part number,
    asked by [Part_No] or by [Customer_Part_No], whose customer code,
    trimmed and lower-cased, is the customer code of the call; the service
    is never the origin of a key for an empty customer code. *)
Theorem returned_part_key_comes_from_a_matching_row (api : part_key_api)
    part_no raw user password (cache : gmap string value) key status cache' :
  retrieve_part_key api part_no raw user password cache = ((key, status), cache') ->
  truthy key = true ->
  let code := PyStr.lower (PyStr.strip raw) in
  cache !! _build_cache_key part_no code = Some key \/
  (code = "" /\ cache !! part_no = Some key) \/
  (code <> "" /\
   exists field rows headers pk cc r,
     (field = "Part_No" \/ field = "Customer_Part_No") /\
     api user password part_no field = Ret (rows, headers) /\
     index "Part_Key" headers = Some pk /\
     index "Customer_Code" headers = Some cc /\
     r ∈ rows /\ r !! pk = Some key /\ customer_code_of cc r = Some code).
Proof.
  intros Hrun Hkey code.
  destruct (retrieve_part_key_cases _ _ _ _ _ _ _ _ _ Hrun)
    as [(Hhit & Hcached & _)|[(_ & _ & _ & Hlookup & _)|(_ & Hnone & _)]];
    [| |congruence].
  - fold code in Hhit, Hcached.
    destruct (cache !! _build_cache_key part_no code) as [v|] eqn:Hv; simpl in *.
    + destruct (truthy v) eqn:Htv; simpl in *; [left; congruence|].
      destruct (String.eqb_spec code "") as [Hcode|Hcode]; [|congruence].
      right; left. split; [done|].
      destruct (cache !! part_no) as [v'|]; simpl in *; [congruence|].
      subst key. done.
    + destruct (String.eqb_spec code "") as [Hcode|Hcode]; [|by subst key].
      right; left. split; [done|].
      destruct (cache !! part_no) as [v'|]; simpl in *; [congruence|].
      subst key. done.
  - fold code in Hlookup. right; right. revert Hlookup. unfold lookup_part_key.
    destruct (api user password part_no "Part_No") as [[rows headers]|] eqn:Hapi;
      [|done].
    rewrite bind_Ret.
    destruct (_select_part_key_from_rows rows headers code true) as [[k1 s1]|] eqn:H1;
      [|done].
    rewrite bind_Ret. destruct (truthy k1) eqn:Hk1.
    + intros [= -> _].
      destruct (select_part_key_elem _ _ _ _ _ H1 Hk1)
        as (Hcode & pk & cc & r & ? & ? & ? & ? & ?).
      split; [done|]. exists "Part_No", rows, headers, pk, cc, r.
      split_and!; [by left|done..].
    + destruct (api user password part_no "Customer_Part_No")
        as [[rows' headers']|] eqn:Hapi'; [|done].
      rewrite bind_Ret. intros H2.
      destruct (select_part_key_elem _ _ _ _ _ H2 Hkey)
        as (Hcode & pk & cc & r & ? & ? & ? & ? & ?).
      split; [done|]. exists "Customer_Part_No", rows', headers', pk, cc, r.
      split_and!; [by right|done..].
Qed.
End PartKeyCache.

Lemma found_part_key_is_remembered_witness :
  exists key status cache',
    retrieve_part_key Candidates.api "123" "Acme" "user" "secret" ∅
    = ((key, status), cache') /\
    truthy key = true /\ status = "" /\
    retrieve_part_key (fun _ _ _ _ => Raise Timeout) "123" "Acme" "other" "word" cache'
    = ((key, ""), cache').
Proof.
  assert (truthy (retrieve_part_key Candidates.api "123" "Acme" "user" "secret" ∅).1.1
          = true) as Hkey by reflexivity.
  destruct (retrieve_part_key Candidates.api "123" "Acme" "user" "secret" ∅)
    as [[key status] cache'] eqn:Hrun.
  simpl in Hkey. exists key, status, cache'.
  split; [reflexivity|]. split; [exact Hkey|].
  exact (found_part_key_is_remembered Candidates.api (fun _ _ _ _ => Raise Timeout)
           "123" "Acme" "user" "secret" "other" "word" ∅ key status cache' Hrun Hkey).
Defined.

Lemma part_key_cache_is_only_extended_witness :
  exists key status cache',
    retrieve_part_key Candidates.api "123" "Acme" "user" "secret"
      {[ "77::lear" := VStr "K7" ]} = ((key, status), cache') /\
    cache' !! "77::lear" = Some (VStr "K7").
Proof.
  destruct (retrieve_part_key Candidates.api "123" "Acme" "user" "secret"
              {[ "77::lear" := VStr "K7" ]}) as [[key status] cache'] eqn:Hrun.
  exists key, status, cache'. split; [reflexivity|].
  apply (proj1 (proj2 (part_key_cache_is_only_extended _ _ _ _ _ _ _ _ _ Hrun)));
    reflexivity.
Defined.

Lemma returned_part_key_comes_from_a_matching_row_witness :
  exists key status cache',
    retrieve_part_key Candidates.api "123" "Acme" "user" "secret" ∅
    = ((key, status), cache') /\
    truthy key = true /\
    ((∅ : gmap string value) !! _build_cache_key "123" (PyStr.lower (PyStr.strip "Acme"))
     = Some key \/
     (PyStr.lower (PyStr.strip "Acme") = "" /\
      (∅ : gmap string value) !! "123" = Some key) \/
     (PyStr.lower (PyStr.strip "Acme") <> "" /\
      exists field rows headers pk cc r,
        (field = "Part_No" \/ field = "Customer_Part_No") /\
        Candidates.api "user" "secret" "123" field = Ret (rows, headers) /\
        index "Part_Key" headers = Some pk /\
        index "Customer_Code" headers = Some cc /\
        r ∈ rows /\ r !! pk = Some key /\
        customer_code_of cc r = Some (PyStr.lower (PyStr.strip "Acme")))).
Proof.
  assert (truthy (retrieve_part_key Candidates.api "123" "Acme" "user" "secret" ∅).1.1
          = true) as Hkey by reflexivity.
  destruct (retrieve_part_key Candidates.api "123" "Acme" "user" "secret" ∅)
    as [[key status] cache'] eqn:Hrun.
  simpl in Hkey. exists key, status, cache'.
  split; [reflexivity|]. split; [exact Hkey|].
  exact (returned_part_key_comes_from_a_matching_row Candidates.api
           "123" "Acme" "user" "secret" ∅ key status cache' Hrun Hkey).
Defined.

(** ** Cache keys *)

Section CacheKeys.

Lemma append_cancel_l (p a b : string) : p +:+ a = p +:+ b -> a = b.
Proof. induction p as [|c p IH]; simpl; [done|]. intros [= ?]. by apply IH. Qed.

Lemma contains_colon_cons c p :
  PyStr.contains ":" (String c p) = false ->
  c <> ":"%char /\ PyStr.contains ":" p = false.
Proof.
  simpl. intros Hc. apply orb_false_iff in Hc as [Hc Hp]. split; [|done].
  intros ->. by destruct p.
Qed.

Lemma cache_key_part (p1 p2 a b : string) :
  PyStr.contains ":" p1 = false -> PyStr.contains ":" p2 = false ->
  p1 +:+ "::" +:+ a = p2 +:+ "::" +:+ b -> p1 = p2.
Proof.
  revert p2. induction p1 as [|c p1 IH]; intros [|c2 p2] H1 H2; simpl.
  - done.
  - intros [= <- _]. by apply contains_colon_cons in H2 as [? _].
  - intros [= -> _]. by apply contains_colon_cons in H1 as [? _].
  - intros [= <- Heq]. f_equal.
    apply contains_colon_cons in H1 as [_ H1].
    apply contains_colon_cons in H2 as [_ H2]. by apply IH.
Qed.

(** X12.  For part numbers without a colon, as the integers read from the
    charts are, two lookups share an entry of the part-key cache exactly
    when they are for the same part number and the same customer code,
    with one exception: the empty customer code and the code "none" share
    their entry. *)
Theorem cache_key_identifies_part_and_customer p1 c1 p2 c2 :
  PyStr.contains ":" p1 = false -> PyStr.contains ":" p2 = false ->
  _build_cache_key p1 c1 = _build_cache_key p2 c2 <->
  p1 = p2 /\ (c1 = c2 \/ (c1 = "" /\ c2 = "none") \/ (c1 = "none" /\ c2 = "")).
Proof.
  intros H1 H2. unfold _build_cache_key. cbv zeta. split.
  - intros Heq. pose proof (cache_key_part _ _ _ _ H1 H2 Heq) as ->.
    split; [done|]. apply append_cancel_l, (append_cancel_l "::") in Heq.
    destruct (String.eqb_spec c1 ""), (String.eqb_spec c2 ""); subst; auto.
  - intros [-> [->|[[-> ->]|[-> ->]]]]; reflexivity.
Qed.
End CacheKeys.

Lemma cache_key_identifies_part_and_customer_witness :
  PyStr.contains ":" "123" = false /\
  _build_cache_key "123" "" = _build_cache_key "123" "none".
Proof.
  split; [reflexivity|].
  apply (proj2 (cache_key_identifies_part_and_customer "123" "" "123" "none"
                  eq_refl eq_refl)).
  split; [reflexivity|]. right; left. split; reflexivity.
Defined.

(** ** Recent orders *)

Section RecentOrders.
Context `{PyBuiltins}.

Lemma partition_rows_filter di th today rows :
  partition_rows di th today rows
  = ((fun r => (r, row_date di r)) <$>
       filter (fun r => is_recent di th today r = true) rows,
     (fun r => (r, row_date di r)) <$>
       filter (fun r => is_older di th today r = true) rows).
Proof.
  induction rows as [|r rows IH]; [done|]. simpl. rewrite IH. clear IH.
  rewrite !filter_cons.
  remember (is_recent di th today r) as rec eqn:Hrec.
  remember (is_older di th today r) as old eqn:Hold.
  unfold is_recent, is_older, is_future, before_threshold in Hrec, Hold.
  destruct (row_date di r) as [t|] eqn:Hd; simpl in *.
  - destruct (datetime_ltb today t); simpl in *; [by subst|].
    destruct th as [thv|]; simpl in *; [|subst; simpl; by rewrite Hd].
    destruct (datetime_ltb t thv); simpl in *; subst; simpl; by rewrite Hd.
  - destruct th; simpl in *; subst; simpl; by rewrite Hd.
Qed.

Lemma dated_rows_elem di (rs : list row) t :
  t ∈ dated ((fun r => (r, row_date di r)) <$> rs) <->
  exists r, r ∈ rs /\ row_date di r = Some t.
Proof.
  rewrite dated_elem. split.
  - intros (r & Hin). apply list_elem_of_fmap in Hin as (r' & [= -> Hd] & Hin). eauto.
  - intros (r & Hin & Hd). exists r. apply list_elem_of_fmap. exists r.
    by rewrite Hd.
Qed.



End RecentOrders.


(** ** What a price lookup can answer *)

Section PriceAnswers.
Context `{PyBuiltins}.

Lemma rows_of_customer_subseteq ci m rows rs :
  rows_of_customer ci m rows = Ret rs -> rs ⊆ rows.
Proof.
  revert rs. induction rows as [|r rows IH]; intros rs; simpl.
  - by intros [= <-].
  - destruct (getitem r ci); [|done]. rewrite bind_Ret.
    destruct (rows_of_customer ci m rows) as [rest|]; [|done].
    rewrite bind_Ret. specialize (IH rest eq_refl). intros [= <-].
    destruct (fuzzy_eq _ _); [|by apply list_subseteq_cons].
    intros x. rewrite !elem_of_cons. intros [->|?]; [by left|right; by apply IH].
Qed.

Lemma filtered_rows_subseteq ci matched rows rs :
  filtered_rows ci matched rows = Ret rs -> rs ⊆ rows.
Proof.
  destruct matched as [m|]; simpl.
  - apply rows_of_customer_subseteq.
  - by intros [= <-].
Qed.

(** A pick flagged as an old price has the date it is reported with. *)
Lemma pick_old_dated rows pi di po chart th today sel d :
  _pick_best_price_row rows pi di po chart th today = (Some sel, d, true) ->
  exists t, d = Some t /\ row_date di sel = Some t.
Proof.
  unfold _pick_best_price_row. rewrite partition_rows_filter.
  destruct rows as [|r0 rows]; [done|].
  set (recent := filter (fun r => is_recent di th today r = true) (r0 :: rows)).
  set (older := filter (fun r => is_older di th today r = true) (r0 :: rows)).
  destruct recent as [|r recent']; [|by rewrite fmap_cons].
  rewrite fmap_nil.
  destruct older as [|r older'] eqn:Holder; [done|].
  rewrite <-Holder.
  assert (r ∈ older) as Hr by (rewrite Holder; by left).
  set (items := (fun r => (r, row_date di r)) <$> older).
  destruct items as [|it items'] eqn:Hitems.
  { subst items. apply fmap_nil_inv in Hitems. congruence. }
  rewrite <-Hitems. clear Hitems it items'.
  assert (exists t, row_date di r = Some t) as [t Ht].
  { apply list_elem_of_filter in Hr as [Hold _].
    unfold is_older, before_threshold in Hold.
    apply andb_true_iff in Hold as [_ Hold].
    destruct th; [|done]. destruct (row_date di r); [by eauto|done]. }
  destruct (py_min_is_Some datetime_ltb id (dated items)) as [b Hb].
  { intros Hnil. assert (t ∈ dated items) as Hin by (apply dated_rows_elem; eauto).
    rewrite Hnil in Hin. by apply not_elem_of_nil in Hin. }
  rewrite Hb. intros [= Hsel <-]. exists b. split; [done|].
  subst items. rewrite <-on_date_Some, filter_on_date in Hsel.
  apply closest_elem, list_elem_of_filter in Hsel as [? _]. done.
Qed.

(** The answers of [_select_price_from_rows]: the chart price with a status
    that tells why, or the price cell of a row of the service. *)
Lemma select_price_cases rows headers name names chart date_begin_str today
    price status po :
  _select_price_from_rows rows headers name names chart date_begin_str today
  = Ret (price, status, po) ->
  (price = VNum chart /\ po = VStr "" /\ ~ priced_status status) \/
  (exists pi di sel,
      index "Unit_Price" headers = Some pi /\
      index "Require_Ship_Date" headers = Some di /\
      sel ∈ rows /\ sel !! pi = Some price /\
      not_future today (row_date di sel) /\
      (status = "Success" \/
       exists t, row_date di sel = Some t /\
                 status = "Old Price from " +:+ strftime_ymd t) /\
      match index "PO_No" headers with
      | Some i => sel !! i = Some po
      | None => po = VStr ""
      end).
Proof.
  assert (forall s, (exists c rest, s = String c rest /\ c <> "S"%char /\ c <> "O"%char) ->
                    ~ priced_status s) as Hfail.
  { intros s (c & rest & -> & HS & HO) [Hs|[t Hs]]; [congruence|].
    change ("Old Price from " +:+ strftime_ymd t)
      with (String "O" ("ld Price from " +:+ strftime_ymd t)) in Hs.
    congruence. }
  unfold _select_price_from_rows.
  destruct (index "Customer_Name" headers) as [ci|];
    [|intros [= <- <- <-]; left; split_and!; [done..|apply Hfail; by eexists _, _]].
  destruct (index "Unit_Price" headers) as [pi|];
    [|intros [= <- <- <-]; left; split_and!; [done..|apply Hfail; by eexists _, _]].
  destruct (index "Require_Ship_Date" headers) as [di|];
    [|intros [= <- <- <-]; left; split_and!; [done..|apply Hfail; by eexists _, _]].
  cbv zeta.
  destruct (filtered_rows ci (matched_customer name names) rows) as [filtered|] eqn:Hf;
    [|done].
  rewrite bind_Ret. apply filtered_rows_subseteq in Hf.
  destruct filtered as [|r0 filtered].
  { destruct (matched_customer name names);
      intros [= <- <- <-]; left; (split_and!; [done..|apply Hfail; by eexists _, _]). }
  destruct (_pick_best_price_row _ _ _ _ _ _ _) as [[[sel|] d] used] eqn:Hpick.
  2: { intros [= <- <- <-]. left. split_and!; [done..|apply Hfail; by eexists _, _]. }
  destruct (pick_not_future _ _ _ _ _ _ _ _ _ _ Hpick) as [Hsel Hnf].
  destruct (sel !! pi) as [v|] eqn:Hv.
  2: { unfold getitem. by rewrite Hv. }
  rewrite (getitem_Ret _ _ _ Hv), bind_Ret.
  destruct (match index "PO_No" headers with
            | Some i => getitem sel i
            | None => Ret (VStr "")
            end) as [po'|] eqn:Hpo; [|done].
  rewrite bind_Ret. intros [= <- <- <-]. right.
  exists pi, di, sel. split_and!; [done|done|by apply Hf|done|done| |].
  - destruct used; [|by left].
    destruct (pick_old_dated _ _ _ _ _ _ _ _ _ Hpick) as (t & -> & Ht).
    right. by exists t.
  - destruct (index "PO_No" headers) as [i|]; [|by injection Hpo as <-].
    unfold getitem in Hpo. destruct (sel !! i); [|done]. by injection Hpo as <-.
Qed.

(** X14.  A price lookup answers in one of two ways.  Either it gives back
    the chart price, with no PO number and a status that is neither
    "Success" nor "Old Price from ...": this is so for every failure (time
    out, exception, HTTP error, no rows, missing columns, no row of the
    customer, no suitable row).  Or the status is "Success" or "Old Price
    from" the ship date of a row of the service's table, not dated after
    today, and the price and PO number are the [Unit_Price] and [PO_No]
    cells of that row. *)
Theorem price_answer_is_chart_price_or_a_row (api : price_api) today part_key
    date_begin_str username password chart name names price status po :
  query_price_api api today part_key date_begin_str username password chart
    name names = (price, status, po) ->
  (price = VNum chart /\ po = VStr "" /\ ~ priced_status status) \/
  (exists resp rows headers pi di sel,
      api username password part_key date_begin_str = Ret resp /\
      status_code resp = 200%Z /\ table resp = Some (rows, headers) /\
      index "Unit_Price" headers = Some pi /\
      index "Require_Ship_Date" headers = Some di /\
      sel ∈ rows /\ sel !! pi = Some price /\
      not_future today (row_date di sel) /\
      (status = "Success" \/
       exists t, row_date di sel = Some t /\
                 status = "Old Price from " +:+ strftime_ymd t) /\
      match index "PO_No" headers with
      | Some i => sel !! i = Some po
      | None => po = VStr ""
      end).
Proof.
  assert (forall s, (exists c rest, s = String c rest /\ c <> "S"%char /\ c <> "O"%char) ->
                    ~ priced_status s) as Hfail.
  { intros s (c & rest & -> & HS & HO) [Hs|[t Hs]]; [congruence|].
    change ("Old Price from " +:+ strftime_ymd t)
      with (String "O" ("ld Price from " +:+ strftime_ymd t)) in Hs.
    congruence. }
  assert (forall e p s o,
            match e with
            | Timeout => (VNum chart, "Timed Out", VStr "")
            | _ => (VNum chart, "PO API exception: " +:+ exn_message e, VStr "")
            end = (p, s, o) ->
            p = VNum chart /\ o = VStr "" /\ ~ priced_status s) as Hexn.
  { intros e p s o He.
    destruct e; injection He as <- <- <-;
      (split_and!; [done..|apply Hfail; by eexists _, _]). }
  unfold query_price_api. cbv zeta.
  destruct (api username password part_key date_begin_str) as [resp|e] eqn:Hapi.
  2: { intros He. left. by apply (Hexn e). }
  destruct (status_code resp =? 200)%Z eqn:Hcode.
  2: { intros [= <- <- <-]. left. split_and!; [done..|apply Hfail; by eexists _, _]. }
  apply Z.eqb_eq in Hcode.
  destruct (table resp) as [[rows headers]|] eqn:Htable; simpl.
  2: { intros [= <- <- <-]. left. split_and!; [done..|apply Hfail; by eexists _, _]. }
  destruct rows as [|r0 rows].
  { intros [= <- <- <-]. left. split_and!; [done..|apply Hfail; by eexists _, _]. }
  destruct headers as [|h headers].
  { intros [= <- <- <-]. left. split_and!; [done..|apply Hfail; by eexists _, _]. }
  destruct (_select_price_from_rows (r0 :: rows) (h :: headers) name names chart
              date_begin_str today) as [[[p s] o]|e] eqn:Hsel.
  2: { intros He. left. by apply (Hexn e). }
  intros [= <- <- <-].
  destruct (select_price_cases _ _ _ _ _ _ _ _ _ _ Hsel)
    as [?|(pi & di & sel & ? & ? & ? & ? & ? & ? & ?)]; [by left|].
  right. exists resp, (r0 :: rows), (h :: headers), pi, di, sel. by split_and!.
Qed.
End PriceAnswers.

Lemma price_answer_is_chart_price_or_a_row_witness :
  exists price status po,
    query_price_api Run.price_service Orders.today (VStr "K3") "2026-01-01T00:00:00Z"
      "user" "secret" (qc 11) "Lear" ["lear"] = (price, status, po) /\
    ((price = VNum (qc 11) /\ po = VStr "" /\ ~ priced_status status) \/
     (exists resp rows headers pi di sel,
         Run.price_service "user" "secret" (VStr "K3") "2026-01-01T00:00:00Z"
         = Ret resp /\
         status_code resp = 200%Z /\ table resp = Some (rows, headers) /\
         index "Unit_Price" headers = Some pi /\
         index "Require_Ship_Date" headers = Some di /\
         sel ∈ rows /\ sel !! pi = Some price /\
         not_future Orders.today (row_date di sel) /\
         (status = "Success" \/
          exists t, row_date di sel = Some t /\
                    status = "Old Price from " +:+ strftime_ymd t) /\
         match index "PO_No" headers with
         | Some i => sel !! i = Some po
         | None => po = VStr ""
         end)).
Proof.
  destruct (query_price_api Run.price_service Orders.today (VStr "K3")
              "2026-01-01T00:00:00Z" "user" "secret" (qc 11) "Lear" ["lear"])
    as [[price status] po] eqn:Hrun.
  exists price, status, po. split; [reflexivity|].
  exact (price_answer_is_chart_price_or_a_row Run.price_service Orders.today
           (VStr "K3") "2026-01-01T00:00:00Z" "user" "secret" (qc 11) "Lear" ["lear"]
           price status po Hrun).
Defined.

(** ** The customer list and the customer filter *)

Section CustomerList.
Context `{PyBuiltins}.

Lemma lower_char_idemp c : PyStr.lower_char (PyStr.lower_char c) = PyStr.lower_char c.
Proof. by destruct c as [[] [] [] [] [] [] [] []]. Qed.

Lemma lower_idemp s : PyStr.lower (PyStr.lower s) = PyStr.lower s.
Proof. induction s as [|c s IH]; simpl; [done|]. by rewrite lower_char_idemp, IH. Qed.

Lemma prefix_refl s : String.prefix s s = true.
Proof.
  induction s as [|c s IH]; simpl; [done|]. by destruct (ascii_dec c c).
Qed.

Lemma contains_refl s : PyStr.contains s s = true.
Proof.
  destruct s as [|c s]; [done|].
  change (PyStr.contains (String c s) (String c s))
    with (String.prefix (String c s) (String c s) || PyStr.contains (String c s) s).
  by rewrite prefix_refl.
Qed.

Lemma fuzzy_eq_refl s : fuzzy_eq s s = true.
Proof.
  unfold fuzzy_eq. rewrite contains_refl. simpl. apply Z.leb_le. lia.
Qed.

Lemma fuzzy_loop_first target cands :
  match fuzzy_loop target cands with
  | Some m =>
      exists l1 l2,
        cands = l1 ++ m :: l2 /\
        fuzzy_eq target (PyStr.strip (PyStr.lower m)) = true /\
        Forall (fun c => fuzzy_eq target (PyStr.strip (PyStr.lower c)) = false) l1
  | None =>
      Forall (fun c => fuzzy_eq target (PyStr.strip (PyStr.lower c)) = false) cands
  end.
Proof.
  induction cands as [|c cands IH]; simpl; [done|].
  destruct (fuzzy_eq target (PyStr.strip (PyStr.lower c))) eqn:Hc.
  - by exists [], cands.
  - destruct (fuzzy_loop target cands) as [m|].
    + destruct IH as (l1 & l2 & -> & Hm & Hl1). exists (c :: l1), l2.
      split_and!; [done..|]. by constructor.
    + by constructor.
Qed.

Lemma foldl_code_to_name rows (m0 : gmap string string) code name :
  foldl (fun m '(code, name) =>
           <[PyStr.lower (PyStr.strip code) := PyStr.strip name]> m) m0 rows
    !! code = Some name ->
  m0 !! code = Some name \/
  exists c0 n0, (c0, n0) ∈ rows /\ code = PyStr.lower (PyStr.strip c0) /\
                name = PyStr.strip n0.
Proof.
  revert m0. induction rows as [|[c n] rows IH]; intros m0; simpl; [by left|].
  intros Hl. destruct (IH _ Hl) as [Hm|(c0 & n0 & Hin & ? & ?)].
  - rewrite lookup_insert in Hm. destruct (decide _) as [Heq|Hne].
    + injection Hm as <-. right. exists c, n. split_and!; [by left|done..].
    + by left.
  - right. exists c0, n0. split_and!; [by right|done..].
Qed.

(** X15.  A customer of the customer list is always matched.  When the
    customer code of a part is in the list, the name the list gives for it
    passes the fuzzy test against its own lower-cased entry of the set of
    names, so the fuzzy match finds a name: the first name, in the order in
    which the set is iterated, that passes the test.  That is the
    customer's own name only if no name before it passes too. *)
Theorem listed_customer_is_always_matched rows order code name :
  code_to_name rows !! code = Some name ->
  iterates (name_set rows) order ->
  PyStr.lower name ∈ name_set rows /\
  fuzzy_eq (PyStr.strip (PyStr.lower name))
    (PyStr.strip (PyStr.lower (PyStr.lower name))) = true /\
  exists m l1 l2,
    _fuzzy_match_customer name order = Some m /\
    order = l1 ++ m :: l2 /\
    m ∈ name_set rows /\
    fuzzy_eq (PyStr.strip (PyStr.lower name)) (PyStr.strip (PyStr.lower m)) = true /\
    Forall (fun c => fuzzy_eq (PyStr.strip (PyStr.lower name))
                       (PyStr.strip (PyStr.lower c)) = false) l1.
Proof.
  intros Hname Horder. unfold code_to_name in Hname.
  apply foldl_code_to_name in Hname as [Hname|(c0 & n0 & Hin & _ & ->)];
    [by rewrite lookup_empty in Hname|].
  assert (PyStr.lower (PyStr.strip n0) ∈ name_set rows) as Hset.
  { unfold name_set. apply elem_of_list_to_set, list_elem_of_fmap.
    by exists (c0, n0). }
  assert (fuzzy_eq (PyStr.strip (PyStr.lower (PyStr.strip n0)))
            (PyStr.strip (PyStr.lower (PyStr.lower (PyStr.strip n0)))) = true) as Hown.
  { rewrite lower_idemp. apply fuzzy_eq_refl. }
  split_and!; [done..|].
  unfold _fuzzy_match_customer.
  pose proof (fuzzy_loop_first (PyStr.strip (PyStr.lower (PyStr.strip n0))) order)
    as Hloop.
  destruct (fuzzy_loop _ order) as [m|].
  - destruct Hloop as (l1 & l2 & -> & Hm & Hl1). exists m, l1, l2.
    split_and!; [done..| |done|done]. apply Horder.
    rewrite elem_of_app, elem_of_cons. by right; left.
  - exfalso. rewrite Forall_forall in Hloop.
    apply Horder in Hset. specialize (Hloop _ Hset). congruence.
Qed.
End CustomerList.

Lemma listed_customer_is_always_matched_witness :
  code_to_name [("ACME", "Lear "); ("L2", "Lear 2")] !! "acme" = Some "Lear" /\
  iterates (name_set [("ACME", "Lear "); ("L2", "Lear 2")]) ["lear 2"; "lear"] /\
  exists m l1 l2,
    _fuzzy_match_customer "Lear" ["lear 2"; "lear"] = Some m /\
    ["lear 2"; "lear"] = l1 ++ m :: l2 /\
    m ∈ name_set [("ACME", "Lear "); ("L2", "Lear 2")] /\
    fuzzy_eq (PyStr.strip (PyStr.lower "Lear")) (PyStr.strip (PyStr.lower m)) = true /\
    Forall (fun c => fuzzy_eq (PyStr.strip (PyStr.lower "Lear"))
                       (PyStr.strip (PyStr.lower c)) = false) l1.
Proof.
  assert (code_to_name [("ACME", "Lear "); ("L2", "Lear 2")] !! "acme" = Some "Lear")
    as Hname by reflexivity.
  assert (iterates (name_set [("ACME", "Lear "); ("L2", "Lear 2")]) ["lear 2"; "lear"])
    as Horder.
  { intros x. unfold name_set. rewrite elem_of_list_to_set.
    change ((fun '(_, name) => PyStr.lower (PyStr.strip name)) <$>
              [("ACME", "Lear "); ("L2", "Lear 2")]) with ["lear"; "lear 2"].
    rewrite !elem_of_cons. tauto. }
  split; [exact Hname|]. split; [exact Horder|].
  exact (proj2 (proj2 (listed_customer_is_always_matched _ _ _ _ Hname Horder))).
Defined.

(** ** Credentials *)

Section Credentials.

Lemma prefix_colon c t : String.prefix ":" (String c t) = Ascii.eqb c ":".
Proof.
  change (String.prefix ":" (String c t))
    with (if ascii_dec ":" c then String.prefix "" t else false).
  destruct (ascii_dec ":" c) as [<-|Hne]; [by destruct t|].
  symmetry. apply Ascii.eqb_neq. congruence.
Qed.

Lemma split_once_colon s user password :
  PyStr.contains ":" s = true ->
  Auth.split_once ":" s = (user, password) ->
  s = user +:+ ":" +:+ password /\ PyStr.contains ":" user = false.
Proof.
  revert user. induction s as [|c t IH]; intros user; [done|].
  change (PyStr.contains ":" (String c t))
    with (String.prefix ":" (String c t) || PyStr.contains ":" t).
  rewrite prefix_colon. simpl.
  destruct (Ascii.eqb_spec c ":") as [->|Hne]; simpl.
  - by intros _ [= <- <-].
  - intros Ht. destruct (Auth.split_once ":" t) as [u p] eqn:Hsplit.
    intros [= <- <-]. destruct (IH u Ht eq_refl) as [-> Hu].
    split; [done|].
    change (PyStr.contains ":" (String c u))
      with (String.prefix ":" (String c u) || PyStr.contains ":" u).
    rewrite prefix_colon, Hu. by apply Ascii.eqb_neq in Hne as ->.
Qed.

(** X16.  A PCN that is not a key of the map of credentials gets the
    credentials of the default PCN: the call succeeds exactly when the call
    for "SCS" does, with the same user and password.  This is so for the
    two texts the chart reader gives for a missing PCN, "95506" and "nan".
    A PCN that is a key of the map but whose environment variable is not
    set does not fall back: the call raises. *)
Theorem unknown_pcn_uses_default_credentials env :
  (forall pcn r,
      Auth.PCN_AUTH_MAP env !! pcn = None ->
      Auth.get_auth_for_pcn env pcn = Ret r <->
      Auth.get_auth_for_pcn env DEFAULT_PCN = Ret r) /\
  (forall r,
      (Auth.get_auth_for_pcn env "95506" = Ret r <->
       Auth.get_auth_for_pcn env DEFAULT_PCN = Ret r) /\
      (Auth.get_auth_for_pcn env "nan" = Ret r <->
       Auth.get_auth_for_pcn env DEFAULT_PCN = Ret r)) /\
  (forall pcn,
      Auth.PCN_AUTH_MAP env !! pcn = Some None ->
      exists e, Auth.get_auth_for_pcn env pcn = Raise e).
Proof.
  assert (forall pcn r,
             Auth.PCN_AUTH_MAP env !! pcn = None ->
             Auth.get_auth_for_pcn env pcn = Ret r <->
             Auth.get_auth_for_pcn env DEFAULT_PCN = Ret r) as Hunknown.
  { intros pcn r Hpcn. unfold Auth.get_auth_for_pcn. cbv zeta. rewrite Hpcn.
    assert (Auth.PCN_AUTH_MAP env !! DEFAULT_PCN = Some (Auth.getenv env "SCS_AUTH"))
      as -> by reflexivity.
    simpl. destruct (Auth.getenv env "SCS_AUTH" ≫= Auth.b64decode_utf8 env)
      as [decoded|]; [|done].
    by destruct (PyStr.contains ":" (PyStr.strip decoded)). }
  split_and!.
  - exact Hunknown.
  - intros r. split; by apply Hunknown.
  - intros pcn Hpcn. unfold Auth.get_auth_for_pcn. cbv zeta. rewrite Hpcn. simpl.
    by eauto.
Qed.

(** X17.  The credentials are the decoded text, trimmed, cut at its first
    colon: the user holds no colon, the password is all that follows, and
    the two joined by a colon give the trimmed text back. *)
Theorem credentials_are_split_at_the_first_colon env pcn user password :
  Auth.get_auth_for_pcn env pcn = Ret (user, password) ->
  PyStr.contains ":" user = false /\
  exists b64 decoded,
    default (default None (Auth.PCN_AUTH_MAP env !! DEFAULT_PCN))
      (Auth.PCN_AUTH_MAP env !! pcn) = Some b64 /\
    Auth.b64decode_utf8 env b64 = Some decoded /\
    PyStr.strip decoded = user +:+ ":" +:+ password.
Proof.
  unfold Auth.get_auth_for_pcn. cbv zeta.
  destruct (default _ (Auth.PCN_AUTH_MAP env !! pcn)) as [b64|]; [|done]. simpl.
  destruct (Auth.b64decode_utf8 env b64) as [decoded|] eqn:Hdec; [|done].
  destruct (PyStr.contains ":" (PyStr.strip decoded)) eqn:Hcolon; [|done].
  intros [= Hsplit].
  destruct (split_once_colon _ _ _ Hcolon Hsplit) as [Hjoin Huser].
  split; [done|]. by exists b64, decoded.
Qed.
End Credentials.

Lemma unknown_pcn_uses_default_credentials_witness :
  Auth.PCN_AUTH_MAP
    (Auth.mkEnvironment (fun _ => Some "dXNlcjpwdzox") (fun _ => Some " user:pw:1 "))
    !! "95506" = None /\
  (Auth.get_auth_for_pcn
     (Auth.mkEnvironment (fun _ => Some "dXNlcjpwdzox") (fun _ => Some " user:pw:1 "))
     "95506" = Ret ("user", "pw:1") <->
   Auth.get_auth_for_pcn
     (Auth.mkEnvironment (fun _ => Some "dXNlcjpwdzox") (fun _ => Some " user:pw:1 "))
     DEFAULT_PCN = Ret ("user", "pw:1")).
Proof.
  split; [reflexivity|].
  apply (proj1 (unknown_pcn_uses_default_credentials
                  (Auth.mkEnvironment (fun _ => Some "dXNlcjpwdzox")
                     (fun _ => Some " user:pw:1 ")))).
  reflexivity.
Defined.

Lemma credentials_are_split_at_the_first_colon_witness :
  Auth.get_auth_for_pcn
    (Auth.mkEnvironment (fun _ => Some "dXNlcjpwdzox") (fun _ => Some " user:pw:1 "))
    "SCS" = Ret ("user", "pw:1") /\
  PyStr.contains ":" "user" = false /\
  exists b64 decoded,
    default (default None
               (Auth.PCN_AUTH_MAP
                  (Auth.mkEnvironment (fun _ => Some "dXNlcjpwdzox")
                     (fun _ => Some " user:pw:1 ")) !! DEFAULT_PCN))
      (Auth.PCN_AUTH_MAP
         (Auth.mkEnvironment (fun _ => Some "dXNlcjpwdzox")
            (fun _ => Some " user:pw:1 ")) !! "SCS") = Some b64 /\
    Auth.b64decode_utf8
      (Auth.mkEnvironment (fun _ => Some "dXNlcjpwdzox") (fun _ => Some " user:pw:1 "))
      b64 = Some decoded /\
    PyStr.strip decoded = "user" +:+ ":" +:+ "pw:1".
Proof.
  assert (Auth.get_auth_for_pcn
            (Auth.mkEnvironment (fun _ => Some "dXNlcjpwdzox")
               (fun _ => Some " user:pw:1 ")) "SCS" = Ret ("user", "pw:1")) as Hrun
    by reflexivity.
  split; [exact Hrun|].
  exact (credentials_are_split_at_the_first_colon _ _ _ _ Hrun).
Defined.

(** ** Processing a part twice, and the report *)

Section Reporting.
Context `{PyBuiltins}.

(** What a result takes over from its part. *)
Lemma process_part_fields (w : world) part names customer_names c r c' :
  _process_part w part names customer_names c = (Some r, c') ->
  r_part_number r = pretty (part_number part) /\
  r_chart_price r = price part /\
  r_pcn r = pcn_of part /\
  r_customer r = customer_name_of names part /\
  r_effective_date r = part_date part.
Proof.
  unfold _process_part.
  destruct (get_auth_for_pcn w (pcn_of part)) as [[user password]|]; [|done].
  cbv zeta.
  destruct (retrieve_part_key _ _ _ _ _ _) as [[pk status] pkc] eqn:Hkey.
  destruct (truthy pk) eqn:Hpk; cbn [negb]; cbv beta iota.
  - destruct (price_lookup_cache c !! _) as [[[ap st] po]|].
    + by intros [= <- _].
    + destruct (query_price_api _ _ _ _ _ _ _ _ _) as [[ap st] po].
      by intros [= <- _].
  - by intros [= <- _].
Qed.

(** X18.  A part whose key was found is answered from the two caches when
    it is processed again: with the caches the first run left, the same
    credentials and the same clock, the second run gives the same result
    and leaves the caches as they are, whatever the two services would
    answer and whatever the set of customer names is. *)
Theorem resolved_part_is_answered_from_the_caches (w w' : world) part names
    customer_names customer_names' c r c' :
  _process_part w part names customer_names c = (Some r, c') ->
  truthy (r_part_key r) = true ->
  get_auth_for_pcn w' (pcn_of part) = get_auth_for_pcn w (pcn_of part) ->
  clock w' = clock w ->
  _process_part w' part names customer_names' c' = (Some r, c').
Proof.
  unfold _process_part. intros Hrun Hr Hauth Hclock. rewrite Hauth, Hclock.
  destruct (get_auth_for_pcn w (pcn_of part)) as [[user password]|]; [|done].
  cbv zeta in *.
  destruct (retrieve_part_key (part_keys w) _ _ _ _ _) as [[pk status] pkc] eqn:Hkey.
  destruct (truthy pk) eqn:Hpk; cbn [negb] in Hrun; cbv beta iota in Hrun.
  2: { injection Hrun as <- _. simpl in Hr. congruence. }
  destruct (retrieve_part_key_again (part_keys w) (part_keys w') _ _ _ _
              user password _ _ _ _ Hkey Hpk) as [-> Hagain].
  set (key := (pk, customer_code_raw_of part, pcn_of part,
               (compute_effective_month_start (part_date part) (clock w)).2)) in *.
  destruct (price_lookup_cache c !! key) as [[[ap st] po]|] eqn:Hhit.
  - injection Hrun as <- <-. cbn [part_key_cache price_lookup_cache].
    rewrite Hagain, Hpk. cbn [negb]. cbv beta iota. fold key. by rewrite Hhit.
  - destruct (query_price_api (prices w) _ _ _ _ _ _ _ _) as [[ap st] po] eqn:Hq.
    injection Hrun as <- <-. cbn [part_key_cache price_lookup_cache].
    rewrite Hagain, Hpk. cbn [negb]. cbv beta iota. fold key.
    by rewrite lookup_insert_eq.
Qed.

Lemma select_price_status rows headers name names chart date_begin_str today
    price status po :
  _select_price_from_rows rows headers name names chart date_begin_str today
  = Ret (price, status, po) ->
  price_lookup_status name status.
Proof.
  unfold _select_price_from_rows, price_lookup_status, priced_status.
  destruct (index "Customer_Name" headers) as [ci|]; [|intros [= _ <- _]; tauto].
  destruct (index "Unit_Price" headers) as [pi|]; [|intros [= _ <- _]; tauto].
  destruct (index "Require_Ship_Date" headers) as [di|]; [|intros [= _ <- _]; tauto].
  cbv zeta.
  destruct (filtered_rows ci (matched_customer name names) rows) as [filtered|];
    [|done].
  rewrite bind_Ret. destruct filtered as [|r0 filtered].
  { destruct (matched_customer name names); intros [= _ <- _]; tauto. }
  destruct (_pick_best_price_row _ _ _ _ _ _ _) as [[[sel|] d] used];
    [|intros [= _ <- _]; tauto].
  destruct (getitem sel pi); [|done]. rewrite bind_Ret.
  destruct (match index "PO_No" headers with
            | Some i => getitem sel i
            | None => Ret (VStr "")
            end); [|done].
  rewrite bind_Ret. intros [= _ <- _].
  destruct used; [|tauto]. destruct d as [t|]; [|tauto].
  left. right. by exists t.
Qed.

Lemma query_price_status (api : price_api) today part_key date_begin_str
    username password chart name names price status po :
  query_price_api api today part_key date_begin_str username password chart
    name names = (price, status, po) ->
  price_lookup_status name status.
Proof.
  assert (forall e p s o,
            match e with
            | Timeout => (VNum chart, "Timed Out", VStr "")
            | _ => (VNum chart, "PO API exception: " +:+ exn_message e, VStr "")
            end = (p, s, o) -> price_lookup_status name s) as Hexn.
  { intros e p s o He. unfold price_lookup_status.
    destruct e; injection He as _ <- _; [| |tauto|];
      do 6 right; left; by eexists. }
  unfold query_price_api. cbv zeta.
  destruct (api username password part_key date_begin_str) as [resp|e].
  2: { apply Hexn. }
  destruct (status_code resp =? 200)%Z.
  2: { intros [= _ <- _]. do 7 right. by eexists _, _. }
  destruct (table resp) as [[rows headers]|]; simpl.
  2: { intros [= _ <- _]. unfold price_lookup_status. tauto. }
  destruct rows as [|r0 rows].
  { intros [= _ <- _]. unfold price_lookup_status. tauto. }
  destruct headers as [|h headers].
  { intros [= _ <- _]. unfold price_lookup_status. tauto. }
  destruct (_select_price_from_rows (r0 :: rows) (h :: headers) name names chart
              date_begin_str today) as [[[p s] o]|e] eqn:Hsel.
  2: { apply Hexn. }
  intros [= _ <- _]. by eapply select_price_status.
Qed.

Lemma price_lookup_status_given name status :
  price_lookup_status name status -> status <> "" /\ status <> no_part_key.
Proof.
  assert (forall s : string,
            (exists c, String.get 3 s = Some c /\ c <> "p"%char) ->
            s <> "" /\ s <> no_part_key) as Hchar.
  { intros s (c & Hs & Hc). split; intros ->; [done|].
    vm_compute in Hs. congruence. }
  intros [[->|[t ->]]|[->|[->|[->|[->|[->|[[msg ->]|(code & text & ->)]]]]]]];
    apply Hchar; eexists; (split; [vm_compute; reflexivity|done]).
Qed.

(** X19.  The status of a price lookup is never empty and never the
    status of a part without key: it is "Success", "Old Price from" a date,
    or one of the seven statuses that tell why the chart price stands. *)
Theorem price_lookup_reports_a_status (api : price_api) today part_key
    date_begin_str username password chart name names price status po :
  query_price_api api today part_key date_begin_str username password chart
    name names = (price, status, po) ->
  price_lookup_status name status /\ status <> "" /\ status <> no_part_key.
Proof.
  intros Hrun%query_price_status. split; [done|].
  by eapply price_lookup_status_given.
Qed.

(** X20.  A part whose key was found is always handed to the report
    writer: when each input file starts with an empty price cache, no entry
    of the cache ever holds the status of a part without key, so the result
    of a part with a key never has that status and is appended to the list
    of results. *)
Theorem resolved_part_is_reported (w : world) part rest names customer_names c r c' :
  cached_statuses_ok (price_lookup_cache c) ->
  _process_part w part names customer_names c = (Some r, c') ->
  truthy (r_part_key r) = true ->
  r_status r <> no_part_key /\
  cached_statuses_ok (price_lookup_cache c') /\
  main_results w (part :: rest) names customer_names c
  = (r :: (main_results w rest names customer_names c').1,
     (main_results w rest names customer_names c').2).
Proof.
  intros Hok Hrun Hr.
  assert (r_status r <> no_part_key /\ cached_statuses_ok (price_lookup_cache c'))
    as [Hstatus Hok'].
  { revert Hrun. unfold _process_part.
    destruct (get_auth_for_pcn w (pcn_of part)) as [[user password]|]; [|done].
    cbv zeta.
    destruct (retrieve_part_key _ _ _ _ _ _) as [[pk status] pkc] eqn:Hkey.
    destruct (truthy pk) eqn:Hpk; cbn [negb]; cbv beta iota.
    2: { intros [= <- _]. simpl in Hr. congruence. }
    destruct (price_lookup_cache c !! _) as [[[ap st] po]|] eqn:Hhit.
    - intros [= <- <-]. split; [|done]. exact (Hok _ _ Hhit).
    - destruct (query_price_api _ _ _ _ _ _ _ _ _) as [[ap st] po] eqn:Hq.
      apply query_price_status, price_lookup_status_given in Hq as [_ Hst].
      intros [= <- <-]. split; [done|].
      cbn [price_lookup_cache]. intros k v. rewrite lookup_insert.
      destruct (decide _); [by intros [= <-]|]. apply Hok. }
  split_and!; [done..|].
  cbn [main_results]. rewrite Hrun.
  destruct (main_results w rest names customer_names c') as [results c''].
  destruct (String.eqb_spec (r_status r) no_part_key); done.
Qed.

Lemma process_part_unresolved_status (w : world) part names customer_names c r c' :
  _process_part w part names customer_names c = (Some r, c') ->
  truthy (r_part_key r) = false ->
  r_status r = no_part_key \/ r_status r = "Timed Out".
Proof.
  unfold _process_part.
  destruct (get_auth_for_pcn w (pcn_of part)) as [[user password]|]; [|done].
  cbv zeta.
  pose proof (retrieve_part_key_status (part_keys w) (pretty (part_number part))
                (customer_code_raw_of part) user password (part_key_cache c)) as Hs.
  destruct (retrieve_part_key _ _ _ _ _ _) as [[pk status] pkc] eqn:Hkey.
  simpl in Hs.
  destruct (truthy pk) eqn:Hpk; cbn [negb]; cbv beta iota.
  - destruct (price_lookup_cache c !! _) as [[[ap st] po]|].
    + intros [= <- _]. simpl. congruence.
    + destruct (query_price_api _ _ _ _ _ _ _ _ _) as [[ap st] po].
      intros [= <- _]. simpl. congruence.
  - intros [= <- _] _. simpl. destruct Hs as [->| ->]; [by left|by right].
Qed.

(** X21.  The list handed to the report writer follows the parts of the
    input file: its results are those of a sub-sequence of the parts, in
    their order, each with the number, chart price, PCN and date of its
    part; each either has a part key or has the status "Timed Out", and
    none has the status of a part without key. *)
Theorem report_follows_the_parts (w : world) parts names customer_names c :
  exists kept,
    sublist kept parts /\
    Forall2 (fun part r =>
               r_part_number r = pretty (part_number part) /\
               r_chart_price r = price part /\
               r_pcn r = pcn_of part /\
               r_customer r = customer_name_of names part /\
               r_effective_date r = part_date part)
      kept (main_results w parts names customer_names c).1 /\
    Forall (fun r => r_status r <> no_part_key /\
                     (truthy (r_part_key r) = true \/ r_status r = "Timed Out"))
      (main_results w parts names customer_names c).1.
Proof.
  revert c. induction parts as [|part parts IH]; intros c.
  { exists []. by split_and!. }
  cbn [main_results].
  destruct (_process_part w part names customer_names c) as [[r|] c'] eqn:Hrun.
  - destruct (IH c') as (kept & Hsub & Hfields & Hstatus).
    destruct (main_results w parts names customer_names c') as [results c''].
    destruct (String.eqb_spec (r_status r) no_part_key) as [Heq|Hne]; simpl in *.
    + exists kept. split_and!; [by apply sublist_cons|done..].
    + exists (part :: kept). split_and!.
      * by apply sublist_skip.
      * constructor; [|done]. by eapply process_part_fields.
      * constructor; [|done]. split; [done|].
        destruct (truthy (r_part_key r)) eqn:Hk; [by left|].
        destruct (process_part_unresolved_status _ _ _ _ _ _ _ Hrun Hk); [done|].
        by right.
  - destruct (IH c') as (kept & Hsub & Hfields & Hstatus).
    destruct (main_results w parts names customer_names c') as [results c''].
    exists kept. split_and!; [by apply sublist_cons|done..].
Qed.
End Reporting.

Lemma resolved_part_is_answered_from_the_caches_witness :
  exists r c',
    _process_part Run.online (Run.part "acme" (mkDate 2026 1 5)) Run.names ["lear"]
      Run.fresh = (Some r, c') /\
    truthy (r_part_key r) = true /\
    _process_part Run.timing_out (Run.part "acme" (mkDate 2026 1 5)) Run.names []
      c' = (Some r, c').
Proof.
  assert (match (_process_part Run.online (Run.part "acme" (mkDate 2026 1 5))
                   Run.names ["lear"] Run.fresh).1 with
          | Some r => truthy (r_part_key r)
          | None => false
          end = true) as Hkey by (vm_compute; reflexivity).
  destruct (_process_part Run.online (Run.part "acme" (mkDate 2026 1 5)) Run.names
              ["lear"] Run.fresh) as [[r|] c'] eqn:Hrun; [|discriminate Hkey].
  simpl in Hkey. exists r, c'. split; [reflexivity|]. split; [exact Hkey|].
  exact (resolved_part_is_answered_from_the_caches Run.online Run.timing_out
           (Run.part "acme" (mkDate 2026 1 5)) Run.names ["lear"] [] Run.fresh r c'
           Hrun Hkey eq_refl eq_refl).
Defined.

Lemma price_lookup_reports_a_status_witness :
  exists price status po,
    query_price_api Run.price_service Orders.today (VStr "K3") "2026-01-01T00:00:00Z"
      "user" "secret" (qc 11) "Lear" ["lear"] = (price, status, po) /\
    price_lookup_status "Lear" status /\ status <> "" /\ status <> no_part_key.
Proof.
  destruct (query_price_api Run.price_service Orders.today (VStr "K3")
              "2026-01-01T00:00:00Z" "user" "secret" (qc 11) "Lear" ["lear"])
    as [[price status] po] eqn:Hrun.
  exists price, status, po. split; [reflexivity|].
  exact (price_lookup_reports_a_status Run.price_service Orders.today
           (VStr "K3") "2026-01-01T00:00:00Z" "user" "secret" (qc 11) "Lear" ["lear"]
           price status po Hrun).
Defined.

Lemma resolved_part_is_reported_witness :
  cached_statuses_ok (price_lookup_cache Run.fresh) /\
  exists r c',
    _process_part Run.online (Run.part "acme" (mkDate 2026 1 5)) Run.names ["lear"]
      Run.fresh = (Some r, c') /\
    truthy (r_part_key r) = true /\
    r_status r <> no_part_key /\
    cached_statuses_ok (price_lookup_cache c') /\
    main_results Run.online
      [Run.part "acme" (mkDate 2026 1 5); Run.part "magna" (mkDate 2026 1 5)]
      Run.names ["lear"] Run.fresh
    = (r :: (main_results Run.online [Run.part "magna" (mkDate 2026 1 5)]
               Run.names ["lear"] c').1,
       (main_results Run.online [Run.part "magna" (mkDate 2026 1 5)]
          Run.names ["lear"] c').2).
Proof.
  assert (cached_statuses_ok (price_lookup_cache Run.fresh)) as Hok.
  { intros k v Hk. simpl in Hk. by rewrite lookup_empty in Hk. }
  split; [exact Hok|].
  assert (match (_process_part Run.online (Run.part "acme" (mkDate 2026 1 5))
                   Run.names ["lear"] Run.fresh).1 with
          | Some r => truthy (r_part_key r)
          | None => false
          end = true) as Hkey by (vm_compute; reflexivity).
  destruct (_process_part Run.online (Run.part "acme" (mkDate 2026 1 5)) Run.names
              ["lear"] Run.fresh) as [[r|] c'] eqn:Hrun; [|discriminate Hkey].
  simpl in Hkey. exists r, c'. split; [reflexivity|]. split; [exact Hkey|].
  exact (resolved_part_is_reported Run.online (Run.part "acme" (mkDate 2026 1 5))
           [Run.part "magna" (mkDate 2026 1 5)] Run.names ["lear"] Run.fresh r c'
           Hok Hrun Hkey).
Defined.

(** ** The effective month, customers of a row, errors of the identity service *)

Section Edges.
Context `{PyBuiltins}.

(** X22.  The effective date of a part is always the first instant of a
    month, printed as YYYY-MM-01T00:00:00Z: the month of the part's date
    when pandas reads it, and the month of today when the part has no date,
    when its date cannot be read, or when it reads as [datetime.min]. *)
Theorem effective_month_falls_back_to_today od today :
  (exists t,
      compute_effective_month_start od today
      = (mkDatetime (mkDate (year (dt_date t)) (month (dt_date t)) 1) 0 0 0 0,
         PyStr.pad4 (year (dt_date t)) +:+ "-" +:+ PyStr.pad2 (month (dt_date t))
         +:+ "-01T00:00:00Z") /\
      (t = today \/
       exists d, od = Some d /\ timestamp_of_date d = Some t /\ t <> datetime_min)) /\
  (od = None \/
   (exists d, od = Some d /\
      (timestamp_of_date d = None \/ timestamp_of_date d = Some datetime_min)) ->
   compute_effective_month_start od today
   = compute_effective_month_start None today).
Proof.
  unfold compute_effective_month_start. cbv zeta. split.
  - destruct (od ≫= timestamp_of_date) as [t|] eqn:Hts.
    + destruct (decide (t = datetime_min)) as [Heq|Hne].
      * exists today. split; [done|by left].
      * exists t. split; [done|]. right.
        destruct od as [d|]; [|done]. by exists d.
    + exists today. rewrite decide_True by done. split; [done|by left].
  - intros [->|(d & -> & [Hd|Hd])]; [done| |]; simpl; rewrite Hd; simpl.
    + done.
    + done.
Qed.



Lemma select_part_key_no_rows headers code enforce :
  _select_part_key_from_rows [] headers code enforce = Ret (VNone, "").
Proof. done. Qed.

(** X24.  An HTTP error of the identity service is not reported.  When the
    service answers both queries for a part with a status code other than
    200, and the cache has no key for the part, the lookup returns no key
    and no status, just as for a part the service does not know; the part
    then gets the status of a part without key and is left out of the list
    handed to the report writer. *)
Theorem http_error_of_the_identity_service_drops_the_part (w : world) post part rest
    names customer_names c user password :
  part_keys w = _query_part_key_api post ->
  get_auth_for_pcn w (pcn_of part) = Ret (user, password) ->
  (forall field, exists resp,
      post user password (pretty (part_number part)) field = Ret resp /\
      status_code resp <> 200%Z) ->
  part_key_cache c !! _build_cache_key (pretty (part_number part))
                        (PyStr.lower (PyStr.strip (customer_code_raw_of part))) = None ->
  part_key_cache c !! pretty (part_number part) = None ->
  retrieve_part_key (part_keys w) (pretty (part_number part))
    (customer_code_raw_of part) user password (part_key_cache c)
  = ((VNone, ""), part_key_cache c) /\
  (exists r, _process_part w part names customer_names c = (Some r, c) /\
             r_status r = no_part_key /\ r_plex_price r = VNum (price part)) /\
  main_results w (part :: rest) names customer_names c
  = main_results w rest names customer_names c.
Proof.
  intros Hapi Hauth Hpost Hmiss Hmiss'.
  assert (retrieve_part_key (part_keys w) (pretty (part_number part))
            (customer_code_raw_of part) user password (part_key_cache c)
          = ((VNone, ""), part_key_cache c)) as Hkey.
  { unfold retrieve_part_key. cbv zeta. rewrite Hmiss, Hmiss'. simpl.
    assert (forall b : bool, truthy (if b then VNone else VNone) = false) as ->
      by (by intros []).
    rewrite Hapi. unfold lookup_part_key, _query_part_key_api.
    destruct (Hpost "Part_No") as (resp & -> & Hcode).
    rewrite bind_Ret. apply Z.eqb_neq in Hcode. rewrite Hcode, bind_Ret.
    cbv beta iota. rewrite select_part_key_no_rows, bind_Ret. cbv beta iota.
    cbn [truthy].
    destruct (Hpost "Customer_Part_No") as (resp' & -> & Hcode').
    rewrite bind_Ret. apply Z.eqb_neq in Hcode'. rewrite Hcode', bind_Ret.
    cbv beta iota. by rewrite select_part_key_no_rows. }
  destruct (process_part_unresolved w part names customer_names c user password
              VNone "" (part_key_cache c) Hauth Hkey eq_refl)
    as (r & Hrun & Hprice & _ & Hstatus).
  assert (mkCaches (part_key_cache c) (price_lookup_cache c) = c) as Hc
    by (by destruct c).
  rewrite Hc in Hrun. split_and!; [done|by exists r|].
  cbn [main_results]. rewrite Hrun.
  destruct (main_results w rest names customer_names c) as [results c''].
  by rewrite Hstatus.
Qed.
End Edges.

Lemma effective_month_falls_back_to_today_witness :
  compute_effective_month_start (Some (mkDate 1 1 1)) Orders.today
  = compute_effective_month_start None Orders.today.
Proof.
  apply (proj2 (effective_month_falls_back_to_today (Some (mkDate 1 1 1)) Orders.today)).
  right. exists (mkDate 1 1 1). split; [reflexivity|]. right. reflexivity.
Defined.


Lemma http_error_of_the_identity_service_drops_the_part_witness :
  main_results
    (mkWorld (fun _ => Ret ("user", "secret"))
       (_query_part_key_api (fun _ _ _ _ => Ret (Response 500 "Server Error" None)))
       Run.price_service Orders.today)
    [Run.part "acme" (mkDate 2026 1 5)] Run.names ["lear"] Run.fresh
  = main_results
      (mkWorld (fun _ => Ret ("user", "secret"))
         (_query_part_key_api (fun _ _ _ _ => Ret (Response 500 "Server Error" None)))
         Run.price_service Orders.today)
      [] Run.names ["lear"] Run.fresh.
Proof.
  refine (proj2 (proj2 (http_error_of_the_identity_service_drops_the_part
                          _ (fun _ _ _ _ => Ret (Response 500 "Server Error" None))
                          (Run.part "acme" (mkDate 2026 1 5)) [] Run.names ["lear"]
                          Run.fresh "user" "secret" _ _ _ _ _))).
  - reflexivity.
  - reflexivity.
  - intros field. exists (Response 500 "Server Error" None). split; [reflexivity|done].
  - apply lookup_empty.
  - apply lookup_empty.
Defined.

(** ** The price cache and the chart price *)

Section PriceCache.
Context `{PyBuiltins}.

(** X25.  The key of the price cache does not hold the chart price.  Once
    a part with a key was processed, another part of the same number,
    customer, PCN and date is answered from the cache, whatever its own
    chart price: it gets the price, status and PO number of the first part.
    So when the first lookup failed, the second part is reported with the
    chart price of the first as its Plex price. *)
Theorem cached_answer_ignores_the_chart_price (w w' : world) part part' names
    customer_names customer_names' c r c' :
  _process_part w part names customer_names c = (Some r, c') ->
  truthy (r_part_key r) = true ->
  part_number part' = part_number part ->
  customer part' = customer part ->
  pcn part' = pcn part ->
  part_date part' = part_date part ->
  get_auth_for_pcn w' (pcn_of part) = get_auth_for_pcn w (pcn_of part) ->
  clock w' = clock w ->
  exists r',
    _process_part w' part' names customer_names' c' = (Some r', c') /\
    r_chart_price r' = price part' /\
    r_plex_price r' = r_plex_price r /\
    r_status r' = r_status r /\
    r_po_no r' = r_po_no r /\
    r_part_key r' = r_part_key r.
Proof.
  unfold _process_part. intros Hrun Hr Hnumber Hcustomer Hpcn Hdate Hauth Hclock.
  assert (pcn_of part' = pcn_of part) as -> by (unfold pcn_of; by rewrite Hpcn).
  assert (customer_code_raw_of part' = customer_code_raw_of part) as ->
    by (unfold customer_code_raw_of; by rewrite Hcustomer).
  rewrite Hauth, Hclock, Hnumber, Hdate.
  destruct (get_auth_for_pcn w (pcn_of part)) as [[user password]|]; [|done].
  cbv zeta in *.
  destruct (retrieve_part_key (part_keys w) _ _ _ _ _) as [[pk status] pkc] eqn:Hkey.
  destruct (truthy pk) eqn:Hpk; cbn [negb] in Hrun; cbv beta iota in Hrun.
  2: { injection Hrun as <- _. simpl in Hr. congruence. }
  destruct (retrieve_part_key_again (part_keys w) (part_keys w') _ _ _ _
              user password _ _ _ _ Hkey Hpk) as [-> Hagain].
  set (key := (pk, customer_code_raw_of part, pcn_of part,
               (compute_effective_month_start (part_date part) (clock w)).2)) in *.
  destruct (price_lookup_cache c !! key) as [[[ap st] po]|] eqn:Hhit.
  - injection Hrun as <- <-. cbn [part_key_cache price_lookup_cache].
    rewrite Hagain, Hpk. cbn [negb]. cbv beta iota. fold key. rewrite Hhit.
    eexists. split; [reflexivity|]. by split_and!.
  - destruct (query_price_api (prices w) _ _ _ _ _ _ _ _) as [[ap st] po] eqn:Hq.
    injection Hrun as <- <-. cbn [part_key_cache price_lookup_cache].
    rewrite Hagain, Hpk. cbn [negb]. cbv beta iota. fold key.
    rewrite lookup_insert_eq.
    eexists. split; [reflexivity|]. by split_and!.
Qed.
End PriceCache.

Lemma cached_answer_ignores_the_chart_price_witness :
  exists r c' r',
    _process_part
      (mkWorld (fun _ => Ret ("user", "secret")) Candidates.api
         (fun _ _ _ _ => Raise Timeout) Orders.today)
      (Run.part "acme" (mkDate 2026 1 5)) Run.names ["lear"] Run.fresh
    = (Some r, c') /\
    truthy (r_part_key r) = true /\
    _process_part Run.online
      (mkExcelPart 12345 (qc 20) "T2" "" "acme" "Troy" "Seat frame, new"
         (Some (mkDate 2026 1 5)))
      Run.names ["lear"] c' = (Some r', c') /\
    r_chart_price r' = qc 20 /\
    r_plex_price r' = r_plex_price r /\
    r_status r' = r_status r /\
    r_po_no r' = r_po_no r /\
    r_part_key r' = r_part_key r.
Proof.
  assert (match (_process_part
                   (mkWorld (fun _ => Ret ("user", "secret")) Candidates.api
                      (fun _ _ _ _ => Raise Timeout) Orders.today)
                   (Run.part "acme" (mkDate 2026 1 5)) Run.names ["lear"]
                   Run.fresh).1 with
          | Some r => truthy (r_part_key r)
          | None => false
          end = true) as Hkey by (vm_compute; reflexivity).
  destruct (_process_part
              (mkWorld (fun _ => Ret ("user", "secret")) Candidates.api
                 (fun _ _ _ _ => Raise Timeout) Orders.today)
              (Run.part "acme" (mkDate 2026 1 5)) Run.names ["lear"] Run.fresh)
    as [[r|] c'] eqn:Hrun; [|discriminate Hkey].
  simpl in Hkey.
  destruct (cached_answer_ignores_the_chart_price
              (mkWorld (fun _ => Ret ("user", "secret")) Candidates.api
                 (fun _ _ _ _ => Raise Timeout) Orders.today)
              Run.online (Run.part "acme" (mkDate 2026 1 5))
              (mkExcelPart 12345 (qc 20) "T2" "" "acme" "Troy" "Seat frame, new"
                 (Some (mkDate 2026 1 5)))
              Run.names ["lear"] ["lear"] Run.fresh r c' Hrun Hkey
              eq_refl eq_refl eq_refl eq_refl eq_refl eq_refl)
    as (r' & Hrun' & Hrest).
  exists r, c', r'. split; [reflexivity|]. split; [exact Hkey|].
  split; [exact Hrun'|]. exact Hrest.
Defined.

(** ** The customer filter of the price rows *)

Section PriceFilter.
Context `{PyBuiltins}.

Lemma rows_of_customer_filter ci m rows :
  Forall (fun r => is_Some (r !! ci)) rows ->
  rows_of_customer ci m rows = Ret (filter (fun r => of_customer m ci r = true) rows).
Proof.
  induction 1 as [|r rows [cell Hcell] _ IH]; [done|].
  simpl. rewrite (getitem_Ret _ _ _ Hcell), bind_Ret, IH, bind_Ret.
  assert (of_customer m ci r = fuzzy_eq m (PyStr.lower (PyStr.strip (py_str cell))))
    as Hr by (unfold of_customer, row_customer; by rewrite Hcell).
  rewrite filter_cons, Hr. by destruct (fuzzy_eq m _).
Qed.

(** X26.  With a customer matched to the name [m], the price rows that go
    on are exactly those whose customer name, trimmed and lower-cased,
    passes the fuzzy test against [m], in their order; and the status is
    "No PO's under <customer> found", with the chart price and no PO number,
    exactly when the service listed rows and none of them passes. *)
Theorem price_rows_are_those_of_the_matched_customer rows headers name names chart
    date_begin_str today ci pi di m :
  index "Customer_Name" headers = Some ci ->
  index "Unit_Price" headers = Some pi ->
  index "Require_Ship_Date" headers = Some di ->
  matched_customer name names = Some m ->
  Forall (fun r => is_Some (r !! ci)) rows ->
  filtered_rows ci (matched_customer name names) rows
  = Ret (filter (fun r => of_customer m ci r = true) rows) /\
  (filter (fun r => of_customer m ci r = true) rows = [] <->
   exists price po,
     _select_price_from_rows rows headers name names chart date_begin_str today
     = Ret (price, "No PO's under " +:+ name +:+ " found", po)) /\
  (filter (fun r => of_customer m ci r = true) rows = [] ->
   _select_price_from_rows rows headers name names chart date_begin_str today
   = Ret (VNum chart, "No PO's under " +:+ name +:+ " found", VStr "")).
Proof.
  intros Hci Hpi Hdi Hm Hrows.
  assert (filtered_rows ci (matched_customer name names) rows
          = Ret (filter (fun r => of_customer m ci r = true) rows)) as Hf.
  { rewrite Hm. simpl. by apply rows_of_customer_filter. }
  assert (filter (fun r => of_customer m ci r = true) rows = [] ->
          _select_price_from_rows rows headers name names chart date_begin_str today
          = Ret (VNum chart, "No PO's under " +:+ name +:+ " found", VStr "")) as Hnone.
  { intros Hnil. unfold _select_price_from_rows. rewrite Hci, Hpi, Hdi. cbv zeta.
    by rewrite Hf, bind_Ret, Hnil, Hm. }
  split_and!; [done| |done].
  split; [intros Hnil; by eexists _, _; apply Hnone|].
  intros (price & po & Hrun).
  destruct (filter (fun r => of_customer m ci r = true) rows) as [|r0 kept] eqn:Hkept;
    [done|exfalso].
  revert Hrun. unfold _select_price_from_rows. rewrite Hci, Hpi, Hdi. cbv zeta.
  rewrite Hf, bind_Ret.
  assert (forall s : string,
            (exists c, String.get 3 s = Some c /\ c <> "P"%char) ->
            s <> "No PO's under " +:+ name +:+ " found") as Hchar.
  { intros s (c & Hs & Hc) ->. vm_compute in Hs. congruence. }
  destruct (_pick_best_price_row _ _ _ _ _ _ _) as [[[sel|] d] used].
  - destruct (getitem sel pi); [|done]. rewrite bind_Ret.
    destruct (match index "PO_No" headers with
              | Some i => getitem sel i
              | None => Ret (VStr "")
              end); [|done].
    rewrite bind_Ret. intros [= _ Hs _]. revert Hs. apply Hchar.
    destruct used; [destruct d|]; eexists; (split; [vm_compute; reflexivity|done]).
  - intros [=].
Qed.
End PriceFilter.

Lemma price_rows_are_those_of_the_matched_customer_witness :
  filtered_rows 0 (matched_customer "Adient" ["adient"; "lear"]) Orders.old
  = Ret (filter (fun r => of_customer "adient" 0 r = true) Orders.old) /\
  _select_price_from_rows Orders.old Orders.headers "Adient" ["adient"; "lear"]
    (qc 11) "2026-01-01T00:00:00Z" Orders.today
  = Ret (VNum (qc 11), "No PO's under " +:+ "Adient" +:+ " found", VStr "").
Proof.
  destruct (price_rows_are_those_of_the_matched_customer Orders.old Orders.headers
              "Adient" ["adient"; "lear"] (qc 11) "2026-01-01T00:00:00Z" Orders.today
              0 1 2 "adient" eq_refl eq_refl eq_refl eq_refl)
    as (Hf & _ & Hnone).
  - repeat constructor; by eexists.
  - split; [exact Hf|]. apply Hnone. reflexivity.
Defined.
